(** * cisco_network_tool: topology, validation, load estimation, simulation

A shallow embedding of the Python sources

- [utils.py]             ([is_same_network])
- [topology_builder.py]  ([TopologyBuilder])
- [validator.py]         ([ConfigValidator])
- [load_balancer.py]     ([LoadBalancer])
- [simulator.py]         ([NetworkDevice], [NetworkSimulator])

Python values are modelled as follows.  A [str] is a [string] (a byte
string; [lower] acts on ASCII letters only).  An [int] is a [Z].  A value
that may be [None] is an [option].  A [dict] is an association list with
unique keys kept in insertion order, which is the iteration order of a
Python dict.  A [float] that the code only compares or stores is modelled
by the exact rational it approximates ([Q]); the places where this is done
are marked.  Logging is not modelled. *)

From Stdlib Require Import ZArith QArith Bool List Ascii String Lia.
From Stdlib Require Import Permutation Sorted DecimalString.
From Stdlib Require DecimalZ DecimalPos.
Import ListNotations.

Local Open Scope string_scope.
Local Open Scope Z_scope.

(** ** Python built-ins *)

Module py.

(** Keys of a [dict]: a type with a boolean equality that decides [=]. *)
Class Key (K : Type) := {
  keqb : K -> K -> bool;
  keqb_spec : forall a b, keqb a b = true <-> a = b
}.

#[export] Instance Key_string : Key string :=
  {| keqb := String.eqb; keqb_spec := String.eqb_eq |}.

#[export] Instance Key_Z : Key Z :=
  {| keqb := Z.eqb; keqb_spec := Z.eqb_eq |}.

Section Dict.

Context {K V : Type} `{Key K}.

Definition dict := list (K * V).

(** [d.get(k)] *)
Fixpoint get (k : K) (d : dict) : option V :=
  match d with
  | [] => None
  | (k', v) :: r => if keqb k k' then Some v else get k r
  end.

(** [d[k] = v]: an existing key keeps its position, a new key goes last. *)
Fixpoint set (k : K) (v : V) (d : dict) : dict :=
  match d with
  | [] => [(k, v)]
  | (k', v') :: r => if keqb k k' then (k', v) :: r else (k', v') :: set k v r
  end.

Definition keys (d : dict) : list K := map fst d.
Definition values (d : dict) : list V := map snd d.

(** [k in d] *)
Definition contains (k : K) (d : dict) : bool :=
  match get k d with Some _ => true | None => false end.

End Dict.
Arguments dict : clear implicits.

(** [x in l] for a list of keys. *)
Definition mem {K} `{Key K} (x : K) (l : list K) : bool :=
  existsb (keqb x) l.

(** Truth value of an optional string: [None] and [''] are false. *)
Definition truthy (s : option string) : bool :=
  match s with
  | Some (String _ _) => true
  | _ => false
  end.

(** [x or default] on an optional integer: [None] and [0] are false. *)
Definition or_int (x : option Z) (default : Z) : Z :=
  match x with
  | Some 0 | None => default
  | Some n => n
  end.

Definition lower_ascii (c : ascii) : ascii :=
  let n := nat_of_ascii c in
  if (Nat.leb 65 n && Nat.leb n 90)%bool then ascii_of_nat (n + 32) else c.

(** [s.lower()] *)
Fixpoint lower (s : string) : string :=
  match s with
  | EmptyString => EmptyString
  | String c r => String (lower_ascii c) (lower r)
  end.

(** [s.startswith(p)] *)
Definition startswith (s p : string) : bool := String.prefix p s.

(** [sub in s] *)
Fixpoint has_substring (sub s : string) : bool :=
  (String.prefix sub s ||
   match s with
   | EmptyString => false
   | String _ r => has_substring sub r
   end)%bool.

(** [s.split(sep)] for a one-character separator. *)
Fixpoint split (sep : ascii) (s : string) : list string :=
  match s with
  | EmptyString => [EmptyString]
  | String c r =>
      if Ascii.eqb c sep then EmptyString :: split sep r
      else match split sep r with
           | h :: t => String c h :: t
           | [] => [String c EmptyString]
           end
  end.

(** [str(n)] for an [int]. *)
Definition str_int (n : Z) : string := NilZero.string_of_int (Z.to_int n).

(** [str(x)] for an optional string, as an f-string formats it. *)
Definition str_opt (s : option string) : string :=
  match s with Some x => x | None => "None" end.

(** [l[:k]] *)
Definition slice_to {A} (k : Z) (l : list A) : list A :=
  if k <? 0 then firstn (Nat.sub (List.length l) (Z.to_nat (- k))) l
  else firstn (Z.to_nat k) l.

(** Outcome of a call that may raise. *)
Inductive exn : Type :=
| KeyError (key : string)
| NodeNotFound (node : string)
| NetworkXNoPath
| OtherError (what : string).

Inductive outcome (A : Type) : Type :=
| Returned (a : A)
| Raised (e : exn).
Arguments Returned {A} a.
Arguments Raised {A} e.

Definition bind {A B} (m : outcome A) (f : A -> outcome B) : outcome B :=
  match m with
  | Returned a => f a
  | Raised e => Raised e
  end.

End py.
Import py.

Notation "x <- m ;; k" := (bind m (fun x => k))
  (at level 61, m at next level, right associativity).

(** ** utils.py *)

Module utils.

(** *** The part of Python's [ipaddress] that [is_same_network] uses *)

Definition ALL_ONES : Z := 4294967295.

Definition is_digit (c : ascii) : bool :=
  let n := nat_of_ascii c in (Nat.leb 48 n && Nat.leb n 57)%bool.

Fixpoint all_digits (s : string) : bool :=
  match s with
  | EmptyString => true
  | String c r => (is_digit c && all_digits r)%bool
  end.

(** [s.isascii() and s.isdigit()] *)
Definition isdigit (s : string) : bool :=
  match s with
  | EmptyString => false
  | _ => all_digits s
  end.

Fixpoint int_of_digits (acc : Z) (s : string) : Z :=
  match s with
  | EmptyString => acc
  | String c r => int_of_digits (10 * acc + Z.of_nat (nat_of_ascii c - 48)) r
  end.

(** [IPv4Address._parse_octet] *)
Definition parse_octet (s : string) : option Z :=
  if negb (isdigit s) then None
  else if Nat.ltb 3 (String.length s) then None
  else if (negb (String.eqb s "0") && startswith s "0")%bool then None
  else let n := int_of_digits 0 s in
       if 255 <? n then None else Some n.

(** [IPv4Address._ip_int_from_string] *)
Definition ip_int_from_string (s : string) : option Z :=
  match split "." s with
  | [a; b; c; d] =>
      match parse_octet a, parse_octet b, parse_octet c, parse_octet d with
      | Some a, Some b, Some c, Some d =>
          Some (Z.lor (Z.shiftl a 24) (Z.lor (Z.shiftl b 16) (Z.lor (Z.shiftl c 8) d)))
      | _, _, _, _ => None
      end
  | _ => None
  end.

(** [_ip_int_from_prefix] *)
Definition ip_int_from_prefix (p : nat) : Z :=
  Z.lxor ALL_ONES (Z.shiftr ALL_ONES (Z.of_nat p)).

(** [_prefix_from_prefix_string] *)
Definition prefix_from_prefix_string (s : string) : option nat :=
  if isdigit s then
    let n := int_of_digits 0 s in
    if n <=? 32 then Some (Z.to_nat n) else None
  else None.

(** [_prefix_from_ip_int]: the prefix length whose netmask is [ip], if any. *)
Definition prefix_from_ip_int (ip : Z) : option nat :=
  find (fun p => ip_int_from_prefix p =? ip) (seq 0 33).

(** [_make_netmask]: a prefix length, else a netmask, else a hostmask. *)
Definition make_netmask (s : string) : option Z :=
  match prefix_from_prefix_string s with
  | Some p => Some (ip_int_from_prefix p)
  | None =>
      match ip_int_from_string s with
      | None => None
      | Some ip =>
          match prefix_from_ip_int ip with
          | Some p => Some (ip_int_from_prefix p)
          | None =>
              match prefix_from_ip_int (Z.lxor ip ALL_ONES) with
              | Some p => Some (ip_int_from_prefix p)
              | None => None
              end
          end
      end
  end.

(** [IPv4Network(address, strict=False).network_address] as an integer;
    [None] when the constructor raises. *)
Definition network_address (address : string) : option Z :=
  match split "/" address with
  | [addr; mask] =>
      match ip_int_from_string addr, make_netmask mask with
      | Some ip, Some nm => Some (Z.land ip nm)
      | _, _ => None
      end
  | _ => None
  end.

(** [is_same_network(ip1, ip2, netmask)] *)
Definition is_same_network (ip1 ip2 : string) (netmask : option string) : bool :=
  match network_address (ip1 ++ "/" ++ str_opt netmask),
        network_address (ip2 ++ "/" ++ str_opt netmask) with
  | Some n1, Some n2 => n1 =? n2
  | _, _ => false
  end.

End utils.
Import utils.


(** ** The parsed configuration (the input contract of the core) *)

Module config.

(** An entry of a device's [interfaces] dict. *)
Record InterfaceInfo := {
  if_name : string;
  if_ip_address : option string;
  if_subnet_mask : option string;
  if_bandwidth : option Z;
  if_mtu : Z;
  if_vlan : option Z;
  if_status : string
}.

(** An entry of the flattened [parsed_data['interfaces']] dict.  The key
    ['vlan'] may be missing ([vlan = None]), hold [None]
    ([vlan = Some None]) or hold a VLAN id. *)
Record Interface := {
  device : string;
  interface : string;
  ip_address : option string;
  subnet_mask : option string;
  bandwidth : option Z;
  mtu : Z;
  vlan : option (option Z);
  status : string
}.

Record RoutingProtocol := {
  protocol : string;
  process_id : option string;
  as_number : option string
}.

Record VlanInfo := { vlan_id : Z; vlan_name : string }.

(** An entry of [parsed_data['devices']]. *)
Record Device := {
  name : string;
  type : string;
  interfaces : dict string InterfaceInfo;
  routing_protocols : list RoutingProtocol;
  vlans : dict Z VlanInfo;
  hostname : string
}.

Record ParsedData := {
  pd_devices : dict string Device;
  pd_interfaces : dict string Interface
}.

End config.
Import config.

(** ** The part of [networkx.Graph] that the tool uses *)

Module nx.

(** Attributes of an edge as [_add_connections] stores them.  [weight] is
    the float [1.0 / bandwidth], kept as the exact quotient. *)
Record EdgeData := {
  e_bandwidth : Z;
  e_interface1 : string;
  e_interface2 : string;
  e_mtu1 : Z;
  e_mtu2 : Z;
  e_weight : Q
}.

(** A node: its attribute dict (the device record, or nothing for a node
    that [add_edge] created) and its adjacency dict. *)
Record NodeData := {
  attr : option Device;
  adj : dict string EdgeData
}.

Definition Graph := dict string NodeData.

Definition empty : Graph := [].

Definition nodes (g : Graph) : list string := keys g.

(** [G.add_node(n, **attrs)] *)
Definition add_node (n : string) (a : Device) (g : Graph) : Graph :=
  match get n g with
  | None => set n {| attr := Some a; adj := [] |} g
  | Some nd => set n {| attr := Some a; adj := adj nd |} g
  end.

Definition ensure_node (n : string) (g : Graph) : Graph :=
  match get n g with
  | None => set n {| attr := None; adj := [] |} g
  | Some _ => g
  end.

(** [G._adj[u][v] = d] for a node [u] of the graph. *)
Definition set_adj (u v : string) (d : EdgeData) (g : Graph) : Graph :=
  match get u g with
  | None => g
  | Some nd => set u {| attr := attr nd; adj := set v d (adj nd) |} g
  end.

(** [G.add_edge(u, v, **attrs)] where [attrs] sets every edge attribute. *)
Definition add_edge (u v : string) (d : EdgeData) (g : Graph) : Graph :=
  set_adj v u d (set_adj u v d (ensure_node v (ensure_node u g))).

(** [G[u][v]] when the edge exists. *)
Definition get_edge (g : Graph) (u v : string) : option EdgeData :=
  match get u g with
  | None => None
  | Some nd => get v (adj nd)
  end.

(** [G.has_edge(u, v)] *)
Definition has_edge (g : Graph) (u v : string) : bool :=
  match get_edge g u v with Some _ => true | None => false end.

(** [G.neighbors(n)] *)
Definition neighbors (g : Graph) (n : string) : outcome (list string) :=
  match get n g with
  | None => Raised (OtherError "NetworkXError")
  | Some nd => Returned (keys (adj nd))
  end.

(** [G.degree(n)]: a self-loop counts twice. *)
Definition degree_of (n : string) (nd : NodeData) : nat :=
  (List.length (adj nd) + if contains n (adj nd) then 1 else 0)%nat.

Fixpoint edges_from (seen : list string) (g : Graph)
  : list (string * string * EdgeData) :=
  match g with
  | [] => []
  | (n, nd) :: r =>
      (map (fun '(nbr, d) => (n, nbr, d))
          (filter (fun '(nbr, _) => negb (mem nbr seen)) (adj nd))
      ++ edges_from (n :: seen) r)%list
  end.

(** [G.edges(data=True)]: every edge once, from its first endpoint in
    node order. *)
Definition edges (g : Graph) : list (string * string * EdgeData) :=
  edges_from [] g.

(** [nx.degree_centrality(G)]: the float [d * (1.0 / (len(G) - 1))], kept
    as the exact quotient; every node gets [1] when there is at most one. *)
Definition degree_centrality (g : Graph) : dict string Q :=
  if (List.length g <=? 1)%nat then map (fun '(n, _) => (n, 1%Q)) g
  else map (fun '(n, nd) =>
              (n, (inject_Z (Z.of_nat (degree_of n nd))
                   / inject_Z (Z.of_nat (List.length g - 1)))%Q)) g.

End nx.

(** ** topology_builder.py *)

Module topology_builder.

Import nx.

Inductive DeviceType := router | switch | pc | server | laptop | unknown.

Definition DeviceType_eqb (a b : DeviceType) : bool :=
  match a, b with
  | router, router | switch, switch | pc, pc
  | server, server | laptop, laptop | unknown, unknown => true
  | _, _ => false
  end.

Record Hierarchy := {
  core : list string;
  distribution : list string;
  access : list string
}.

(** The fields of a [TopologyBuilder] that the modelled methods read.
    ([shortest_paths] is written by [_calculate_paths] and read by no
    modelled method.) *)
Record TopologyBuilder := {
  graph : Graph;
  hierarchy : Hierarchy
}.

(** [TopologyBuilder()] *)
Definition init : TopologyBuilder :=
  {| graph := nx.empty;
     hierarchy := {| core := []; distribution := []; access := [] |} |}.

(** [_get_device_type] *)
Definition _get_device_type (device_name : string) : DeviceType :=
  let name_lower := lower device_name in
  if (startswith name_lower "r" && Nat.leb (String.length device_name) 3)%bool then router
  else if (startswith name_lower "switch" || startswith name_lower "sw")%bool then switch
  else if startswith name_lower "pc" then pc
  else if startswith name_lower "server" then server
  else if startswith name_lower "laptop" then laptop
  else unknown.

Definition is_end_device (t : DeviceType) : bool :=
  match t with
  | pc | server | laptop | unknown => true
  | _ => false
  end.

(** The [should_connect] flag computed by the [if]/[elif] chain. *)
Definition should_connect (device1_type device2_type : DeviceType) : bool :=
  if (DeviceType_eqb device1_type router && DeviceType_eqb device2_type router)%bool then true
  else if (DeviceType_eqb device1_type router && DeviceType_eqb device2_type switch)%bool then true
  else if (DeviceType_eqb device1_type switch && DeviceType_eqb device2_type router)%bool then true
  else if (DeviceType_eqb device1_type switch && is_end_device device2_type)%bool then true
  else if (is_end_device device1_type && DeviceType_eqb device2_type switch)%bool then true
  else false.

(** The attributes [_add_connections] gives to the edge of a pair. *)
Definition link_data (int1 int2 : Interface) : EdgeData :=
  let bw1 := or_int (bandwidth int1) 100000 in
  let bw2 := or_int (bandwidth int2) 100000 in
  let link_bandwidth := Z.min bw1 bw2 in
  {| e_bandwidth := link_bandwidth;
     e_interface1 := interface int1;
     e_interface2 := interface int2;
     e_mtu1 := mtu int1;
     e_mtu2 := mtu int2;
     e_weight := (1 / inject_Z link_bandwidth)%Q |}.

(** The guard of the innermost statement of [_add_connections]: both
    addresses set, two devices, one network under [int1]'s mask, and an
    allowed pair of device types. *)
Definition connects (int1 int2 : Interface) : bool :=
  (truthy (ip_address int1) && truthy (ip_address int2)
   && negb (String.eqb (device int1) (device int2))
   && is_same_network (str_opt (ip_address int1)) (str_opt (ip_address int2))
                      (subnet_mask int1)
   && should_connect (_get_device_type (device int1))
                     (_get_device_type (device int2)))%bool.

(** The body of the inner loop for one pair. *)
Definition connect_pair (int1 int2 : Interface) (g : Graph) : Graph :=
  if connects int1 int2
  then add_edge (device int1) (device int2) (link_data int1 int2) g
  else g.

(** The two nested loops over [interface_list] and [interface_list[i+1:]]. *)
Fixpoint connect_all (interface_list : list Interface) (g : Graph) : Graph :=
  match interface_list with
  | [] => g
  | int1 :: rest =>
      connect_all rest (fold_left (fun g int2 => connect_pair int1 int2 g) rest g)
  end.

(** [_add_connections] *)
Definition _add_connections (interfaces : dict string Interface)
    (tb : TopologyBuilder) : TopologyBuilder :=
  {| graph := connect_all (values interfaces) (graph tb);
     hierarchy := hierarchy tb |}.

(** [sorted(items, key=lambda x: x[1], reverse=True)]: a stable sort by
    descending value; the item inserted comes from the left of the others. *)
Fixpoint insert_desc (x : string * Q) (l : list (string * Q)) : list (string * Q) :=
  match l with
  | [] => [x]
  | y :: r => if Qle_bool (snd y) (snd x) then x :: l else y :: insert_desc x r
  end.

Definition sorted_desc (l : list (string * Q)) : list (string * Q) :=
  fold_right insert_desc [] l.

Inductive Tier := Core | Distribution | Access.

(** The tier of rank [i] among [total_devices]: the float tests
    [i < total_devices * 0.2] and [i < total_devices * 0.6], decided on
    integers. *)
Definition tier_of (i total_devices : nat) : Tier :=
  if (5 * i <? total_devices)%nat then Core
  else if (5 * i <? 3 * total_devices)%nat then Distribution
  else Access.

Definition append_tier (t : Tier) (device : string) (h : Hierarchy) : Hierarchy :=
  match t with
  | Core => {| core := (core h ++ [device])%list; distribution := distribution h; access := access h |}
  | Distribution => {| core := core h; distribution := (distribution h ++ [device])%list; access := access h |}
  | Access => {| core := core h; distribution := distribution h; access := (access h ++ [device])%list |}
  end.

(** The loop [for i, (device, centrality) in enumerate(sorted_devices)],
    from index [i] on. *)
Fixpoint assign_tiers (i total_devices : nat) (l : list (string * Q))
    (h : Hierarchy) : Hierarchy :=
  match l with
  | [] => h
  | (device, _) :: r =>
      assign_tiers (S i) total_devices r (append_tier (tier_of i total_devices) device h)
  end.

(** [_determine_hierarchy] *)
Definition _determine_hierarchy (tb : TopologyBuilder) : TopologyBuilder :=
  let sorted_devices := sorted_desc (degree_centrality (graph tb)) in
  let total_devices := List.length sorted_devices in
  {| graph := graph tb;
     hierarchy := assign_tiers 0 total_devices sorted_devices (hierarchy tb) |}.

(** [build_topology] *)
Definition build_topology (parsed_data : ParsedData) (tb : TopologyBuilder)
    : TopologyBuilder :=
  let tb1 :=
    {| graph := fold_left (fun g '(device_name, device_info) =>
                             add_node device_name device_info g)
                          (pd_devices parsed_data) (graph tb);
       hierarchy := hierarchy tb |} in
  _determine_hierarchy (_add_connections (pd_interfaces parsed_data) tb1).

Section AlternativePaths.

(** [list(nx.shortest_simple_paths(G, source, target))], a call into
    networkx: the paths it generates, or the exception it raises
    ([NodeNotFound] for an endpoint that is no node, [NetworkXNoPath]
    when the endpoints are not connected). *)
Variable shortest_simple_paths :
  Graph -> string -> string -> outcome (list (list string)).

(** [get_alternative_paths]; the bare [except] turns any exception
    into the empty list. *)
Definition get_alternative_paths (tb : TopologyBuilder)
    (source target : string) (k : Z) : list (list string) :=
  match shortest_simple_paths (graph tb) source target with
  | Returned paths => slice_to k paths
  | Raised _ => []
  end.

End AlternativePaths.

End topology_builder.

(** ** validator.py *)

Module validator.

Import nx topology_builder.

(** An entry of [issues] or [warnings]. *)
Record Finding := {
  f_type : string;
  severity : string;
  description : string;
  affected_devices : option (list string);
  recommendation : string
}.

(** The fields of a [ConfigValidator]. *)
Record ConfigValidator := {
  issues : list Finding;
  warnings : list Finding
}.

(** [ConfigValidator()] *)
Definition init : ConfigValidator := {| issues := []; warnings := [] |}.

Definition add_issue (f : Finding) (v : ConfigValidator) : ConfigValidator :=
  {| issues := (issues v ++ [f])%list; warnings := warnings v |}.

Definition add_warning (f : Finding) (v : ConfigValidator) : ConfigValidator :=
  {| issues := issues v; warnings := (warnings v ++ [f])%list |}.

(** The dict that [validate_configuration] returns. *)
Record ValidationResult := {
  r_issues : list Finding;
  r_warnings : list Finding;
  total_issues : nat;
  total_warnings : nat
}.

(** *** [_check_duplicate_ips] *)

(** [interface.get('vlan', 'default')], formatted. *)
Definition vlan_text (i : Interface) : string :=
  match vlan i with
  | None => "default"
  | Some None => "None"
  | Some (Some n) => str_int n
  end.

(** The key [f"{ip_address}_{vlan}"]. *)
Definition ip_key (i : Interface) : string :=
  str_opt (ip_address i) ++ "_" ++ vlan_text i.

(** [ip_map[key].append(device)] on a [defaultdict(list)]. *)
Definition append_to {K V} `{Key K} (k : K) (x : V) (m : dict K (list V))
    : dict K (list V) :=
  match get k m with
  | None => set k [x] m
  | Some l => set k (l ++ [x])%list m
  end.

(** The first loop: the owners of every key, in order of appearance. *)
Definition build_ip_map (interfaces : dict string Interface)
    : dict string (list string) :=
  fold_left (fun m i => if truthy (ip_address i)
                        then append_to (ip_key i) (device i) m else m)
            (values interfaces) [].

Definition duplicate_ip_issue (ip_vlan : string) (devices : list string) : Finding :=
  let ip_addr := nth 0 (split "_" ip_vlan) "" in
  let vlan := nth 1 (split "_" ip_vlan) "" in
  {| f_type := "duplicate_ip";
     severity := "high";
     description := "Duplicate IP " ++ ip_addr ++ " in VLAN " ++ vlan;
     affected_devices := Some devices;
     recommendation := "Assign unique IP addresses to each interface" |}.

Definition _check_duplicate_ips (interfaces : dict string Interface)
    (v : ConfigValidator) : ConfigValidator :=
  fold_left (fun v '(ip_vlan, devices) =>
               if (1 <? List.length devices)%nat
               then add_issue (duplicate_ip_issue ip_vlan devices) v
               else v)
            (build_ip_map interfaces) v.

(** *** [_check_mtu_mismatches] *)

Definition _check_mtu_mismatches (g : Graph) (v : ConfigValidator)
    : ConfigValidator :=
  fold_left (fun v '(n1, n2, d) =>
               let mtu1 := e_mtu1 d in
               let mtu2 := e_mtu2 d in
               if negb (mtu1 =? mtu2) then
                 add_warning
                   {| f_type := "mtu_mismatch";
                      severity := "medium";
                      description := "MTU mismatch between " ++ n1 ++ " ("
                                     ++ str_int mtu1 ++ ") and " ++ n2 ++ " ("
                                     ++ str_int mtu2 ++ ")";
                      affected_devices := Some [n1; n2];
                      recommendation := "Set consistent MTU value (recommend "
                                        ++ str_int (Z.max mtu1 mtu2) ++ ")" |} v
               else v)
            (edges g) v.

(** *** [_check_missing_components] *)

Definition _check_missing_components (devices : dict string Device)
    (v : ConfigValidator) : ConfigValidator :=
  let device_types := map type (values devices) in
  let v1 :=
    if negb (mem "router" device_types) then
      add_warning {| f_type := "missing_component"; severity := "medium";
                     description := "No routers found in configuration";
                     affected_devices := None;
                     recommendation := "Ensure router configurations are included" |} v
    else v in
  if negb (mem "switch" device_types) then
    add_warning {| f_type := "missing_component"; severity := "low";
                   description := "No switches found in configuration";
                   affected_devices := None;
                   recommendation :=
                     "Consider adding switch configurations for complete topology" |} v1
  else v1.

(** *** [_check_vlan_consistency] *)

(** [vlan_configs[vlan_id].add(name)] on a [defaultdict(set)].  The set is
    kept as the list of its members in order of first insertion: its size
    is that of the Python set, the order in which [list(names)] lists the
    members (it follows the string hashes) is not. *)
Definition add_to_set (k : Z) (x : string) (m : dict Z (list string))
    : dict Z (list string) :=
  match get k m with
  | None => set k [x] m
  | Some l => if mem x l then m else set k (l ++ [x])%list m
  end.

(** The text of a list of names, for names that [repr] puts between
    single quotes unchanged. *)
Definition repr_list (l : list string) : string :=
  "[" ++ String.concat ", " (map (fun s => "'" ++ s ++ "'") l) ++ "]".

Definition _check_vlan_consistency (devices : dict string Device)
    (v : ConfigValidator) : ConfigValidator :=
  let vlan_configs :=
    fold_left (fun m device =>
                 fold_left (fun m '(vlan_id, vlan_info) =>
                              add_to_set vlan_id (vlan_name vlan_info) m)
                           (vlans device) m)
              (values devices) [] in
  fold_left (fun v '(vlan_id, names) =>
               if (1 <? List.length names)%nat then
                 add_issue
                   {| f_type := "vlan_inconsistency"; severity := "medium";
                      description := "VLAN " ++ str_int vlan_id
                                     ++ " has inconsistent names: " ++ repr_list names;
                      affected_devices := None;
                      recommendation := "Use consistent name for VLAN "
                                        ++ str_int vlan_id |} v
               else v)
            vlan_configs v.

(** *** [_check_gateway_configuration] *)

(** [s.endswith(suffix)] *)
Fixpoint endswith (s suffix : string) : bool :=
  (String.eqb s suffix ||
   match s with
   | EmptyString => false
   | String _ r => endswith r suffix
   end)%bool.

Definition _check_gateway_configuration (devices : dict string Device)
    (v : ConfigValidator) : ConfigValidator :=
  fold_left (fun v '(device_name, device) =>
               if String.eqb (type device) "router" then
                 let has_gateway :=
                   existsb (fun i => truthy (if_ip_address i)
                                     && endswith (str_opt (if_ip_address i)) ".1")%bool
                           (values (interfaces device)) in
                 if negb has_gateway then
                   add_warning
                     {| f_type := "gateway_config"; severity := "low";
                        description := "Router " ++ device_name
                                       ++ " may not have gateway interface configured";
                        affected_devices := None;
                        recommendation :=
                          "Verify gateway configuration on router interfaces" |} v
                 else v
               else v)
            devices v.

(** *** [_suggest_protocol_optimization] *)

Definition runs (p : string) (d : Device) : bool :=
  existsb (fun rp => String.eqb (protocol rp) p) (routing_protocols d).

Definition _suggest_protocol_optimization (devices : dict string Device)
    (v : ConfigValidator) : ConfigValidator :=
  let total_devices := List.length devices in
  let bgp_devices := List.length (filter (runs "bgp") (values devices)) in
  let v1 :=
    if ((10 <? total_devices)%nat && (bgp_devices =? 0)%nat)%bool then
      add_warning {| f_type := "protocol_optimization"; severity := "low";
                     description := "Large network detected without BGP";
                     affected_devices := None;
                     recommendation :=
                       "Consider implementing BGP for better scalability" |} v
    else v in
  if ((total_devices <=? 5)%nat && (0 <? bgp_devices)%nat)%bool then
    add_warning {| f_type := "protocol_optimization"; severity := "low";
                   description := "BGP may be overkill for small network";
                   affected_devices := None;
                   recommendation :=
                     "OSPF might be more appropriate for this network size" |} v1
  else v1.

(** *** [_suggest_node_aggregation] *)

(** [devices[k]['type']] *)
Definition type_of (devices : dict string Device) (k : string) : outcome string :=
  match get k devices with
  | Some d => Returned (type d)
  | None => Raised (KeyError k)
  end.

(** The loop body for one node.  The chained comparison evaluates both
    subscripts before it compares. *)
Definition aggregate_node (g : Graph) (devices : dict string Device)
    (node : string) (v : ConfigValidator) : outcome ConfigValidator :=
  neighbors <- nx.neighbors g node ;;
  match neighbors with
  | [neighbor] =>
      t1 <- type_of devices node ;;
      t2 <- type_of devices neighbor ;;
      if (String.eqb t1 t2 && String.eqb t2 "switch")%bool then
        Returned (add_warning
          {| f_type := "node_aggregation"; severity := "low";
             description := "Switches " ++ node ++ " and " ++ neighbor
                            ++ " could be aggregated";
             affected_devices := None;
             recommendation := "Consider combining " ++ node ++ " and " ++ neighbor
                               ++ " into single switch" |} v)
      else Returned v
  | _ => Returned v
  end.

Fixpoint aggregate_nodes (g : Graph) (devices : dict string Device)
    (l : list string) (v : ConfigValidator) : outcome ConfigValidator :=
  match l with
  | [] => Returned v
  | node :: r => v' <- aggregate_node g devices node v ;; aggregate_nodes g devices r v'
  end.

Definition _suggest_node_aggregation (g : Graph) (devices : dict string Device)
    (v : ConfigValidator) : outcome ConfigValidator :=
  aggregate_nodes g devices (nodes g) v.

Section Battery.

(** [list(nx.simple_cycles(graph.to_directed()))], a call into networkx. *)
Variable simple_cycles : Graph -> list (list string).

(** *** [_check_network_loops] *)
Definition _check_network_loops (g : Graph) (v : ConfigValidator)
    : ConfigValidator :=
  fold_left (fun v cycle =>
               add_warning
                 {| f_type := "network_loop"; severity := "medium";
                    description := "Potential network loop detected: "
                                   ++ String.concat " -> " cycle;
                    affected_devices := None;
                    recommendation :=
                      "Implement STP or remove redundant connections" |} v)
            (slice_to 5 (simple_cycles g)) v.

Definition check := ConfigValidator -> outcome ConfigValidator.

(** A check that has no raising statement. *)
Definition total (f : ConfigValidator -> ConfigValidator) : check :=
  fun v => Returned (f v).

(** The eight calls of [validate_configuration], in order. *)
Definition checks (parsed_data : ParsedData) (topology : TopologyBuilder)
    : list check :=
  let devices := pd_devices parsed_data in
  let interfaces := pd_interfaces parsed_data in
  [ total (_check_duplicate_ips interfaces);
    total (_check_mtu_mismatches (graph topology));
    total (_check_missing_components devices);
    total (_check_vlan_consistency devices);
    total (_check_gateway_configuration devices);
    total (_check_network_loops (graph topology));
    total (_suggest_protocol_optimization devices);
    _suggest_node_aggregation (graph topology) devices ].

(** Statements run one after the other; the first exception ends the run. *)
Fixpoint run (cs : list check) (v : ConfigValidator) : outcome ConfigValidator :=
  match cs with
  | [] => Returned v
  | c :: r => v' <- c v ;; run r v'
  end.

Definition result_of (v : ConfigValidator) : ValidationResult :=
  {| r_issues := issues v;
     r_warnings := warnings v;
     total_issues := List.length (issues v);
     total_warnings := List.length (warnings v) |}.

(** [validate_configuration]: the body has no [try]. *)
Definition validate_configuration (parsed_data : ParsedData)
    (topology : TopologyBuilder) (v : ConfigValidator)
    : outcome (ValidationResult * ConfigValidator) :=
  let devices := pd_devices parsed_data in
  let interfaces := pd_interfaces parsed_data in
  let v := _check_duplicate_ips interfaces v in
  let v := _check_mtu_mismatches (graph topology) v in
  let v := _check_missing_components devices v in
  let v := _check_vlan_consistency devices v in
  let v := _check_gateway_configuration devices v in
  let v := _check_network_loops (graph topology) v in
  let v := _suggest_protocol_optimization devices v in
  v <- _suggest_node_aggregation (graph topology) devices v ;;
  Returned (result_of v, v).

End Battery.

End validator.

(** ** load_balancer.py *)

Module load_balancer.

Import nx topology_builder.

(** A value of the traffic configuration: a demand, or an application
    profile (priority and burst factor). *)
Inductive TrafficValue :=
| Demand (kbps : Z)
| Profile (priority : string) (burst_factor : Q).

Definition TrafficConfig := dict string (dict string TrafficValue).

Record LinkInfo := {
  l_bandwidth : Z;
  l_demand : Z;
  l_utilization : Q;
  l_status : string
}.

Record Overloaded := {
  o_link : string;
  o_utilization : Q;
  o_bandwidth : Z;
  o_demand : Z
}.

Inductive Recommendation :=
| load_balancing (overloaded_link : string) (utilization : Q)
                 (alternative_paths : list (list string))
| capacity_upgrade (overloaded_link : string) (utilization : Q)
                   (current_bandwidth suggested_bandwidth : Z)
| qos (priority_classes : list string).

(** The fields of a [LoadBalancer]. *)
Record LoadBalancer := {
  traffic_demands : TrafficConfig;
  overloaded_links : list Overloaded
}.

(** [LoadBalancer()] *)
Definition init : LoadBalancer :=
  {| traffic_demands := []; overloaded_links := [] |}.

(** The dict that [analyze_traffic_load] returns. *)
Record LoadAnalysis := {
  link_analysis : dict string LinkInfo;
  r_overloaded_links : list Overloaded;
  recommendations : list Recommendation
}.

(** [_generate_default_traffic] *)
Definition _generate_default_traffic : TrafficConfig :=
  [ ("endpoint_traffic",
     [ ("web_server", Demand 50000); ("database", Demand 30000);
       ("user_devices", Demand 5000); ("backup_server", Demand 20000) ]);
    ("application_types",
     [ ("web", Profile "medium" 2); ("database", Profile "high" (3 # 2));
       ("backup", Profile "low" (6 # 5)) ]) ].

(** [_estimate_link_demand] *)
Definition _estimate_link_demand (node1 node2 : string)
    (traffic_config : TrafficConfig) : Z :=
  let base_demand := 10000 in
  let base_demand :=
    if (has_substring "R" node1 || has_substring "R" node2)%bool
    then base_demand + 20000 else base_demand in
  let base_demand :=
    if (has_substring "core" (lower node1) || has_substring "core" (lower node2))%bool
    then base_demand + 30000 else base_demand in
  base_demand.

(** [utilization > 0.8], the float comparison decided on the quotient. *)
Definition exceeds_threshold (utilization : Q) : bool :=
  negb (Qle_bool utilization (8 # 10)).

(** The body of the loop over [graph.edges(data=True)]. *)
Definition analyze_edge (traffic_config : TrafficConfig)
    (acc : dict string LinkInfo * list Overloaded)
    (edge : string * string * EdgeData)
    : dict string LinkInfo * list Overloaded :=
  let '(n1, n2, d) := edge in
  let '(link_analysis, overloaded) := acc in
  let link_id := n1 ++ "-" ++ n2 in
  let bandwidth := e_bandwidth d in
  let estimated_demand := _estimate_link_demand n1 n2 traffic_config in
  let utilization :=
    if 0 <? bandwidth then (inject_Z estimated_demand / inject_Z bandwidth)%Q
    else 0%Q in
  let link_analysis :=
    set link_id
        {| l_bandwidth := bandwidth;
           l_demand := estimated_demand;
           l_utilization := utilization;
           l_status := if exceeds_threshold utilization
                       then "overloaded" else "normal" |}
        link_analysis in
  if exceeds_threshold utilization then
    (link_analysis,
     (overloaded ++ [ {| o_link := link_id; o_utilization := utilization;
                         o_bandwidth := bandwidth;
                         o_demand := estimated_demand |} ])%list)
  else (link_analysis, overloaded).

Definition qos_classes : list string :=
  [ "High: Database and critical applications";
    "Medium: Web traffic and user applications";
    "Low: Backup and maintenance traffic" ].

Section Recommend.

Variable shortest_simple_paths :
  Graph -> string -> string -> outcome (list (list string)).

(** The recommendation for one overloaded link.  [int(demand * 1.5)] is
    given by its exact truncated value, which is what the float product
    yields for the demands [_estimate_link_demand] returns (and for any
    demand below 2^51); [nodes[1]] is read with a default, and exists for
    every link id that [analyze_traffic_load] builds. *)
Definition recommend (topology : TopologyBuilder) (o : Overloaded)
    : Recommendation :=
  let link_name := o_link o in
  let nodes := split "-" link_name in
  let alt_paths :=
    get_alternative_paths shortest_simple_paths topology
                          (nth 0 nodes "") (nth 1 nodes "") 3 in
  if (1 <? List.length alt_paths)%nat
  then load_balancing link_name (o_utilization o) (tl alt_paths)
  else capacity_upgrade link_name (o_utilization o) (o_bandwidth o)
                        (Z.quot (3 * o_demand o) 2).

(** [_generate_load_balancing_recommendations] *)
Definition _generate_load_balancing_recommendations
    (topology : TopologyBuilder) (lb : LoadBalancer) : list Recommendation :=
  (map (recommend topology) (overloaded_links lb)
   ++ match overloaded_links lb with
      | [] => []
      | _ => [qos qos_classes]
      end)%list.

(** [analyze_traffic_load] *)
Definition analyze_traffic_load (topology : TopologyBuilder)
    (traffic_config : option TrafficConfig) (lb : LoadBalancer)
    : LoadAnalysis * LoadBalancer :=
  let traffic_config :=
    match traffic_config with
    | None | Some [] => _generate_default_traffic
    | Some c => c
    end in
  let '(link_analysis, overloaded) :=
    fold_left (analyze_edge traffic_config) (edges (graph topology))
              ([], overloaded_links lb) in
  let lb' := {| traffic_demands := traffic_config;
                overloaded_links := overloaded |} in
  ({| link_analysis := link_analysis;
      r_overloaded_links := overloaded;
      recommendations := _generate_load_balancing_recommendations topology lb' |},
   lb').

End Recommend.

End load_balancer.

(** ** simulator.py *)

Module simulator.

Record Stats := {
  packets_sent : Z;
  packets_received : Z;
  errors : Z;
  uptime : Q
}.

(** An entry of a neighbor table; [last_seen] is a reading of the clock. *)
Record Neighbor := {
  n_type : string;
  last_seen : Q
}.

Record Message := {
  m_type : string;
  m_source : string
}.

(** The fields of a [NetworkDevice] (the thread itself is not modelled). *)
Record NetworkDevice := {
  nd_name : string;
  device_type : string;
  nd_config : Device;
  running : bool;
  paused : bool;
  message_queue : list Message;
  neighbors : dict string Neighbor;
  stats : Stats;
  arp_table : dict string string
}.

(** [NetworkDevice(name, device_type, config)] *)
Definition new_device (name device_type : string) (config : Device)
    : NetworkDevice :=
  {| nd_name := name; device_type := device_type; nd_config := config;
     running := false; paused := false; message_queue := [];
     neighbors := [];
     stats := {| packets_sent := 0; packets_received := 0; errors := 0;
                 uptime := 0 |};
     arp_table := [] |}.

(** [self.stats['packets_sent'] += n] *)
Definition add_sent (n : Z) (d : NetworkDevice) : NetworkDevice :=
  {| nd_name := nd_name d; device_type := device_type d;
     nd_config := nd_config d; running := running d; paused := paused d;
     message_queue := message_queue d; neighbors := neighbors d;
     stats := {| packets_sent := packets_sent (stats d) + n;
                 packets_received := packets_received (stats d);
                 errors := errors (stats d);
                 uptime := uptime (stats d) |};
     arp_table := arp_table d |}.

(** [send_message_to_neighbor] *)
Definition send_message_to_neighbor (neighbor_name : string)
    (message : Message) (d : NetworkDevice) : NetworkDevice :=
  add_sent 1 d.

(** [broadcast_message] *)
Definition broadcast_message (message : Message) (d : NetworkDevice)
    : NetworkDevice :=
  let d' := fold_left (fun d neighbor_name =>
                         send_message_to_neighbor neighbor_name message d)
                      (keys (neighbors d)) d in
  add_sent (Z.of_nat (List.length (neighbors d'))) d'.

(** [self.devices[device1].neighbors[device2] = entry] *)
Definition set_neighbor (device2 : string) (entry : Neighbor)
    (d : NetworkDevice) : NetworkDevice :=
  {| nd_name := nd_name d; device_type := device_type d;
     nd_config := nd_config d; running := running d; paused := paused d;
     message_queue := message_queue d;
     neighbors := set device2 entry (neighbors d);
     stats := stats d; arp_table := arp_table d |}.

(** The fields of a [NetworkSimulator]. *)
Record NetworkSimulator := {
  devices : dict string NetworkDevice;
  sim_running : bool;
  sim_paused : bool
}.

(** [NetworkSimulator()] *)
Definition init : NetworkSimulator :=
  {| devices := []; sim_running := false; sim_paused := false |}.

(** The key [f"{ip_address}/{subnet_mask}"]. *)
Definition network_key (i : Interface) : string :=
  str_opt (ip_address i) ++ "/" ++ str_opt (subnet_mask i).

(** The first loop of [_setup_neighbor_relationships]. *)
Definition group_networks (interfaces : dict string Interface)
    : dict string (list string) :=
  fold_left (fun networks i =>
               if truthy (ip_address i)
               then validator.append_to (network_key i) (device i) networks
               else networks)
            (values interfaces) [].

Section Clock.

(** The reading of [time.time()] during the call. *)
Variable now : Q.

(** The innermost statement of the second loop. *)
Definition seed_pair (device1 device2 : string)
    (devs : dict string NetworkDevice) : dict string NetworkDevice :=
  if (negb (String.eqb device1 device2)
      && contains device1 devs && contains device2 devs)%bool then
    match get device1 devs with
    | Some d =>
        set device1
            (set_neighbor device2 {| n_type := "direct"; last_seen := now |} d)
            devs
    | None => devs
    end
  else devs.

Definition seed_network (network_devices : list string)
    (devs : dict string NetworkDevice) : dict string NetworkDevice :=
  fold_left (fun devs device1 =>
               fold_left (fun devs device2 => seed_pair device1 device2 devs)
                         network_devices devs)
            network_devices devs.

(** [_setup_neighbor_relationships] *)
Definition _setup_neighbor_relationships (parsed_data : ParsedData)
    (sim : NetworkSimulator) : NetworkSimulator :=
  let networks := group_networks (pd_interfaces parsed_data) in
  {| devices := fold_left (fun devs network_devices =>
                             seed_network network_devices devs)
                          (values networks) (devices sim);
     sim_running := sim_running sim;
     sim_paused := sim_paused sim |}.

(** [load_topology]: no device thread is started here. *)
Definition load_topology (parsed_data : ParsedData)
    (sim : NetworkSimulator) : NetworkSimulator :=
  let sim1 :=
    {| devices := fold_left (fun devs '(device_name, device_config) =>
                               set device_name
                                   (new_device device_name (type device_config)
                                               device_config)
                                   devs)
                            (pd_devices parsed_data) (devices sim);
       sim_running := sim_running sim;
       sim_paused := sim_paused sim |} in
  _setup_neighbor_relationships parsed_data sim1.

End Clock.

End simulator.

(** ** Paths of a graph *)

Module paths.

Import nx.

Fixpoint distinct (p : list string) : bool :=
  match p with
  | [] => true
  | x :: r => (negb (mem x r) && distinct r)%bool
  end.

Fixpoint linked (g : Graph) (p : list string) : bool :=
  match p with
  | x :: (y :: _) as r => (has_edge g x y && linked g r)%bool
  | _ => true
  end.

(** [p] is a simple path of [g] from [source] to [target]: nodes of the
    graph, pairwise distinct, consecutive ones joined by an edge. *)
Definition is_simple_path (g : Graph) (source target : string)
    (p : list string) : bool :=
  match p with
  | [] => false
  | x :: _ =>
      (String.eqb x source && String.eqb (last p "") target
       && forallb (fun n => contains n g) p && distinct p && linked g p)%bool
  end.

(** [q] is at least as long as [p]. *)
Definition shorter (p q : list string) : Prop :=
  (List.length p <= List.length q)%nat.

End paths.

(** ** Sample configurations *)

Module examples.

Import nx topology_builder.

Definition mk_device (n t : string) : Device :=
  {| name := n; type := t; interfaces := []; routing_protocols := [];
     vlans := []; hostname := n |}.

Definition mk_interface (d i ip : string) (bw : option Z) (v : option Z)
    : Interface :=
  {| device := d; interface := i; ip_address := Some ip;
     subnet_mask := Some "255.255.255.0"; bandwidth := bw; mtu := 1500;
     vlan := Some v; status := "up" |}.

(** An actor for [R1] that knows one neighbor and has sent nothing. *)
Definition actor_R1 : simulator.NetworkDevice :=
  simulator.set_neighbor "SW1"
    {| simulator.n_type := "direct"; simulator.last_seen := 0 |}
    (simulator.new_device "R1" "router" (mk_device "R1" "router")).

Definition hello : simulator.Message :=
  {| simulator.m_type := "neighbor_discovery"; simulator.m_source := "R1" |}.

(** Two devices on the network 10.0.0.0/24. *)
Definition lan : ParsedData :=
  {| pd_devices := [ ("R1", mk_device "R1" "router");
                     ("SW1", mk_device "SW1" "switch") ];
     pd_interfaces :=
       [ ("R1_Gi0/0", mk_interface "R1" "Gi0/0" "10.0.0.1" (Some 1000) None);
         ("SW1_Vlan1", mk_interface "SW1" "Vlan1" "10.0.0.2" None None) ] |}.

(** The same network where [R1]'s interface is configured with
    [bandwidth 0] and [SW1]'s with [bandwidth 5000]. *)
Definition lan_zero_bandwidth : ParsedData :=
  {| pd_devices := pd_devices lan;
     pd_interfaces :=
       [ ("R1_Gi0/0", mk_interface "R1" "Gi0/0" "10.0.0.1" (Some 0) None);
         ("SW1_Vlan1", mk_interface "SW1" "Vlan1" "10.0.0.2" (Some 5000) None) ] |}.

(** One router with the same address on two interfaces. *)
Definition twin_interfaces : ParsedData :=
  {| pd_devices := [ ("R1", mk_device "R1" "router") ];
     pd_interfaces :=
       [ ("R1_Gi0/0", mk_interface "R1" "Gi0/0" "10.0.0.1" None None);
         ("R1_Gi0/1", mk_interface "R1" "Gi0/1" "10.0.0.1" None None) ] |}.

(** The same network where the record of [R1] is missing. *)
Definition lan_without_R1 : ParsedData :=
  {| pd_devices := [ ("SW1", mk_device "SW1" "switch") ];
     pd_interfaces := pd_interfaces lan |}.

(** The simple cycle that the directed form of [lan]'s graph has; this
    stand-in for [simple_cycles] returns it for every graph. *)
Definition lan_cycles (g : Graph) : list (list string) := [ ["SW1"; "R1"] ].

(** Three routers on one network: a triangle. *)
Definition triangle : ParsedData :=
  {| pd_devices := [ ("R1", mk_device "R1" "router");
                     ("R2", mk_device "R2" "router");
                     ("R3", mk_device "R3" "router") ];
     pd_interfaces :=
       [ ("R1_e0", mk_interface "R1" "e0" "10.0.0.1" None None);
         ("R2_e0", mk_interface "R2" "e0" "10.0.0.2" None None);
         ("R3_e0", mk_interface "R3" "e0" "10.0.0.3" None None) ] |}.

Definition triangle_topology : TopologyBuilder :=
  build_topology triangle topology_builder.init.

(** What [shortest_simple_paths] generates on the triangle from [R1] to
    [R3]; elsewhere this stand-in raises. *)
Definition triangle_paths (g : Graph) (source target : string)
    : outcome (list (list string)) :=
  if (String.eqb source "R1" && String.eqb target "R3")%bool
  then Returned [ ["R1"; "R3"]; ["R1"; "R2"; "R3"] ]
  else Raised NetworkXNoPath.

End examples.

(** * Properties *)

(** ** Dictionaries *)

Section DictFacts.

Context {K V : Type} `{Key K}.

Lemma keqb_refl (k : K) : keqb k k = true.
Proof. now apply keqb_spec. Qed.

Lemma keqb_neq (a b : K) : a <> b -> keqb a b = false.
Proof.
  intros Hne. destruct (keqb a b) eqn:E; [|reflexivity].
  apply keqb_spec in E. contradiction.
Qed.

Lemma keqb_false (a b : K) : keqb a b = false -> a <> b.
Proof. intros E ->. rewrite keqb_refl in E. discriminate. Qed.

Lemma keqb_sym (a b : K) : keqb a b = keqb b a.
Proof.
  destruct (keqb b a) eqn:E.
  - apply keqb_spec in E. subst. apply keqb_refl.
  - apply keqb_neq. intros ->. rewrite keqb_refl in E. discriminate.
Qed.

Lemma get_set_same (k : K) (v : V) (d : dict K V) : get k (set k v d) = Some v.
Proof.
  induction d as [|[k' v'] r IH]; simpl.
  - now rewrite keqb_refl.
  - destruct (keqb k k') eqn:E; simpl; rewrite E; auto.
Qed.

Lemma get_set_other (k k' : K) (v : V) (d : dict K V) :
  k' <> k -> get k' (set k v d) = get k' d.
Proof.
  intros Hne. induction d as [|[k0 v0] r IH]; simpl.
  - now rewrite (keqb_neq _ _ Hne).
  - destruct (keqb k k0) eqn:E; simpl.
    + apply keqb_spec in E. subst k0. now rewrite (keqb_neq _ _ Hne).
    + now rewrite IH.
Qed.

Lemma get_set (k k' : K) (v : V) (d : dict K V) :
  get k' (set k v d) = if keqb k' k then Some v else get k' d.
Proof.
  destruct (keqb k' k) eqn:E.
  - apply keqb_spec in E. subst. apply get_set_same.
  - apply get_set_other. now apply keqb_false.
Qed.

Lemma get_In (k : K) (v : V) (d : dict K V) : get k d = Some v -> In (k, v) d.
Proof.
  induction d as [|[k' v'] r IH]; simpl; [discriminate|].
  destruct (keqb k k') eqn:E.
  - intros [= ->]. apply keqb_spec in E. subst. now left.
  - intros Hg. right. auto.
Qed.

Lemma get_None_keys (k : K) (d : dict K V) : get k d = None <-> ~ In k (keys d).
Proof.
  induction d as [|[k' v'] r IH]; simpl.
  - tauto.
  - destruct (keqb k k') eqn:E.
    + apply keqb_spec in E. subst. split; [discriminate|]. intros Hn. exfalso. auto.
    + apply keqb_false in E. rewrite IH. split.
      * intros Hn [->|Hin]; auto.
      * intros Hn Hin. auto.
Qed.

Lemma In_get (k : K) (v : V) (d : dict K V) :
  NoDup (keys d) -> In (k, v) d -> get k d = Some v.
Proof.
  induction d as [|[k' v'] r IH]; simpl; [tauto|].
  intros Hnd [Heq|Hin].
  - inversion Heq; subst. now rewrite keqb_refl.
  - inversion Hnd as [|? ? Hnotin Hnd']; subst.
    destruct (keqb k k') eqn:E.
    + apply keqb_spec in E. subst. exfalso. apply Hnotin.
      change k' with (fst (k', v)). now apply in_map.
    + auto.
Qed.

Lemma keys_set (k : K) (v : V) (d : dict K V) :
  keys (set k v d) = if contains k d then keys d else (keys d ++ [k])%list.
Proof.
  unfold contains. induction d as [|[k' v'] r IH]; simpl.
  - reflexivity.
  - destruct (keqb k k') eqn:E; simpl.
    + reflexivity.
    + rewrite IH. now destruct (get k r).
Qed.

Lemma NoDup_keys_set (k : K) (v : V) (d : dict K V) :
  NoDup (keys d) -> NoDup (keys (set k v d)).
Proof.
  intros Hnd. rewrite keys_set. unfold contains.
  destruct (get k d) eqn:E; [assumption|].
  apply get_None_keys in E.
  apply NoDup_rev in Hnd. rewrite <- (rev_involutive (keys d ++ [k])).
  apply NoDup_rev. rewrite rev_app_distr. simpl. constructor; [|assumption].
  now rewrite <- in_rev.
Qed.

Lemma length_set (k : K) (v : V) (d : dict K V) :
  List.length (set k v d) = if contains k d then List.length d else S (List.length d).
Proof.
  unfold contains. induction d as [|[k' v'] r IH]; simpl.
  - reflexivity.
  - destruct (keqb k k') eqn:E; simpl; [reflexivity|].
    rewrite IH. now destruct (get k r).
Qed.

End DictFacts.

(** ** simulator.py: the sent counter *)

Section Counters.

Import simulator.

Lemma send_all_neighbors (m : Message) (l : list string) (d : NetworkDevice) :
  let d' := fold_left (fun d n => send_message_to_neighbor n m d) l d in
  neighbors d' = neighbors d /\
  packets_sent (stats d') = packets_sent (stats d) + Z.of_nat (List.length l).
Proof.
  revert d. induction l as [|n r IH]; intros d; simpl.
  - split; [reflexivity|lia].
  - destruct (IH (send_message_to_neighbor n m d)) as [Hn Hs].
    simpl in Hn, Hs. split; [exact Hn|]. rewrite Hs. simpl. lia.
Qed.

(** C2.  A point-to-point send adds one to [packets_sent].  A broadcast
    calls that send once per neighbor and then adds the neighbor count
    again, so it adds twice the number of neighbors, not the neighbor
    count: with one neighbor the counter goes up by two. *)
Theorem broadcast_message_counts_twice :
  (forall n m d,
      packets_sent (stats (send_message_to_neighbor n m d))
      = packets_sent (stats d) + 1) /\
  (forall m d,
      packets_sent (stats (broadcast_message m d))
      = packets_sent (stats d) + 2 * Z.of_nat (List.length (neighbors d))) /\
  packets_sent (stats (broadcast_message examples.hello examples.actor_R1)) = 2.
Proof.
  assert (Hb : forall m d,
      packets_sent (stats (broadcast_message m d))
      = packets_sent (stats d) + 2 * Z.of_nat (List.length (neighbors d))).
  { intros m d. unfold broadcast_message.
    destruct (send_all_neighbors m (keys (neighbors d)) d) as [Hn Hs].
    cbv zeta in Hn, Hs. unfold add_sent; cbn [stats packets_sent neighbors].
    rewrite Hn, Hs. unfold keys. rewrite length_map. lia. }
  split; [|split].
  - intros. reflexivity.
  - exact Hb.
  - reflexivity.
Qed.

End Counters.

(** ** load_balancer.py *)

Section LoadEstimator.

Import nx topology_builder load_balancer.
Variable shortest_simple_paths :
  Graph -> string -> string -> outcome (list (list string)).

Lemma estimate_link_demand_formula (node1 node2 : string) (tc : TrafficConfig) :
  _estimate_link_demand node1 node2 tc
  = 10000
    + (if (has_substring "R" node1 || has_substring "R" node2)%bool
       then 20000 else 0)
    + (if (has_substring "core" (lower node1)
           || has_substring "core" (lower node2))%bool
       then 30000 else 0).
Proof.
  unfold _estimate_link_demand.
  destruct (has_substring "R" node1 || has_substring "R" node2)%bool;
    destruct (has_substring "core" (lower node1)
              || has_substring "core" (lower node2))%bool; reflexivity.
Qed.

Lemma exceeds_threshold_spec (u : Q) :
  exceeds_threshold u = true <-> (8 # 10 < u)%Q.
Proof.
  unfold exceeds_threshold. rewrite negb_true_iff.
  destruct (Qle_bool u (8 # 10)) eqn:E.
  - apply Qle_bool_iff in E. split; [discriminate|].
    intros Hlt. exfalso. apply (Qlt_not_le _ _ Hlt E).
  - split; [intros _|reflexivity].
    apply Qnot_le_lt. intros Hle. apply Qle_bool_iff in Hle. congruence.
Qed.

(** C9.  The demand of an edge is 10000, plus 20000 when the NAME of an
    endpoint contains an upper-case [R], plus 30000 when a lower-cased
    name contains [core]; the edge is overloaded exactly when the
    utilization exceeds 0.8.  The test for a router reads the name, not
    the device kind: the switch-to-server edge [SW1]-[SERVER1] has no
    router and gets the router increment, and the router-to-switch edge
    [r1]-[sw1] has a router and does not get it. *)
Theorem estimate_link_demand_reads_names :
  (forall tc,
      _get_device_type "SW1" = switch /\ _get_device_type "SERVER1" = server /\
      _estimate_link_demand "SW1" "SERVER1" tc = 30000) /\
  (forall tc,
      _get_device_type "r1" = router /\ _get_device_type "sw1" = switch /\
      _estimate_link_demand "r1" "sw1" tc = 10000) /\
  (forall u, exceeds_threshold u = true <-> (8 # 10 < u)%Q).
Proof.
  split; [|split].
  - intros tc. repeat split.
  - intros tc. repeat split.
  - exact exceeds_threshold_spec.
Qed.

Lemma analyze_edge_any_config (tc1 tc2 : TrafficConfig) acc edge :
  analyze_edge tc1 acc edge = analyze_edge tc2 acc edge.
Proof. reflexivity. Qed.

Lemma fold_analyze_edge_any_config (tc1 tc2 : TrafficConfig) l acc :
  fold_left (analyze_edge tc1) l acc = fold_left (analyze_edge tc2) l acc.
Proof.
  revert acc. induction l as [|e r IH]; intros acc; simpl.
  - reflexivity.
  - rewrite (analyze_edge_any_config tc1 tc2). apply IH.
Qed.

(** C10.  The analysis that [analyze_traffic_load] returns does not depend
    on the traffic configuration: two runs on one topology from the same
    estimator state (a fresh estimator in particular), with any two
    configurations or none, return the same link analysis, overloaded
    links and recommendations. *)
Theorem analyze_traffic_load_ignores_config :
  forall (topology : TopologyBuilder) (tc1 tc2 : option TrafficConfig)
         (lb : LoadBalancer),
    fst (analyze_traffic_load shortest_simple_paths topology tc1 lb)
    = fst (analyze_traffic_load shortest_simple_paths topology tc2 lb).
Proof.
  intros topology tc1 tc2 lb. unfold analyze_traffic_load.
  set (c1 := match tc1 with None | Some [] => _ | Some c => c end).
  set (c2 := match tc2 with None | Some [] => _ | Some c => c end).
  rewrite (fold_analyze_edge_any_config c1 c2).
  destruct (fold_left (analyze_edge c2) (edges (graph topology))
                      ([], overloaded_links lb)) as [la ov].
  reflexivity.
Qed.

End LoadEstimator.

(** ** topology_builder.py: alternative paths *)

Section AlternativePaths.

Import nx topology_builder paths.

Lemma firstn_Sorted {A} (R : A -> A -> Prop) (n : nat) (l : list A) :
  Sorted R l -> Sorted R (firstn n l).
Proof.
  revert n. induction l as [|x r IH]; intros n Hs.
  - now rewrite firstn_nil.
  - destruct n as [|n]; simpl; [constructor|].
    inversion Hs as [|? ? Hr Hhd]; subst.
    constructor; [now apply IH|].
    destruct r as [|y r']; destruct n; simpl; constructor.
    now inversion Hhd.
Qed.

Lemma firstn_Forall {A} (P : A -> Prop) (n : nat) (l : list A) :
  Forall P l -> Forall P (firstn n l).
Proof.
  intros Hf. rewrite <- (firstn_skipn n l) in Hf.
  now apply Forall_app in Hf.
Qed.

Lemma slice_to_length {A} (k : Z) (l : list A) :
  0 <= k -> Z.of_nat (List.length (slice_to k l)) <= k.
Proof.
  intros Hk. unfold slice_to.
  destruct (k <? 0) eqn:E; [apply Z.ltb_lt in E; lia|].
  rewrite length_firstn. lia.
Qed.

Lemma last_In {A} (x d : A) (r : list A) : In (last (x :: r) d) (x :: r).
Proof.
  revert x. induction r as [|y r IH]; intros x.
  - now left.
  - right. apply (IH y).
Qed.

Lemma no_path_without_endpoint (g : Graph) (source target : string) :
  contains source g = false \/ contains target g = false ->
  forall p, is_simple_path g source target p = false.
Proof.
  intros Hmiss p. unfold is_simple_path.
  destruct p as [|x r]; [reflexivity|].
  destruct (String.eqb x source) eqn:Ex; [|reflexivity].
  destruct (String.eqb (last (x :: r) "") target) eqn:Et; [|reflexivity].
  cbn [andb].
  destruct (forallb (fun n => contains n g) (x :: r)) eqn:Ef; [|reflexivity].
  exfalso. rewrite forallb_forall in Ef.
  apply String.eqb_eq in Ex, Et. subst source target.
  destruct Hmiss as [Hm|Hm].
  - rewrite (Ef x) in Hm; [discriminate|now left].
  - rewrite (Ef (last (x :: r) "")) in Hm; [discriminate|apply last_In].
Qed.

(** C8.  [k] counts paths, so it is not negative (the one caller passes
    3).  Whenever networkx generates simple paths in order of length and
    raises when there is none, [get_alternative_paths] returns at most [k]
    of them, all simple paths from [source] to [target], in order of
    non-decreasing length, and it returns the empty list (it never raises)
    when no path exists, which includes an endpoint that is no node of the
    graph. *)
Theorem get_alternative_paths_bounded :
  forall (shortest_simple_paths :
            Graph -> string -> string -> outcome (list (list string)))
         (tb : TopologyBuilder) (source target : string) (k : Z),
    0 <= k ->
    (forall ps, shortest_simple_paths (graph tb) source target = Returned ps ->
                Forall (fun p => is_simple_path (graph tb) source target p = true) ps
                /\ Sorted shorter ps) ->
    ((forall p, is_simple_path (graph tb) source target p = false) ->
     exists e, shortest_simple_paths (graph tb) source target = Raised e) ->
    let r := get_alternative_paths shortest_simple_paths tb source target k in
    Z.of_nat (List.length r) <= k
    /\ Forall (fun p => is_simple_path (graph tb) source target p = true) r
    /\ Sorted shorter r
    /\ ((forall p, is_simple_path (graph tb) source target p = false) -> r = [])
    /\ (contains source (graph tb) = false \/ contains target (graph tb) = false
        -> r = []).
Proof.
  intros ssp tb source target k Hk Hgen Hnone r.
  assert (Hempty : (forall p, is_simple_path (graph tb) source target p = false)
                   -> r = []).
  { intros Hno. destruct (Hnone Hno) as [e He].
    subst r. unfold get_alternative_paths. now rewrite He. }
  subst r. unfold get_alternative_paths in *.
  destruct (ssp (graph tb) source target) as [ps|e] eqn:E.
  - destruct (Hgen ps eq_refl) as [Hsimple Hsorted].
    assert (Hfirst : slice_to k ps = firstn (Z.to_nat k) ps).
    { unfold slice_to. destruct (k <? 0) eqn:E0; [|reflexivity].
      apply Z.ltb_lt in E0. lia. }
    repeat split.
    + now apply slice_to_length.
    + rewrite Hfirst. now apply firstn_Forall.
    + rewrite Hfirst. now apply firstn_Sorted.
    + exact Hempty.
    + intros Hmiss. apply Hempty. now apply no_path_without_endpoint.
  - split; [simpl; lia|]. repeat split; auto; constructor.
Qed.

(** The triangle with [k = 3]: both paths come back. *)
Lemma get_alternative_paths_bounded_witness :
  0 <= 3 /\
  let r := get_alternative_paths examples.triangle_paths
             examples.triangle_topology "R1" "R3" 3 in
  Z.of_nat (List.length r) <= 3
  /\ Forall (fun p => is_simple_path (graph examples.triangle_topology)
                        "R1" "R3" p = true) r
  /\ Sorted shorter r
  /\ ((forall p, is_simple_path (graph examples.triangle_topology)
                   "R1" "R3" p = false) -> r = [])
  /\ (contains "R1" (graph examples.triangle_topology) = false
      \/ contains "R3" (graph examples.triangle_topology) = false -> r = []).
Proof.
  split; [lia|].
  apply (get_alternative_paths_bounded examples.triangle_paths
           examples.triangle_topology "R1" "R3" 3).
  - lia.
  - intros ps Hps. vm_compute in Hps. injection Hps as <-. split.
    + repeat constructor.
    + repeat constructor; unfold shorter; simpl; lia.
  - intros Hno. specialize (Hno ["R1"; "R3"]). vm_compute in Hno. discriminate.
Defined.

End AlternativePaths.

(** ** validator.py: the battery of checks *)

Section Battery.

Import nx topology_builder validator.
Variable simple_cycles : Graph -> list (list string).

Lemma run_app (pre post : list check) (v : ConfigValidator) :
  run (pre ++ post) v = (v' <- run pre v ;; run post v').
Proof.
  revert v. induction pre as [|c r IH]; intros v; simpl.
  - reflexivity.
  - destruct (c v) as [v1|e]; simpl; [apply IH|reflexivity].
Qed.

Lemma validate_configuration_run (pd : ParsedData) (tb : TopologyBuilder)
    (v : ConfigValidator) :
  validate_configuration simple_cycles pd tb v
  = (v' <- run (checks simple_cycles pd tb) v ;; Returned (result_of v', v')).
Proof.
  unfold validate_configuration, checks, total. cbn [run bind].
  destruct (_suggest_node_aggregation _ _ _); reflexivity.
Qed.

(** The battery returns the findings of all eight checks when none raises. *)
Lemma validate_configuration_returns (pd : ParsedData) (tb : TopologyBuilder)
    (v v' : ConfigValidator) :
  run (checks simple_cycles pd tb) v = Returned v' ->
  validate_configuration simple_cycles pd tb v = Returned (result_of v', v').
Proof.
  intros Hrun. now rewrite validate_configuration_run, Hrun.
Qed.

(** C5, as the code has it.  [validate_configuration] has no handler around
    its checks: when the checks before [c] return and [c] raises [e], the
    call raises [e] to its caller; the checks after [c] are not run and no
    result is returned. *)
Theorem validate_configuration_propagates :
  forall (pd : ParsedData) (tb : TopologyBuilder) (v v' : ConfigValidator)
         (pre post : list check) (c : check) (e : exn),
    checks simple_cycles pd tb = (pre ++ c :: post)%list ->
    run pre v = Returned v' ->
    c v' = Raised e ->
    validate_configuration simple_cycles pd tb v = Raised e.
Proof.
  intros pd tb v v' pre post c e Hsplit Hpre Hc.
  rewrite validate_configuration_run, Hsplit, run_app, Hpre.
  cbn [bind run]. now rewrite Hc.
Qed.

End Battery.

(** On [lan_without_R1] the aggregation check looks up the record of [R1],
    which is missing, after the seven other checks have returned. *)
Lemma validate_configuration_propagates_witness :
  validator.validate_configuration examples.lan_cycles examples.lan_without_R1
    (topology_builder.build_topology examples.lan_without_R1 topology_builder.init)
    validator.init
  = Raised (KeyError "R1").
Proof.
  set (pd := examples.lan_without_R1).
  set (tb := topology_builder.build_topology pd topology_builder.init).
  eapply (validate_configuration_propagates examples.lan_cycles pd tb
           validator.init _
           (firstn 7 (validator.checks examples.lan_cycles pd tb)) []
           (validator._suggest_node_aggregation (topology_builder.graph tb)
              (pd_devices pd))
           (KeyError "R1")).
  - reflexivity.
  - vm_compute. reflexivity.
  - vm_compute. reflexivity.
Defined.

(** C5 as stated fails: a check raises and the caller gets the exception,
    not a result, whatever the cycle enumeration returns. *)
Lemma validate_configuration_raises_KeyError :
  validator.aggregate_node
    (topology_builder.graph
       (topology_builder.build_topology examples.lan_without_R1
          topology_builder.init))
    (pd_devices examples.lan_without_R1) "SW1" validator.init
  = Raised (KeyError "R1")
  /\ forall simple_cycles,
      validator.validate_configuration simple_cycles examples.lan_without_R1
        (topology_builder.build_topology examples.lan_without_R1
           topology_builder.init)
        validator.init
      = Raised (KeyError "R1").
Proof.
  split; [reflexivity|]. intros simple_cycles. reflexivity.
Qed.

(** ** simulator.py: neighbor seeding *)

Section Seeding.

Import simulator.
Variable now : Q.

Definition neighbors_of (sim : NetworkSimulator) (device_name : string)
    : option (list string) :=
  match get device_name (devices sim) with
  | Some d => Some (keys (neighbors d))
  | None => None
  end.

(** C3.  [R1] at 10.0.0.1 and [SW1] at 10.0.0.2 have interfaces on the same
    network 10.0.0.0 under the same mask, and the topology builder links
    them; [load_topology] groups the interfaces by the address itself, so
    neither becomes a neighbor of the other. *)
Theorem load_topology_groups_by_address :
  network_address "10.0.0.1/255.255.255.0" = Some 167772160
  /\ network_address "10.0.0.2/255.255.255.0" = Some 167772160
  /\ nx.has_edge (topology_builder.graph
                    (topology_builder.build_topology examples.lan
                       topology_builder.init)) "R1" "SW1" = true
  /\ group_networks (pd_interfaces examples.lan)
     = [ ("10.0.0.1/255.255.255.0", ["R1"]); ("10.0.0.2/255.255.255.0", ["SW1"]) ]
  /\ neighbors_of (load_topology now examples.lan simulator.init) "R1" = Some []
  /\ neighbors_of (load_topology now examples.lan simulator.init) "SW1" = Some [].
Proof.
  repeat split; vm_compute; reflexivity.
Qed.

End Seeding.

(** ** networkx: edges after [add_node] and [add_edge] *)

Section GraphFacts.

Import nx.

Lemma get_ensure_node (n x : string) (g : Graph) :
  get x (ensure_node n g)
  = match get x g with
    | Some nd => Some nd
    | None => if String.eqb x n then Some {| attr := None; adj := [] |} else None
    end.
Proof.
  unfold ensure_node. destruct (get n g) as [nd|] eqn:En.
  - destruct (get x g) as [xd|] eqn:Ex; [reflexivity|].
    destruct (String.eqb x n) eqn:E; [|reflexivity].
    apply String.eqb_eq in E. subst. congruence.
  - rewrite get_set. cbn [keqb Key_string].
    destruct (String.eqb x n) eqn:E.
    + apply String.eqb_eq in E. subst. now rewrite En.
    + now destruct (get x g).
Qed.

Lemma contains_ensure_node (n x : string) (g : Graph) :
  contains x (ensure_node n g) = (contains x g || String.eqb x n)%bool.
Proof.
  unfold contains. rewrite get_ensure_node.
  destruct (get x g); [reflexivity|]. now destruct (String.eqb x n).
Qed.

Lemma get_edge_ensure_node (n x y : string) (g : Graph) :
  get_edge (ensure_node n g) x y = get_edge g x y.
Proof.
  unfold get_edge. rewrite get_ensure_node.
  destruct (get x g); [reflexivity|]. now destruct (String.eqb x n).
Qed.

Lemma get_set_adj (u v x : string) (d : EdgeData) (g : Graph) :
  get x (set_adj u v d g)
  = match get u g with
    | None => get x g
    | Some nd =>
        if String.eqb x u
        then Some {| attr := attr nd; adj := set v d (adj nd) |}
        else get x g
    end.
Proof.
  unfold set_adj. destruct (get u g) as [nd|]; [|reflexivity].
  now rewrite get_set.
Qed.

Lemma contains_set_adj (u v x : string) (d : EdgeData) (g : Graph) :
  contains x (set_adj u v d g) = contains x g.
Proof.
  unfold contains. rewrite get_set_adj.
  destruct (get u g) as [nd|] eqn:Eu; [|reflexivity].
  destruct (String.eqb x u) eqn:E; [|reflexivity].
  apply String.eqb_eq in E. subst. now rewrite Eu.
Qed.

Lemma get_edge_set_adj (u v x y : string) (d : EdgeData) (g : Graph) :
  contains u g = true ->
  get_edge (set_adj u v d g) x y
  = if (String.eqb x u && String.eqb y v)%bool then Some d else get_edge g x y.
Proof.
  unfold contains, get_edge. intros Hc. rewrite get_set_adj.
  destruct (get u g) as [nd|] eqn:Eu; [|discriminate].
  destruct (String.eqb x u) eqn:E; cbn [andb]; [|reflexivity].
  apply String.eqb_eq in E. subst x. rewrite Eu. cbn [adj].
  now rewrite get_set.
Qed.

(** After [add_edge(u, v, **d)] both [G[u][v]] and [G[v][u]] are [d], and no
    other pair changes. *)
Lemma get_edge_add_edge (u v x y : string) (d : EdgeData) (g : Graph) :
  get_edge (add_edge u v d g) x y
  = if ((String.eqb x u && String.eqb y v) || (String.eqb x v && String.eqb y u))%bool
    then Some d else get_edge g x y.
Proof.
  unfold add_edge.
  rewrite get_edge_set_adj.
  2:{ rewrite contains_set_adj, contains_ensure_node, String.eqb_refl.
      apply orb_true_r. }
  rewrite get_edge_set_adj.
  2:{ rewrite !contains_ensure_node, String.eqb_refl.
      now rewrite orb_true_r. }
  rewrite !get_edge_ensure_node.
  destruct (String.eqb x v && String.eqb y u)%bool;
    destruct (String.eqb x u && String.eqb y v)%bool; reflexivity.
Qed.

Lemma get_edge_add_node (n x y : string) (a : Device) (g : Graph) :
  get_edge (add_node n a g) x y = get_edge g x y.
Proof.
  unfold add_node, get_edge.
  destruct (get n g) as [nd|] eqn:En; rewrite get_set; cbn [keqb Key_string];
    destruct (String.eqb x n) eqn:E; try reflexivity;
    apply String.eqb_eq in E; subst; now rewrite En.
Qed.



End GraphFacts.

(** ** topology_builder.py: the edges that [_add_connections] leaves *)

Section Connections.

Import nx topology_builder.

(** The pair [int1], [int2] joins the devices [x] and [y], in either order. *)
Definition joins (int1 int2 : Interface) (x y : string) : bool :=
  ((String.eqb x (device int1) && String.eqb y (device int2))
   || (String.eqb x (device int2) && String.eqb y (device int1)))%bool.

(** [int1] occurs before [int2] in the list: the pairs that the two loops
    visit, [int1] being the outer one. *)
Definition visits (l : list Interface) (int1 int2 : Interface) : Prop :=
  exists l1 l2 l3, l = (l1 ++ int1 :: l2 ++ int2 :: l3)%list.

(** What the inner loop for [int1] leaves as [G[x][y]]. *)
Definition row_link (int1 : Interface) (rest : list Interface) (x y : string)
    (acc : option EdgeData) : option EdgeData :=
  fold_left (fun acc int2 =>
               if (connects int1 int2 && joins int1 int2 x y)%bool
               then Some (link_data int1 int2) else acc)
            rest acc.

(** What both loops leave as [G[x][y]]: the data of the last pair visited
    that connects [x] and [y]. *)
Fixpoint last_link (l : list Interface) (x y : string)
    (acc : option EdgeData) : option EdgeData :=
  match l with
  | [] => acc
  | int1 :: rest => last_link rest x y (row_link int1 rest x y acc)
  end.

(** The adjacency rule as a table of unordered pairs. *)
Definition allowed_pairs : list (DeviceType * DeviceType) :=
  [ (router, router); (router, switch); (switch, pc); (switch, server);
    (switch, laptop); (switch, unknown) ].

Definition allowed_adjacency (k1 k2 : DeviceType) : Prop :=
  In (k1, k2) allowed_pairs \/ In (k2, k1) allowed_pairs.

(** The bandwidth of an interface as the specification words it: only an
    unset bandwidth is replaced. *)
Definition bandwidth_or_default (bw : option Z) : Z :=
  match bw with
  | Some n => n
  | None => 100000
  end.

Lemma should_connect_allowed (k1 k2 : DeviceType) :
  should_connect k1 k2 = true <-> allowed_adjacency k1 k2.
Proof.
  unfold allowed_adjacency, allowed_pairs.
  destruct k1, k2; cbn; split; intros Hx;
    try reflexivity; try discriminate; try tauto;
    repeat (destruct Hx as [Hx|Hx]; try discriminate; try contradiction).
Qed.

Lemma allowed_adjacency_sym (k1 k2 : DeviceType) :
  allowed_adjacency k1 k2 -> allowed_adjacency k2 k1.
Proof. unfold allowed_adjacency. tauto. Qed.

Lemma joins_sym (int1 int2 : Interface) (x y : string) :
  joins int1 int2 x y = joins int1 int2 y x.
Proof.
  unfold joins.
  destruct (String.eqb x (device int1)), (String.eqb y (device int2)),
    (String.eqb x (device int2)), (String.eqb y (device int1)); reflexivity.
Qed.

Lemma joins_spec (int1 int2 : Interface) (x y : string) :
  joins int1 int2 x y = true
  <-> (device int1 = x /\ device int2 = y) \/ (device int1 = y /\ device int2 = x).
Proof.
  unfold joins. rewrite orb_true_iff, !andb_true_iff, !String.eqb_eq.
  intuition congruence.
Qed.

Lemma get_edge_connect_pair (int1 int2 : Interface) (g : Graph) (x y : string) :
  get_edge (connect_pair int1 int2 g) x y
  = if (connects int1 int2 && joins int1 int2 x y)%bool
    then Some (link_data int1 int2) else get_edge g x y.
Proof.
  unfold connect_pair. destruct (connects int1 int2); cbn [andb]; [|reflexivity].
  rewrite get_edge_add_edge. reflexivity.
Qed.

Lemma get_edge_row (int1 : Interface) (rest : list Interface) (g : Graph)
    (x y : string) :
  get_edge (fold_left (fun g int2 => connect_pair int1 int2 g) rest g) x y
  = row_link int1 rest x y (get_edge g x y).
Proof.
  unfold row_link. revert g. induction rest as [|int2 r IH]; intros g; simpl.
  - reflexivity.
  - rewrite IH, get_edge_connect_pair. reflexivity.
Qed.

Lemma get_edge_connect_all (l : list Interface) (g : Graph) (x y : string) :
  get_edge (connect_all l g) x y = last_link l x y (get_edge g x y).
Proof.
  revert g. induction l as [|int1 rest IH]; intros g; simpl.
  - reflexivity.
  - now rewrite IH, get_edge_row.
Qed.

Lemma row_link_Some (int1 : Interface) (rest : list Interface) (x y : string)
    (acc : option EdgeData) (e : EdgeData) :
  row_link int1 rest x y acc = Some e ->
  acc = Some e
  \/ exists l2 int2 l3,
      rest = (l2 ++ int2 :: l3)%list /\ connects int1 int2 = true
      /\ joins int1 int2 x y = true /\ e = link_data int1 int2.
Proof.
  unfold row_link. revert acc. induction rest as [|i r IH]; intros acc; simpl.
  - now left.
  - intros Hr. destruct (IH _ Hr) as [Hacc|(l2 & int2 & l3 & -> & Hc & Hj & ->)].
    + destruct (connects int1 i && joins int1 i x y)%bool eqn:E; [|now left].
      right. apply andb_true_iff in E. destruct E as [Hc Hj].
      exists [], i, r. inversion Hacc. auto.
    + right. exists (i :: l2), int2, l3. auto.
Qed.

Lemma row_link_keeps (int1 : Interface) (rest : list Interface) (x y : string)
    (acc : option EdgeData) :
  acc <> None -> row_link int1 rest x y acc <> None.
Proof.
  unfold row_link. revert acc. induction rest as [|i r IH]; intros acc Hacc; simpl.
  - assumption.
  - apply IH. now destruct (connects int1 i && joins int1 i x y)%bool.
Qed.

Lemma row_link_found (int1 int2 : Interface) (l2 l3 : list Interface)
    (x y : string) (acc : option EdgeData) :
  connects int1 int2 = true -> joins int1 int2 x y = true ->
  row_link int1 (l2 ++ int2 :: l3) x y acc <> None.
Proof.
  intros Hc Hj. unfold row_link. rewrite fold_left_app. simpl.
  rewrite Hc, Hj. cbn [andb]. now apply row_link_keeps.
Qed.

Lemma last_link_keeps (l : list Interface) (x y : string) (acc : option EdgeData) :
  acc <> None -> last_link l x y acc <> None.
Proof.
  revert acc. induction l as [|i r IH]; intros acc Hacc; simpl.
  - assumption.
  - apply IH. now apply row_link_keeps.
Qed.

Lemma last_link_Some (l : list Interface) (x y : string)
    (acc : option EdgeData) (e : EdgeData) :
  last_link l x y acc = Some e ->
  acc = Some e
  \/ exists int1 int2,
      visits l int1 int2 /\ connects int1 int2 = true
      /\ joins int1 int2 x y = true /\ e = link_data int1 int2.
Proof.
  revert acc. induction l as [|i r IH]; intros acc; simpl.
  - now left.
  - intros Hl. destruct (IH _ Hl) as [Hrow|(int1 & int2 & Hv & Hc & Hj & He)].
    + destruct (row_link_Some _ _ _ _ _ _ Hrow)
        as [Hacc|(l2 & int2 & l3 & -> & Hc & Hj & He)]; [now left|].
      right. exists i, int2. repeat split; auto. now exists [], l2, l3.
    + right. exists int1, int2. repeat split; auto.
      destruct Hv as (l1 & l2 & l3 & ->). now exists (i :: l1), l2, l3.
Qed.

Lemma last_link_found (l : list Interface) (int1 int2 : Interface)
    (x y : string) (acc : option EdgeData) :
  visits l int1 int2 -> connects int1 int2 = true ->
  joins int1 int2 x y = true -> last_link l x y acc <> None.
Proof.
  intros (l1 & l2 & l3 & ->) Hc Hj. revert acc.
  induction l1 as [|i r IH]; intros acc; simpl.
  - apply last_link_keeps. now apply row_link_found.
  - apply IH.
Qed.

Lemma row_link_sym (int1 : Interface) (rest : list Interface) (x y : string)
    (acc : option EdgeData) :
  row_link int1 rest x y acc = row_link int1 rest y x acc.
Proof.
  unfold row_link. revert acc.
  induction rest as [|j r IH]; intros acc; simpl; [reflexivity|].
  rewrite (joins_sym int1 j x y). apply IH.
Qed.

Lemma last_link_sym (l : list Interface) (x y : string) (acc : option EdgeData) :
  last_link l x y acc = last_link l y x acc.
Proof.
  revert acc. induction l as [|i r IH]; intros acc; simpl.
  - reflexivity.
  - now rewrite IH, row_link_sym.
Qed.

Lemma get_edge_add_nodes (devices : dict string Device) (g : Graph) (x y : string) :
  get_edge (fold_left (fun g '(device_name, device_info) =>
                         add_node device_name device_info g) devices g) x y
  = get_edge g x y.
Proof.
  revert g. induction devices as [|[n a] r IH]; intros g; simpl.
  - reflexivity.
  - now rewrite IH, get_edge_add_node.
Qed.

(** Every pair of the built graph is what the loops left from no edge. *)
Lemma get_edge_build_topology (pd : ParsedData) (x y : string) :
  get_edge (graph (build_topology pd topology_builder.init)) x y
  = last_link (values (pd_interfaces pd)) x y None.
Proof.
  unfold build_topology, _determine_hierarchy, _add_connections. cbn [graph].
  rewrite get_edge_connect_all, get_edge_add_nodes. reflexivity.
Qed.

End Connections.

Section Topology.

Import nx topology_builder.

Lemma connects_spec (int1 int2 : Interface) :
  connects int1 int2 = true
  <-> truthy (ip_address int1) = true /\ truthy (ip_address int2) = true
      /\ device int1 <> device int2
      /\ is_same_network (str_opt (ip_address int1)) (str_opt (ip_address int2))
                         (subnet_mask int1) = true
      /\ allowed_adjacency (_get_device_type (device int1))
                           (_get_device_type (device int2)).
Proof.
  unfold connects. rewrite !andb_true_iff, negb_true_iff, should_connect_allowed.
  rewrite <- not_true_iff_false, String.eqb_eq. tauto.
Qed.

(** C1.  In the graph that [build_topology] returns from a fresh builder,
    two distinct devices are joined by an edge exactly when the interface
    list holds an interface of each, both with an address, in one network
    under the mask of the one that comes first in the list, and the kinds of
    the two devices form an allowed pair; there is no self-loop, and a pair
    of devices has one edge record, read the same from both ends. *)
Theorem build_topology_edge_iff :
  forall (pd : ParsedData) (d1 d2 : string),
    d1 <> d2 ->
    let g := graph (build_topology pd topology_builder.init) in
    (has_edge g d1 d2 = true <->
     exists int1 int2,
       visits (values (pd_interfaces pd)) int1 int2
       /\ ((device int1 = d1 /\ device int2 = d2)
           \/ (device int1 = d2 /\ device int2 = d1))
       /\ truthy (ip_address int1) = true /\ truthy (ip_address int2) = true
       /\ is_same_network (str_opt (ip_address int1)) (str_opt (ip_address int2))
                          (subnet_mask int1) = true
       /\ allowed_adjacency (_get_device_type d1) (_get_device_type d2))
    /\ (forall d, has_edge g d d = false)
    /\ get_edge g d1 d2 = get_edge g d2 d1.
Proof.
  intros pd d1 d2 Hne g. subst g. unfold has_edge.
  split; [|split].
  - rewrite get_edge_build_topology. split.
    + destruct (last_link _ d1 d2 None) as [e|] eqn:El; [intros _|discriminate].
      apply last_link_Some in El.
      destruct El as [El|(int1 & int2 & Hv & Hc & Hj & _)]; [discriminate|].
      apply connects_spec in Hc. destruct Hc as (Hi1 & Hi2 & _ & Hnet & Hk).
      apply joins_spec in Hj.
      exists int1, int2. split; [exact Hv|]. split; [exact Hj|].
      split; [exact Hi1|]. split; [exact Hi2|]. split; [exact Hnet|].
      destruct Hj as [[<- <-]|[<- <-]]; [|apply allowed_adjacency_sym];
        assumption.
    + intros (int1 & int2 & Hv & Hd & Hi1 & Hi2 & Hnet & Hk).
      assert (Hc : connects int1 int2 = true).
      { apply connects_spec. repeat split; auto.
        - destruct Hd as [[-> ->]|[-> ->]]; auto.
        - destruct Hd as [[-> ->]|[-> ->]]; [|apply allowed_adjacency_sym];
            assumption. }
      assert (Hj : joins int1 int2 d1 d2 = true).
      { apply joins_spec. tauto. }
      pose proof (last_link_found _ _ _ _ _ None Hv Hc Hj) as Hf.
      now destruct (last_link _ d1 d2 None).
  - intros d. rewrite get_edge_build_topology.
    destruct (last_link _ d d None) as [e|] eqn:El; [|reflexivity].
    apply last_link_Some in El.
    destruct El as [El|(int1 & int2 & _ & Hc & Hj & _)]; [discriminate|].
    apply connects_spec in Hc. apply joins_spec in Hj.
    exfalso. destruct Hc as (_ & _ & Hd & _).
    destruct Hj as [[H1 H2]|[H1 H2]]; congruence.
  - rewrite !get_edge_build_topology. apply last_link_sym.
Qed.

(** On [lan] the router and the switch are joined. *)
Lemma build_topology_edge_iff_witness :
  "R1" <> "SW1"
  /\ has_edge (graph (build_topology examples.lan topology_builder.init))
              "R1" "SW1" = true.
Proof.
  assert (Hne : "R1" <> "SW1") by discriminate.
  split; [exact Hne|].
  apply (build_topology_edge_iff examples.lan "R1" "SW1" Hne).
  exists (examples.mk_interface "R1" "Gi0/0" "10.0.0.1" (Some 1000) None),
         (examples.mk_interface "SW1" "Vlan1" "10.0.0.2" None None).
  repeat split.
  - now exists [], [], [].
  - left. split; reflexivity.
  - left. right. left. reflexivity.
Defined.

Lemma or_int_nonzero (x : option Z) (default : Z) :
  default <> 0 -> or_int x default <> 0.
Proof.
  intros Hd. destruct x as [[| |]|]; simpl; try assumption; discriminate.
Qed.

(** C7, with the rule for the default as the code has it.  The record of an
    edge between [a] and [b] comes from a pair of interfaces of the two
    devices that the loops connected (the last such pair): its bandwidth is
    the minimum of the two interface bandwidths, where a bandwidth that is
    unset OR ZERO is replaced by 100000; it names the two interfaces; its
    bandwidth is not zero and its weight is 1 divided by it. *)
Theorem build_topology_edge_bandwidth :
  forall (pd : ParsedData) (a b : string) (e : EdgeData),
    get_edge (graph (build_topology pd topology_builder.init)) a b = Some e ->
    exists int1 int2,
      visits (values (pd_interfaces pd)) int1 int2
      /\ connects int1 int2 = true
      /\ ((device int1 = a /\ device int2 = b)
          \/ (device int1 = b /\ device int2 = a))
      /\ e_interface1 e = interface int1 /\ e_interface2 e = interface int2
      /\ e_bandwidth e = Z.min (or_int (bandwidth int1) 100000)
                               (or_int (bandwidth int2) 100000)
      /\ e_bandwidth e <> 0
      /\ e_weight e = (1 / inject_Z (e_bandwidth e))%Q.
Proof.
  intros pd a b e He. rewrite get_edge_build_topology in He.
  apply last_link_Some in He.
  destruct He as [He|(int1 & int2 & Hv & Hc & Hj & ->)]; [discriminate|].
  apply joins_spec in Hj.
  exists int1, int2. repeat split; auto.
  - cbn [link_data e_bandwidth].
    pose proof (or_int_nonzero (bandwidth int1) 100000) as H1.
    pose proof (or_int_nonzero (bandwidth int2) 100000) as H2.
    lia.
Qed.

(** On [lan] the edge has the router's 1000 against the switch's default. *)
Lemma build_topology_edge_bandwidth_witness :
  exists int1 int2,
    visits (values (pd_interfaces examples.lan)) int1 int2
    /\ connects int1 int2 = true
    /\ ((device int1 = "R1" /\ device int2 = "SW1")
        \/ (device int1 = "SW1" /\ device int2 = "R1"))
    /\ "Gi0/0" = interface int1 /\ "Vlan1" = interface int2
    /\ 1000 = Z.min (or_int (bandwidth int1) 100000)
                    (or_int (bandwidth int2) 100000)
    /\ 1000 <> 0
    /\ (1 # 1000) = (1 / inject_Z 1000)%Q.
Proof.
  exact (build_topology_edge_bandwidth examples.lan "R1" "SW1"
           {| e_bandwidth := 1000; e_interface1 := "Gi0/0";
              e_interface2 := "Vlan1"; e_mtu1 := 1500; e_mtu2 := 1500;
              e_weight := 1 # 1000 |} eq_refl).
Defined.

(** C7 as stated fails for an interface configured with [bandwidth 0]: the
    zero is replaced like an unset value, so the edge stores 5000 where the
    minimum of the two configured bandwidths is 0. *)
Lemma build_topology_zero_bandwidth :
  exists e,
    get_edge (graph (build_topology examples.lan_zero_bandwidth
                       topology_builder.init)) "R1" "SW1" = Some e
    /\ e_bandwidth e = 5000
    /\ Z.min (bandwidth_or_default (Some 0)) (bandwidth_or_default (Some 5000)) = 0
    /\ e_bandwidth e
       <> Z.min (bandwidth_or_default (Some 0)) (bandwidth_or_default (Some 5000)).
Proof.
  eexists. split; [reflexivity|]. repeat split. discriminate.
Qed.

End Topology.

(** ** topology_builder.py: the hierarchy *)

Section HierarchyFacts.

Import nx topology_builder.

(** The nodes in rank order: [sorted_devices] without the centralities. *)
Definition ranked (g : Graph) : list string :=
  map fst (sorted_desc (degree_centrality g)).

(** The number of ranks [i] with [i < total * 0.2]. *)
Definition core_count (total : nat) : nat := ((total + 4) / 5)%nat.

(** The number of ranks [i] with [i < total * 0.6]. *)
Definition distribution_end (total : nat) : nat := ((3 * total + 4) / 5)%nat.


Lemma tier_of_spec (i total : nat) :
  tier_of i total
  = if (i <? core_count total)%nat then Core
    else if (i <? distribution_end total)%nat then Distribution
    else Access.
Proof.
  unfold tier_of, core_count, distribution_end.
  pose proof (Nat.div_mod_eq (total + 4) 5) as H1.
  pose proof (Nat.mod_upper_bound (total + 4) 5) as H2.
  pose proof (Nat.div_mod_eq (3 * total + 4) 5) as H3.
  pose proof (Nat.mod_upper_bound (3 * total + 4) 5) as H4.
  destruct (Nat.ltb_spec (5 * i) total), (Nat.ltb_spec i ((total + 4) / 5));
    destruct (Nat.ltb_spec (5 * i) (3 * total)),
      (Nat.ltb_spec i ((3 * total + 4) / 5));
    try reflexivity; exfalso; lia.
Qed.

Lemma core_count_le (total : nat) : (core_count total <= distribution_end total)%nat.
Proof.
  unfold core_count, distribution_end.
  pose proof (Nat.div_mod_eq (total + 4) 5) as H1.
  pose proof (Nat.mod_upper_bound (total + 4) 5) as H2.
  pose proof (Nat.div_mod_eq (3 * total + 4) 5) as H3.
  pose proof (Nat.mod_upper_bound (3 * total + 4) 5) as H4.
  lia.
Qed.

Lemma assign_tiers_core (l : list (string * Q)) (i total : nat) (h : Hierarchy) :
  core (assign_tiers i total l h)
  = (core h ++ firstn (core_count total - i) (map fst l))%list.
Proof.
  revert i h. induction l as [|[x q] r IH]; intros i h; cbn [assign_tiers map fst].
  - now rewrite firstn_nil, app_nil_r.
  - rewrite IH, tier_of_spec.
    pose proof (core_count_le total) as Hle.
    destruct (Nat.ltb_spec i (core_count total)) as [Hc|Hc].
    + cbn [append_tier core].
      replace (core_count total - i)%nat with (S (core_count total - S i)) by lia.
      cbn [firstn]. now rewrite <- app_assoc.
    + replace (core_count total - S i)%nat with 0%nat by lia.
      replace (core_count total - i)%nat with 0%nat by lia.
      now destruct (i <? distribution_end total)%nat.
Qed.

Lemma assign_tiers_distribution (l : list (string * Q)) (i total : nat)
    (h : Hierarchy) :
  distribution (assign_tiers i total l h)
  = (distribution h
     ++ firstn (distribution_end total - Nat.max i (core_count total))
               (skipn (core_count total - i) (map fst l)))%list.
Proof.
  revert i h. induction l as [|[x q] r IH]; intros i h; cbn [assign_tiers map fst].
  - now rewrite skipn_nil, firstn_nil, app_nil_r.
  - rewrite IH, tier_of_spec.
    pose proof (core_count_le total) as Hle.
    destruct (Nat.ltb_spec i (core_count total)) as [Hc|Hc].
    + cbn [append_tier distribution].
      replace (core_count total - i)%nat with (S (core_count total - S i)) by lia.
      cbn [skipn].
      now replace (Nat.max (S i) (core_count total))
        with (Nat.max i (core_count total)) by lia.
    + replace (core_count total - S i)%nat with 0%nat by lia.
      replace (core_count total - i)%nat with 0%nat by lia.
      cbn [skipn].
      destruct (Nat.ltb_spec i (distribution_end total)) as [Hd|Hd].
      * cbn [append_tier distribution].
        replace (distribution_end total - Nat.max i (core_count total))%nat
          with (S (distribution_end total - Nat.max (S i) (core_count total)))
          by lia.
        cbn [firstn]. now rewrite <- app_assoc.
      * cbn [append_tier distribution].
        replace (distribution_end total - Nat.max (S i) (core_count total))%nat
          with 0%nat by lia.
        now replace (distribution_end total - Nat.max i (core_count total))%nat
          with 0%nat by lia.
Qed.

Lemma assign_tiers_access (l : list (string * Q)) (i total : nat) (h : Hierarchy) :
  access (assign_tiers i total l h)
  = (access h ++ skipn (distribution_end total - i) (map fst l))%list.
Proof.
  revert i h. induction l as [|[x q] r IH]; intros i h; cbn [assign_tiers map fst].
  - now rewrite skipn_nil, app_nil_r.
  - rewrite IH, tier_of_spec.
    pose proof (core_count_le total) as Hle.
    destruct (Nat.ltb_spec i (core_count total)) as [Hc|Hc];
      [|destruct (Nat.ltb_spec i (distribution_end total)) as [Hd|Hd]].
    + cbn [append_tier access].
      now replace (distribution_end total - i)%nat
        with (S (distribution_end total - S i)) by lia.
    + cbn [append_tier access].
      now replace (distribution_end total - i)%nat
        with (S (distribution_end total - S i)) by lia.
    + cbn [append_tier access].
      replace (distribution_end total - S i)%nat with 0%nat by lia.
      replace (distribution_end total - i)%nat with 0%nat by lia.
      cbn [skipn]. now rewrite <- app_assoc.
Qed.

Lemma insert_desc_Permutation (x : string * Q) (l : list (string * Q)) :
  Permutation (insert_desc x l) (x :: l).
Proof.
  induction l as [|y r IH]; simpl.
  - apply Permutation_refl.
  - destruct (Qle_bool (snd y) (snd x)).
    + apply Permutation_refl.
    + apply perm_trans with (y :: x :: r).
      * now apply perm_skip.
      * apply perm_swap.
Qed.

Lemma sorted_desc_Permutation (l : list (string * Q)) :
  Permutation (sorted_desc l) l.
Proof.
  induction l as [|x r IH]; simpl.
  - apply perm_nil.
  - apply perm_trans with (x :: sorted_desc r).
    + apply insert_desc_Permutation.
    + now apply perm_skip.
Qed.



Lemma degree_centrality_nodes (g : Graph) : map fst (degree_centrality g) = nodes g.
Proof.
  unfold degree_centrality, nodes, keys.
  destruct (List.length g <=? 1)%nat; rewrite map_map;
    apply map_ext; now intros [n nd].
Qed.

Lemma ranked_Permutation (g : Graph) : Permutation (ranked g) (nodes g).
Proof.
  unfold ranked. rewrite <- degree_centrality_nodes.
  apply Permutation_map, sorted_desc_Permutation.
Qed.

Lemma length_ranked (g : Graph) : List.length (ranked g) = List.length (nodes g).
Proof. apply Permutation_length, ranked_Permutation. Qed.






End HierarchyFacts.

Section HierarchyPartition.

Import nx topology_builder.


End HierarchyPartition.

(** ** validator.py: duplicate addresses *)

Section DuplicateIps.

Import validator.

(** [c in s] for a character. *)
Fixpoint occurs (c : ascii) (s : string) : bool :=
  match s with
  | EmptyString => false
  | String c' r => (Ascii.eqb c' c || occurs c r)%bool
  end.

(** The owners recorded under [key] when interfaces are grouped by
    [key_of]: one entry per interface that has an address and that key, in
    order. *)
Definition owners_by (key_of : Interface -> string) (key : string)
    (l : list Interface) : list string :=
  map device
      (filter (fun i => (truthy (ip_address i) && String.eqb (key_of i) key)%bool) l).

Definition owners : string -> list Interface -> list string := owners_by ip_key.

Lemma int_of_str_int (n : Z) :
  NilZero.int_of_string (str_int n) = Some (Z.to_int n).
Proof.
  unfold str_int. apply NilZero.isi; destruct n; simpl; try discriminate;
    intros [= Hnil]; apply (DecimalPos.Unsigned.to_uint_nonnil _ Hnil).
Qed.

Lemma str_int_inj (a b : Z) : str_int a = str_int b -> a = b.
Proof.
  intros Heq. apply (f_equal NilZero.int_of_string) in Heq.
  rewrite !int_of_str_int in Heq. injection Heq as Heq.
  now apply DecimalZ.to_int_inj.
Qed.

Lemma occurs_uint (d : Decimal.uint) :
  occurs "_" (NilEmpty.string_of_uint d) = false.
Proof. induction d; simpl; auto. Qed.

Lemma occurs_str_int (n : Z) : occurs "_" (str_int n) = false.
Proof.
  assert (Hu : forall d, occurs "_" (NilZero.string_of_uint d) = false).
  { intros d. destruct d; try reflexivity; apply (occurs_uint (_ d)). }
  unfold str_int. destruct n; simpl; auto.
Qed.

Lemma occurs_vlan_text (i : Interface) : occurs "_" (vlan_text i) = false.
Proof.
  unfold vlan_text. destruct (vlan i) as [[n|]|]; try reflexivity.
  apply occurs_str_int.
Qed.

Lemma vlan_text_inj (i j : Interface) : vlan_text i = vlan_text j -> vlan i = vlan j.
Proof.
  unfold vlan_text.
  destruct (vlan i) as [[n|]|], (vlan j) as [[m|]|]; intros Heq;
    try reflexivity; try discriminate.
  - now rewrite (str_int_inj _ _ Heq).
  - apply (f_equal NilZero.int_of_string) in Heq.
    rewrite int_of_str_int in Heq. vm_compute in Heq. discriminate.
  - apply (f_equal NilZero.int_of_string) in Heq.
    rewrite int_of_str_int in Heq. vm_compute in Heq. discriminate.
  - apply (f_equal NilZero.int_of_string) in Heq.
    rewrite int_of_str_int in Heq. vm_compute in Heq. discriminate.
  - apply (f_equal NilZero.int_of_string) in Heq.
    rewrite int_of_str_int in Heq. vm_compute in Heq. discriminate.
Qed.

Lemma occurs_append (c : ascii) (s t : string) :
  occurs c (s ++ String c t) = true.
Proof.
  induction s as [|c' r IH]; simpl.
  - now rewrite Ascii.eqb_refl.
  - rewrite IH. apply orb_true_r.
Qed.

(** A key splits in one way only at its last underscore. *)
Lemma key_split_unique (s1 s2 t1 t2 : string) :
  occurs "_" t1 = false -> occurs "_" t2 = false ->
  s1 ++ "_" ++ t1 = s2 ++ "_" ++ t2 -> s1 = s2 /\ t1 = t2.
Proof.
  intros H1 H2. revert s2. induction s1 as [|c r IH]; intros [|c2 r2]; simpl.
  - intros [= ->]. auto.
  - intros [= <- ->]. rewrite occurs_append in H1. discriminate.
  - intros [= -> <-]. rewrite occurs_append in H2. discriminate.
  - intros [= -> Heq]. destruct (IH _ Heq) as [-> ->]. auto.
Qed.

(** Interfaces with an address have the same key exactly when they have the
    same address and the same VLAN entry. *)
Lemma ip_key_eq (i j : Interface) :
  truthy (ip_address i) = true -> truthy (ip_address j) = true ->
  (ip_key i = ip_key j <-> ip_address i = ip_address j /\ vlan i = vlan j).
Proof.
  intros Hi Hj. unfold ip_key. split.
  - intros Heq.
    apply key_split_unique in Heq; try apply occurs_vlan_text.
    destruct Heq as [Hip Hv]. split; [|now apply vlan_text_inj].
    destruct (ip_address i), (ip_address j); try discriminate.
    simpl in Hip. now subst.
  - intros [Hip Hv]. unfold vlan_text. now rewrite Hip, Hv.
Qed.

Lemma get_append_to (k k' x : string) (m : dict string (list string)) :
  get k (append_to k' x m)
  = if String.eqb k k'
    then Some (match get k' m with Some l => l ++ [x] | None => [x] end)%list
    else get k m.
Proof.
  unfold append_to. destruct (get k' m) as [l|] eqn:E; rewrite get_set;
    reflexivity.
Qed.

Lemma NoDup_keys_append_to (k x : string) (m : dict string (list string)) :
  NoDup (keys m) -> NoDup (keys (append_to k x m)).
Proof.
  unfold append_to. intros Hnd. destruct (get k m); now apply NoDup_keys_set.
Qed.

(** One step of a grouping loop: [groups[key_of(i)].append(i['device'])]
    for an interface that has an address. *)
Definition group_step (key_of : Interface -> string)
    (m : dict string (list string)) (i : Interface) : dict string (list string) :=
  if truthy (ip_address i) then append_to (key_of i) (device i) m else m.

Lemma get_grouped (key_of : Interface -> string) (l : list Interface)
    (m : dict string (list string)) (k : string) :
  get k (fold_left (group_step key_of) l m)
  = match get k m, owners_by key_of k l with
    | Some e, o => Some (e ++ o)%list
    | None, [] => None
    | None, o => Some o
    end.
Proof.
  revert m. induction l as [|i r IH]; intros m.
  - simpl. destruct (get k m); [now rewrite app_nil_r|reflexivity].
  - cbn [fold_left]. rewrite IH. unfold group_step, owners_by.
    cbn [filter]. fold (owners_by key_of k r).
    destruct (truthy (ip_address i)); cbn [andb]; [|reflexivity].
    rewrite get_append_to, (String.eqb_sym (key_of i) k).
    destruct (String.eqb k (key_of i)) eqn:E; [|reflexivity].
    apply String.eqb_eq in E. subst k. cbn [map].
    destruct (get (key_of i) m) as [e|].
    + now rewrite <- app_assoc.
    + reflexivity.
Qed.

Lemma NoDup_keys_grouped (key_of : Interface -> string) (l : list Interface)
    (m : dict string (list string)) :
  NoDup (keys m) -> NoDup (keys (fold_left (group_step key_of) l m)).
Proof.
  revert m. induction l as [|i r IH]; intros m Hnd; simpl; [assumption|].
  apply IH. unfold group_step.
  destruct (truthy (ip_address i)); [now apply NoDup_keys_append_to|assumption].
Qed.

Definition is_duplicate (group : string * list string) : bool :=
  (1 <? List.length (snd group))%nat.

Definition issue_of (group : string * list string) : Finding :=
  duplicate_ip_issue (fst group) (snd group).

Lemma report_groups (m : dict string (list string)) (v : ConfigValidator) :
  let v' := fold_left (fun v '(ip_vlan, devices) =>
                         if (1 <? List.length devices)%nat
                         then add_issue (duplicate_ip_issue ip_vlan devices) v
                         else v) m v in
  issues v' = (issues v ++ map issue_of (filter is_duplicate m))%list
  /\ warnings v' = warnings v.
Proof.
  revert v. induction m as [|[k ds] r IH]; intros v; simpl.
  - now rewrite app_nil_r.
  - unfold is_duplicate at 1. cbn [snd].
    destruct (1 <? List.length ds)%nat.
    + destruct (IH (add_issue (duplicate_ip_issue k ds) v)) as [Hi Hw].
      simpl in Hi, Hw. rewrite Hi, Hw. cbn [add_issue issues warnings map].
      now rewrite <- app_assoc.
    + apply IH.
Qed.

(** C4, counting as the code counts.  The check groups the interfaces that
    have an address by the key made of the address and the VLAN entry (two
    such interfaces share a key exactly when both agree), records one owner
    per INTERFACE, and appends exactly one high-severity issue for every key
    whose list holds more than one entry; a device that owns two interfaces
    of one key is listed twice and reported.  Warnings are untouched. *)
Theorem check_duplicate_ips_counts_interfaces :
  forall (interfaces : dict string Interface) (v : ConfigValidator),
    let groups := build_ip_map interfaces in
    NoDup (keys groups)
    /\ (forall key,
          get key groups
          = match owners key (values interfaces) with
            | [] => None
            | o => Some o
            end)
    /\ issues (_check_duplicate_ips interfaces v)
       = (issues v ++ map issue_of (filter is_duplicate groups))%list
    /\ warnings (_check_duplicate_ips interfaces v) = warnings v
    /\ (forall group, severity (issue_of group) = "high"
                      /\ affected_devices (issue_of group) = Some (snd group))
    /\ (forall i j,
          truthy (ip_address i) = true -> truthy (ip_address j) = true ->
          (ip_key i = ip_key j <-> ip_address i = ip_address j /\ vlan i = vlan j)).
Proof.
  intros interfaces v groups. subst groups. unfold build_ip_map.
  change (fun m i => if truthy (ip_address i)
                     then append_to (ip_key i) (device i) m else m)
    with (group_step ip_key).
  split; [apply NoDup_keys_grouped; constructor|].
  split; [intros key; rewrite get_grouped; reflexivity|].
  destruct (report_groups (fold_left (group_step ip_key) (values interfaces) []) v)
    as [Hi Hw].
  split; [exact Hi|]. split; [exact Hw|].
  split; [intros group; split; reflexivity|exact ip_key_eq].
Qed.

(** C4 as stated fails when one device owns both interfaces of a key: the
    group has one distinct owner and an issue is emitted. *)
Lemma check_duplicate_ips_single_owner :
  issues (_check_duplicate_ips (pd_interfaces examples.twin_interfaces)
                               validator.init)
  = [ duplicate_ip_issue "10.0.0.1_None" ["R1"; "R1"] ]
  /\ nodup string_dec ["R1"; "R1"] = ["R1"].
Proof.
  split; reflexivity.
Qed.

End DuplicateIps.

(** ** simulator.py: what the seeding does in general *)

Section SeedingFacts.

Import simulator.
Variable now : Q.

Definition has_address (i : Interface) : bool := truthy (ip_address i).

Lemma owners_by_In (key_of : Interface -> string) (k : string)
    (l : list Interface) :
  owners_by key_of k l <> [] -> In k (map key_of (filter has_address l)).
Proof.
  unfold owners_by, has_address. induction l as [|i r IH]; simpl; [congruence|].
  destruct (truthy (ip_address i)); cbn [andb]; [|exact IH].
  destruct (String.eqb (key_of i) k) eqn:E; simpl.
  - intros _. left. now apply String.eqb_eq.
  - intros Hr. right. now apply IH.
Qed.

Lemma owners_by_short (key_of : Interface -> string) (k : string)
    (l : list Interface) :
  NoDup (map key_of (filter has_address l)) ->
  (List.length (owners_by key_of k l) <= 1)%nat.
Proof.
  induction l as [|i r IH]; simpl; [lia|].
  unfold owners_by, has_address in *. cbn [filter].
  destruct (truthy (ip_address i)); cbn [andb map]; [|exact IH].
  intros Hnd. inversion Hnd as [|? ? Hnot Hr]; subst.
  destruct (String.eqb (key_of i) k) eqn:E; cbn [map List.length]; [|auto].
  apply String.eqb_eq in E. subst k.
  destruct (map device (filter _ r)) eqn:Er; [simpl; lia|].
  exfalso. apply Hnot. apply (owners_by_In key_of (key_of i) r).
  unfold owners_by. rewrite Er. discriminate.
Qed.

Lemma seed_network_short (ds : list string) (devs : dict string NetworkDevice) :
  (List.length ds <= 1)%nat -> seed_network now ds devs = devs.
Proof.
  destruct ds as [|d [|d' r]]; simpl; intros Hlen; try reflexivity; [|lia].
  unfold seed_network, seed_pair. simpl. now rewrite String.eqb_refl.
Qed.

Lemma seed_all_short (groups : list (list string))
    (devs : dict string NetworkDevice) :
  Forall (fun ds => (List.length ds <= 1)%nat) groups ->
  fold_left (fun devs network_devices => seed_network now network_devices devs)
            groups devs = devs.
Proof.
  induction 1 as [|ds r Hds Hr IH]; simpl; [reflexivity|].
  now rewrite seed_network_short.
Qed.

Lemma group_networks_short (interfaces : dict string Interface) :
  NoDup (map network_key (filter has_address (values interfaces))) ->
  Forall (fun ds => (List.length ds <= 1)%nat) (values (group_networks interfaces)).
Proof.
  intros Hnd. unfold group_networks.
  change (fun networks i =>
            if truthy (ip_address i)
            then validator.append_to (network_key i) (device i) networks
            else networks)
    with (group_step network_key).
  set (m := fold_left (group_step network_key) (values interfaces) []).
  assert (Hkeys : NoDup (keys m)) by (apply NoDup_keys_grouped; constructor).
  apply Forall_forall. intros ds Hin.
  unfold values in Hin. apply in_map_iff in Hin.
  destruct Hin as ([k ds'] & <- & Hin). cbn [snd].
  apply (In_get _ _ _ Hkeys) in Hin. subst m.
  rewrite get_grouped in Hin. cbn [get] in Hin.
  pose proof (owners_by_short network_key k (values interfaces) Hnd) as Hs.
  destruct (owners_by network_key k (values interfaces)); [discriminate|].
  injection Hin as <-. exact Hs.
Qed.

(** When no two interfaces with an address carry the same address text and
    mask text, [_setup_neighbor_relationships] changes nothing. *)
Lemma setup_neighbor_relationships_idle (pd : ParsedData) (sim : NetworkSimulator) :
  NoDup (map network_key (filter has_address (values (pd_interfaces pd)))) ->
  _setup_neighbor_relationships now pd sim = sim.
Proof.
  intros Hnd. unfold _setup_neighbor_relationships.
  rewrite seed_all_short by now apply group_networks_short.
  now destruct sim.
Qed.

Lemma new_devices_no_neighbors (configs : dict string Device)
    (devs : dict string NetworkDevice) :
  (forall n d, get n devs = Some d -> neighbors d = []) ->
  forall n d,
    get n (fold_left (fun devs '(device_name, device_config) =>
                        set device_name
                            (new_device device_name (type device_config)
                                        device_config) devs)
                     configs devs) = Some d ->
    neighbors d = [].
Proof.
  revert devs. induction configs as [|[name config] r IH]; intros devs Hdevs; simpl.
  - exact Hdevs.
  - apply IH. intros n d. rewrite get_set.
    destruct (keqb n name); [intros [= <-]; reflexivity|apply Hdevs].
Qed.

(** In such a configuration, however the addresses share networks, every
    actor that [load_topology] creates starts with an empty neighbor table. *)
Lemma load_topology_no_neighbors (pd : ParsedData) :
  NoDup (map network_key (filter has_address (values (pd_interfaces pd)))) ->
  forall n d,
    get n (devices (load_topology now pd simulator.init)) = Some d ->
    neighbors d = [].
Proof.
  intros Hnd n d. unfold load_topology.
  rewrite setup_neighbor_relationships_idle by exact Hnd.
  cbn [devices]. apply new_devices_no_neighbors. intros ? ? [=].
Qed.

End SeedingFacts.

(** * Further properties of the code *)

(** ** utils.py: addresses and networks *)

Section Addresses.

(** [is_valid_ip]: [IPv4Address(ip_str)] raises [AddressValueError] for a
    string that holds a slash or does not parse as four octets. *)
Definition is_valid_ip (ip_str : string) : bool :=
  if occurs "/" ip_str then false
  else match ip_int_from_string ip_str with
       | Some _ => true
       | None => false
       end.

Lemma split_nonempty (sep : ascii) (s : string) : split sep s <> [].
Proof.
  destruct s as [|c r]; simpl; [discriminate|].
  destruct (Ascii.eqb c sep); [discriminate|].
  destruct (split sep r); discriminate.
Qed.

(** [(s + sep + t).split(sep) == s.split(sep) + t.split(sep)] *)
Lemma split_app (sep : ascii) (s t : string) :
  split sep (s ++ String sep t) = (split sep s ++ split sep t)%list.
Proof.
  induction s as [|c r IH]; simpl.
  - now rewrite Ascii.eqb_refl.
  - destruct (Ascii.eqb c sep); [now rewrite IH|].
    rewrite IH. pose proof (split_nonempty sep r) as Hne.
    destruct (split sep r); [contradiction|reflexivity].
Qed.

Lemma split_without (sep : ascii) (s : string) :
  occurs sep s = false -> split sep s = [s].
Proof.
  induction s as [|c r IH]; simpl; [reflexivity|].
  destruct (Ascii.eqb c sep); [discriminate|]. cbn [orb].
  intros Hr. now rewrite (IH Hr).
Qed.

Lemma split_with (sep : ascii) (s : string) :
  occurs sep s = true -> exists a b r, split sep s = a :: b :: r.
Proof.
  induction s as [|c r IH]; simpl; [discriminate|].
  destruct (Ascii.eqb c sep); cbn [orb].
  - intros _. pose proof (split_nonempty sep r) as Hne.
    destruct (split sep r) as [|b r']; [contradiction|]. now exists "", b, r'.
  - intros Hr. destruct (IH Hr) as (a & b & r' & ->).
    now exists (String c a), b, r'.
Qed.

(** What the constructor [IPv4Network(f"{ip}/{mask}", strict=False)] yields,
    in terms of the two texts. *)
Lemma network_address_format (ip mask : string) :
  network_address (ip ++ "/" ++ mask)
  = if (occurs "/" ip || occurs "/" mask)%bool then None
    else match ip_int_from_string ip, make_netmask mask with
         | Some a, Some nm => Some (Z.land a nm)
         | _, _ => None
         end.
Proof.
  unfold network_address.
  change (ip ++ "/" ++ mask) with (ip ++ String "/" mask).
  rewrite split_app.
  destruct (occurs "/" ip) eqn:Ei; cbn [orb].
  - destruct (split_with _ _ Ei) as (a & b & r & ->).
    pose proof (split_nonempty "/" mask) as Hne.
    destruct r; destruct (split "/" mask); try contradiction; reflexivity.
  - rewrite (split_without _ _ Ei).
    destruct (occurs "/" mask) eqn:Em.
    + destruct (split_with _ _ Em) as (a & b & r & ->). reflexivity.
    + rewrite (split_without _ _ Em). reflexivity.
Qed.

(** X1.  For a fixed mask, [is_same_network] is symmetric and transitive in
    the two addresses. *)
Theorem is_same_network_equivalence :
  (forall ip1 ip2 netmask,
      is_same_network ip1 ip2 netmask = is_same_network ip2 ip1 netmask)
  /\ (forall ip1 ip2 ip3 netmask,
         is_same_network ip1 ip2 netmask = true ->
         is_same_network ip2 ip3 netmask = true ->
         is_same_network ip1 ip3 netmask = true).
Proof.
  split.
  - intros ip1 ip2 netmask. unfold is_same_network.
    destruct (network_address (ip1 ++ "/" ++ str_opt netmask)),
      (network_address (ip2 ++ "/" ++ str_opt netmask)); try reflexivity.
    apply Z.eqb_sym.
  - intros ip1 ip2 ip3 netmask. unfold is_same_network.
    destruct (network_address (ip1 ++ "/" ++ str_opt netmask)),
      (network_address (ip2 ++ "/" ++ str_opt netmask)),
      (network_address (ip3 ++ "/" ++ str_opt netmask)); try discriminate.
    rewrite !Z.eqb_eq. congruence.
Qed.

(** X2.  Two addresses are reported in one network only when each of them
    passes [is_valid_ip]. *)
Theorem is_same_network_valid :
  forall ip1 ip2 netmask,
    is_same_network ip1 ip2 netmask = true ->
    is_valid_ip ip1 = true /\ is_valid_ip ip2 = true.
Proof.
  intros ip1 ip2 netmask. unfold is_same_network, is_valid_ip.
  rewrite !network_address_format.
  destruct (occurs "/" ip1); cbn [orb]; [discriminate|].
  destruct (occurs "/" ip2); cbn [orb].
  - destruct (occurs "/" (str_opt netmask)); [discriminate|].
    destruct (ip_int_from_string ip1), (make_netmask (str_opt netmask));
      discriminate.
  - destruct (occurs "/" (str_opt netmask)); [discriminate|].
    destruct (ip_int_from_string ip1), (ip_int_from_string ip2),
      (make_netmask (str_opt netmask)); try discriminate. auto.
Qed.

Lemma is_same_network_valid_witness :
  is_valid_ip "10.0.0.1" = true /\ is_valid_ip "10.0.0.200" = true.
Proof.
  apply (is_same_network_valid "10.0.0.1" "10.0.0.200" (Some "255.255.255.0")).
  reflexivity.
Defined.

(** X3.  Without a usable mask no two addresses are in one network, and no
    exception escapes: a missing mask ([None]), an empty mask and a mask
    with a slash all give [False]; so an interface without a mask never
    starts a connection in [_add_connections]. *)
Theorem is_same_network_without_mask :
  (forall ip1 ip2, is_same_network ip1 ip2 None = false)
  /\ (forall ip1 ip2, is_same_network ip1 ip2 (Some "") = false)
  /\ (forall ip1 ip2 mask,
         occurs "/" mask = true -> is_same_network ip1 ip2 (Some mask) = false)
  /\ (forall int1 int2,
         subnet_mask int1 = None -> topology_builder.connects int1 int2 = false).
Proof.
  assert (Hbad : forall ip1 ip2 netmask,
             (occurs "/" (str_opt netmask) = true
              \/ make_netmask (str_opt netmask) = None) ->
             is_same_network ip1 ip2 netmask = false).
  { intros ip1 ip2 netmask Hm. unfold is_same_network.
    rewrite !network_address_format.
    destruct Hm as [Hm|Hm]; rewrite Hm.
    - now rewrite orb_true_r.
    - destruct (occurs "/" ip1 || occurs "/" (str_opt netmask))%bool;
        [reflexivity|]. now destruct (ip_int_from_string ip1). }
  split; [|split; [|split]].
  - intros. apply Hbad. now right.
  - intros. apply Hbad. now right.
  - intros ip1 ip2 mask Hm. apply Hbad. now left.
  - intros int1 int2 Hm. unfold topology_builder.connects.
    rewrite Hm, (Hbad _ _ None) by now right.
    now rewrite andb_false_r.
Qed.

End Addresses.

(** ** topology_builder.py: the nodes and the edge records of a built graph *)

Section BuiltGraph.

Import nx topology_builder.

(** Every edge record stored in the graph satisfies [P]. *)
Definition edge_data_all (P : EdgeData -> Prop) (g : Graph) : Prop :=
  forall n nd m d, In (n, nd) g -> In (m, d) (adj nd) -> P d.

Lemma In_set_inv {K V} `{Key K} (k a : K) (v b : V) (d : dict K V) :
  In (a, b) (set k v d) -> b = v \/ In (a, b) d.
Proof.
  induction d as [|[k' v'] r IH]; simpl.
  - intros [[= <- <-]|[]]. now left.
  - destruct (keqb k k'); simpl.
    + intros [[= <- <-]|Hin]; auto.
    + intros [Heq|Hin]; auto. destruct (IH Hin); auto.
Qed.

Lemma contains_cons {V} (x n : string) (a : V) (r : dict string V) :
  contains x ((n, a) :: r) = (String.eqb x n || contains x r)%bool.
Proof. unfold contains. simpl. now destruct (String.eqb x n). Qed.

Lemma contains_add_node (n x : string) (a : Device) (g : Graph) :
  contains x (add_node n a g) = (contains x g || String.eqb x n)%bool.
Proof.
  unfold add_node, contains.
  destruct (get n g) as [nd|] eqn:En; rewrite get_set; cbn [keqb Key_string];
    destruct (String.eqb x n) eqn:E; now destruct (get x g).
Qed.

Lemma contains_add_edge (u v x : string) (d : EdgeData) (g : Graph) :
  contains x (add_edge u v d g)
  = (contains x g || String.eqb x u || String.eqb x v)%bool.
Proof.
  unfold add_edge. now rewrite !contains_set_adj, !contains_ensure_node.
Qed.

Lemma contains_add_nodes (devices : dict string Device) (g : Graph) (x : string) :
  contains x (fold_left (fun g '(device_name, device_info) =>
                           add_node device_name device_info g) devices g)
  = (contains x g || contains x devices)%bool.
Proof.
  revert g. induction devices as [|[n a] r IH]; intros g; simpl.
  - unfold contains at 3. simpl. now rewrite orb_false_r.
  - rewrite IH, contains_add_node, contains_cons. now rewrite orb_assoc.
Qed.

Lemma edge_data_all_ensure_node (P : EdgeData -> Prop) (n : string) (g : Graph) :
  edge_data_all P g -> edge_data_all P (ensure_node n g).
Proof.
  unfold ensure_node, edge_data_all. intros Hg.
  destruct (get n g); [exact Hg|].
  intros x nd m d Hin Hd. apply In_set_inv in Hin.
  destruct Hin as [->|Hin]; [contradiction|]. eapply Hg; eassumption.
Qed.

Lemma edge_data_all_set_adj (P : EdgeData -> Prop) (u v : string)
    (d : EdgeData) (g : Graph) :
  P d -> edge_data_all P g -> edge_data_all P (set_adj u v d g).
Proof.
  unfold set_adj, edge_data_all. intros Hd Hg.
  destruct (get u g) as [ud|] eqn:Eu; [|exact Hg].
  intros x nd m e Hin He. apply In_set_inv in Hin.
  destruct Hin as [->|Hin]; [|eapply Hg; eassumption].
  cbn [adj] in He. apply In_set_inv in He.
  destruct He as [->|He]; [assumption|].
  apply get_In in Eu. eapply Hg; eassumption.
Qed.

Lemma edge_data_all_add_edge (P : EdgeData -> Prop) (u v : string)
    (d : EdgeData) (g : Graph) :
  P d -> edge_data_all P g -> edge_data_all P (add_edge u v d g).
Proof.
  intros Hd Hg. unfold add_edge.
  now repeat (apply edge_data_all_set_adj || apply edge_data_all_ensure_node).
Qed.

Lemma edge_data_all_add_nodes (P : EdgeData -> Prop)
    (devices : dict string Device) (g : Graph) :
  edge_data_all P g ->
  edge_data_all P (fold_left (fun g '(device_name, device_info) =>
                                add_node device_name device_info g) devices g).
Proof.
  revert g. induction devices as [|[n a] r IH]; intros g Hg; simpl; [exact Hg|].
  apply IH. unfold add_node, edge_data_all in *.
  destruct (get n g) as [nd0|] eqn:En; intros x nd m d Hin Hd;
    apply In_set_inv in Hin; destruct Hin as [->|Hin];
    try (eapply Hg; eassumption).
  - cbn [adj] in Hd. apply get_In in En. eapply Hg; eassumption.
  - contradiction.
Qed.

Lemma edge_data_all_connect_all (P : EdgeData -> Prop) (l : list Interface)
    (g : Graph) :
  (forall int1 int2, In int1 l -> In int2 l -> P (link_data int1 int2)) ->
  edge_data_all P g -> edge_data_all P (connect_all l g).
Proof.
  revert g. induction l as [|int1 rest IH]; intros g Hl Hg; simpl; [exact Hg|].
  apply IH; [intros; apply Hl; now right|].
  assert (Hrow : forall r g0,
             incl r rest -> edge_data_all P g0 ->
             edge_data_all P (fold_left (fun g int2 => connect_pair int1 int2 g)
                                        r g0)).
  { induction r as [|int2 r IHr]; intros g0 Hincl Hg0; simpl; [exact Hg0|].
    apply IHr; [intros x Hx; apply Hincl; now right|].
    unfold connect_pair. destruct (connects int1 int2); [|exact Hg0].
    apply edge_data_all_add_edge; [|exact Hg0].
    apply Hl; [now left|right; apply Hincl; now left]. }
  apply Hrow; [apply incl_refl|exact Hg].
Qed.

(** Every edge record of a built graph is the [link_data] of two interfaces
    of the list. *)
Lemma edge_data_all_build_topology (P : EdgeData -> Prop) (pd : ParsedData) :
  (forall int1 int2,
      In int1 (values (pd_interfaces pd)) -> In int2 (values (pd_interfaces pd)) ->
      P (link_data int1 int2)) ->
  edge_data_all P (graph (build_topology pd topology_builder.init)).
Proof.
  intros Hl. unfold build_topology, _determine_hierarchy, _add_connections.
  cbn [graph]. apply edge_data_all_connect_all; [exact Hl|].
  apply edge_data_all_add_nodes. intros n nd m d [].
Qed.

Lemma edges_from_data (P : EdgeData -> Prop) (g : Graph) (seen : list string) :
  edge_data_all P g ->
  forall n1 n2 d, In (n1, n2, d) (edges_from seen g) -> P d.
Proof.
  revert seen. induction g as [|[n nd] r IH]; intros seen Hg n1 n2 d; simpl.
  - intros [].
  - rewrite in_app_iff. intros [Hin|Hin].
    + apply in_map_iff in Hin. destruct Hin as ([m e] & [= <- <- <-] & Hin).
      apply filter_In in Hin. destruct Hin as [Hin _].
      apply (Hg n nd m e); [now left|exact Hin].
    + apply (IH (n :: seen)) with (n1 := n1) (n2 := n2); [|exact Hin].
      intros x xd m e Hx He. apply (Hg x xd m e); [now right|exact He].
Qed.

(** The nodes of a graph that are no parsed devices have an edge, and the
    ends of every edge are nodes. *)
Definition nodes_accounted (devices : dict string Device) (g : Graph) : Prop :=
  (forall x, contains x g = true ->
             contains x devices = true \/ exists m, has_edge g x m = true)
  /\ (forall x m, has_edge g x m = true ->
                  contains x g = true /\ contains m g = true).

Lemma nodes_accounted_connect_pair (devices : dict string Device)
    (int1 int2 : Interface) (g : Graph) :
  nodes_accounted devices g -> nodes_accounted devices (connect_pair int1 int2 g).
Proof.
  unfold connect_pair. destruct (connects int1 int2); [|auto].
  intros [Hn He]. unfold nodes_accounted, has_edge.
  split.
  - intros x. rewrite contains_add_edge, !orb_true_iff, !String.eqb_eq.
    intros [[Hx| ->]| ->].
    + destruct (Hn x Hx) as [Hd|[m Hm]]; [now left|].
      right. exists m. rewrite get_edge_add_edge. unfold has_edge in Hm.
      now destruct (_ || _)%bool.
    + right. exists (device int2). rewrite get_edge_add_edge.
      now rewrite !String.eqb_refl.
    + right. exists (device int1). rewrite get_edge_add_edge.
      rewrite !String.eqb_refl. cbn [andb]. now rewrite orb_true_r.
  - intros x m. rewrite get_edge_add_edge, !contains_add_edge.
    destruct ((String.eqb x (device int1) && String.eqb m (device int2))
              || (String.eqb x (device int2) && String.eqb m (device int1)))%bool
      eqn:E.
    + intros _. rewrite orb_true_iff, !andb_true_iff in E.
      destruct E as [[-> ->]|[-> ->]]; rewrite !orb_true_r; auto.
    + intros Hx. destruct (He x m Hx) as [-> ->]. auto.
Qed.

Lemma nodes_accounted_connect_all (devices : dict string Device)
    (l : list Interface) (g : Graph) :
  nodes_accounted devices g -> nodes_accounted devices (connect_all l g).
Proof.
  revert g. induction l as [|int1 rest IH]; intros g Hg; simpl; [exact Hg|].
  apply IH. clear IH. revert g Hg.
  induction rest as [|int2 r IHr]; intros g Hg; simpl; [exact Hg|].
  apply IHr. now apply nodes_accounted_connect_pair.
Qed.

Lemma contains_connect_all (l : list Interface) (g : Graph) (x : string) :
  contains x g = true -> contains x (connect_all l g) = true.
Proof.
  revert g. induction l as [|int1 rest IH]; intros g Hg; simpl; [exact Hg|].
  apply IH. clear IH. revert g Hg.
  induction rest as [|int2 r IHr]; intros g Hg; simpl; [exact Hg|].
  apply IHr. unfold connect_pair. destruct (connects int1 int2); [|exact Hg].
  now rewrite contains_add_edge, Hg.
Qed.

(** X4.  In the graph of [build_topology] every parsed device is a node,
    also one without any edge; a node that is no parsed device (it was
    named by an interface only) has at least one edge; the two ends of an
    edge are nodes. *)
Theorem build_topology_nodes :
  forall (pd : ParsedData) (n : string),
    let g := graph (build_topology pd topology_builder.init) in
    (contains n (pd_devices pd) = true -> contains n g = true)
    /\ (contains n g = true ->
        contains n (pd_devices pd) = true \/ exists m, has_edge g n m = true)
    /\ (forall m, has_edge g n m = true ->
                  contains n g = true /\ contains m g = true).
Proof.
  intros pd n g.
  assert (Hacc : nodes_accounted (pd_devices pd) g).
  { subst g. unfold build_topology, _determine_hierarchy, _add_connections.
    cbn [graph]. apply nodes_accounted_connect_all. split.
    - intros x. rewrite contains_add_nodes. cbn. auto.
    - intros x m. unfold has_edge. rewrite get_edge_add_nodes. discriminate. }
  split; [|split].
  - intros Hd. subst g.
    unfold build_topology, _determine_hierarchy, _add_connections. cbn [graph].
    apply contains_connect_all. rewrite contains_add_nodes, Hd.
    apply orb_true_r.
  - apply Hacc.
  - intros m. apply Hacc.
Qed.

End BuiltGraph.

Section HierarchyReuse.

Import nx topology_builder.

Lemma length_sorted_devices (g : Graph) :
  List.length (sorted_desc (degree_centrality g)) = List.length (nodes g).
Proof.
  rewrite <- length_ranked. unfold ranked. now rewrite length_map.
Qed.

(** X5.  [build_topology] never resets the hierarchy: on a builder that
    already holds tiers, the tiers of the new ranking are appended behind the
    old entries, so building twice with one builder lists every node of the
    first run again. *)
Theorem build_topology_appends_hierarchy :
  forall (pd : ParsedData) (tb : TopologyBuilder),
    let tb' := build_topology pd tb in
    let total := List.length (nodes (graph tb')) in
    core (hierarchy tb')
    = (core (hierarchy tb)
       ++ firstn (core_count total) (ranked (graph tb')))%list
    /\ distribution (hierarchy tb')
       = (distribution (hierarchy tb)
          ++ firstn (distribution_end total - core_count total)
                    (skipn (core_count total) (ranked (graph tb'))))%list
    /\ access (hierarchy tb')
       = (access (hierarchy tb)
          ++ skipn (distribution_end total) (ranked (graph tb')))%list.
Proof.
  intros pd tb tb' total. subst tb' total.
  unfold build_topology, _determine_hierarchy. cbn [hierarchy graph].
  set (tb1 := _add_connections _ _).
  rewrite length_sorted_devices.
  rewrite assign_tiers_core, assign_tiers_distribution, assign_tiers_access.
  rewrite !Nat.sub_0_r, Nat.max_0_l. unfold ranked.
  repeat split.
Qed.

End HierarchyReuse.

(** ** validator.py: findings are only ever appended *)

Section Findings.

Import nx topology_builder validator.
Variable simple_cycles : Graph -> list (list string).

(** The findings of [v] followed by those of [w]. *)
Definition merge (v w : ConfigValidator) : ConfigValidator :=
  {| issues := issues v ++ issues w; warnings := warnings v ++ warnings w |}.

(** A check that appends the same findings whatever the validator holds. *)
Definition appends (c : ConfigValidator -> ConfigValidator) : Prop :=
  forall v, c v = merge v (c validator.init).

Lemma merge_init_r (v : ConfigValidator) : merge v validator.init = v.
Proof. destruct v. unfold merge. simpl. now rewrite !app_nil_r. Qed.

Lemma merge_init_l (v : ConfigValidator) : merge validator.init v = v.
Proof. now destruct v. Qed.

Lemma merge_assoc (u v w : ConfigValidator) :
  merge (merge u v) w = merge u (merge v w).
Proof. unfold merge. simpl. now rewrite !app_assoc. Qed.

Lemma appends_keep : appends (fun v => v).
Proof. intros v. now rewrite merge_init_r. Qed.

Lemma appends_add_issue (f : Finding) : appends (add_issue f).
Proof. intros v. unfold merge, add_issue. simpl. now rewrite app_nil_r. Qed.

Lemma appends_add_warning (f : Finding) : appends (add_warning f).
Proof. intros v. unfold merge, add_warning. simpl. now rewrite app_nil_r. Qed.

Lemma appends_if (b : bool) (c1 c2 : ConfigValidator -> ConfigValidator) :
  appends c1 -> appends c2 -> appends (fun v => if b then c1 v else c2 v).
Proof. intros H1 H2. now destruct b. Qed.

Lemma appends_then (c1 c2 : ConfigValidator -> ConfigValidator) :
  appends c1 -> appends c2 -> appends (fun v => c2 (c1 v)).
Proof.
  intros H1 H2 v. rewrite (H2 (c1 v)), (H1 v), (H2 (c1 validator.init)).
  apply merge_assoc.
Qed.

Lemma appends_fold {A} (f : ConfigValidator -> A -> ConfigValidator)
    (l : list A) :
  (forall x, appends (fun v => f v x)) -> appends (fun v => fold_left f l v).
Proof.
  intros Hf. induction l as [|x r IH]; simpl.
  - apply appends_keep.
  - apply (appends_then (fun v => f v x) (fun v => fold_left f r v));
      [apply Hf|exact IH].
Qed.

Lemma appends_all (cs : list (ConfigValidator -> ConfigValidator)) :
  Forall appends cs -> appends (fun v => fold_left (fun v c => c v) cs v).
Proof.
  induction 1 as [|c r Hc Hr IH]; simpl.
  - apply appends_keep.
  - apply (appends_then c (fun v => fold_left (fun v c => c v) r v));
      assumption.
Qed.

Lemma appends_check_duplicate_ips (interfaces : dict string Interface) :
  appends (_check_duplicate_ips interfaces).
Proof.
  unfold _check_duplicate_ips. apply appends_fold. intros [k ds].
  apply appends_if; [apply appends_add_issue|apply appends_keep].
Qed.

Lemma appends_check_mtu_mismatches (g : Graph) : appends (_check_mtu_mismatches g).
Proof.
  unfold _check_mtu_mismatches. apply appends_fold. intros [[n1 n2] d].
  apply appends_if; [apply appends_add_warning|apply appends_keep].
Qed.

Lemma appends_check_missing_components (devices : dict string Device) :
  appends (_check_missing_components devices).
Proof.
  unfold _check_missing_components.
  apply (appends_then
           (fun v => if negb (mem "router" (map type (values devices)))
                     then add_warning _ v else v)
           (fun v1 => if negb (mem "switch" (map type (values devices)))
                      then add_warning _ v1 else v1));
    apply appends_if;
    try apply appends_add_warning; apply appends_keep.
Qed.

Lemma appends_check_vlan_consistency (devices : dict string Device) :
  appends (_check_vlan_consistency devices).
Proof.
  unfold _check_vlan_consistency. apply appends_fold. intros [k names].
  apply appends_if; [apply appends_add_issue|apply appends_keep].
Qed.

Lemma appends_check_gateway_configuration (devices : dict string Device) :
  appends (_check_gateway_configuration devices).
Proof.
  unfold _check_gateway_configuration. apply appends_fold. intros [n d].
  apply appends_if; [|apply appends_keep].
  apply appends_if; [apply appends_add_warning|apply appends_keep].
Qed.

Lemma appends_check_network_loops (g : Graph) :
  appends (_check_network_loops simple_cycles g).
Proof.
  unfold _check_network_loops. apply appends_fold. intros cycle.
  apply appends_add_warning.
Qed.

Lemma appends_suggest_protocol_optimization (devices : dict string Device) :
  appends (_suggest_protocol_optimization devices).
Proof.
  unfold _suggest_protocol_optimization.
  set (b1 := ((10 <? _)%nat && _)%bool). set (b2 := ((_ <=? 5)%nat && _)%bool).
  apply (appends_then (fun v => if b1 then add_warning _ v else v)
                      (fun v1 => if b2 then add_warning _ v1 else v1));
    apply appends_if;
    try apply appends_add_warning; apply appends_keep.
Qed.

(** The same for the one check that may raise: whether it raises does not
    depend on the validator either. *)
Lemma aggregate_nodes_appends (g : Graph) (devices : dict string Device)
    (l : list string) (v : ConfigValidator) :
  aggregate_nodes g devices l v
  = match aggregate_nodes g devices l validator.init with
    | Returned w => Returned (merge v w)
    | Raised e => Raised e
    end.
Proof.
  revert v. induction l as [|node r IH]; intros v; simpl.
  - now rewrite merge_init_r.
  - assert (Hnode : aggregate_node g devices node v
                    = match aggregate_node g devices node validator.init with
                      | Returned w => Returned (merge v w)
                      | Raised e => Raised e
                      end).
    { unfold aggregate_node.
      destruct (nx.neighbors g node) as [ns|e]; cbn [bind]; [|reflexivity].
      destruct ns as [|nb [|nb' ns]]; try (now rewrite merge_init_r).
      destruct (type_of devices node) as [t1|e]; cbn [bind]; [|reflexivity].
      destruct (type_of devices nb) as [t2|e]; cbn [bind]; [|reflexivity].
      destruct (String.eqb t1 t2 && String.eqb t2 "switch")%bool;
        [|now rewrite merge_init_r].
      f_equal. apply appends_add_warning. }
    rewrite Hnode.
    destruct (aggregate_node g devices node validator.init) as [w|e];
      cbn [bind]; [|reflexivity].
    rewrite (IH (merge v w)), (IH w).
    destruct (aggregate_nodes g devices r validator.init) as [w'|e];
      [|reflexivity].
    now rewrite merge_assoc.
Qed.

(** The seven checks that cannot raise, in the order of the calls. *)
Definition pure_checks (pd : ParsedData) (tb : TopologyBuilder)
    (v : ConfigValidator) : ConfigValidator :=
  fold_left (fun v c => c v)
            [ _check_duplicate_ips (pd_interfaces pd);
              _check_mtu_mismatches (graph tb);
              _check_missing_components (pd_devices pd);
              _check_vlan_consistency (pd_devices pd);
              _check_gateway_configuration (pd_devices pd);
              _check_network_loops simple_cycles (graph tb);
              _suggest_protocol_optimization (pd_devices pd) ]
            v.

Lemma validate_configuration_steps (pd : ParsedData) (tb : TopologyBuilder)
    (v : ConfigValidator) :
  validate_configuration simple_cycles pd tb v
  = (w <- aggregate_nodes (graph tb) (pd_devices pd) (nodes (graph tb))
                          (pure_checks pd tb v) ;;
     Returned (result_of w, w)).
Proof. reflexivity. Qed.

Lemma appends_pure_checks (pd : ParsedData) (tb : TopologyBuilder) :
  appends (pure_checks pd tb).
Proof.
  unfold pure_checks. apply appends_all. repeat constructor.
  - apply appends_check_duplicate_ips.
  - apply appends_check_mtu_mismatches.
  - apply appends_check_missing_components.
  - apply appends_check_vlan_consistency.
  - apply appends_check_gateway_configuration.
  - apply appends_check_network_loops.
  - apply appends_suggest_protocol_optimization.
Qed.

(** X6.  [validate_configuration] only appends: called on a validator that
    already holds findings, it returns those findings followed by exactly
    what a fresh validator returns, and it raises exactly when a fresh one
    does.  A second call on the same validator therefore reports every
    finding twice. *)
Theorem validate_configuration_accumulates :
  forall (pd : ParsedData) (tb : TopologyBuilder) (v : ConfigValidator),
    validate_configuration simple_cycles pd tb v
    = match validate_configuration simple_cycles pd tb validator.init with
      | Returned (_, fresh) => Returned (result_of (merge v fresh), merge v fresh)
      | Raised e => Raised e
      end.
Proof.
  intros pd tb v. rewrite !validate_configuration_steps.
  rewrite (aggregate_nodes_appends _ _ _ (pure_checks pd tb v)).
  rewrite (aggregate_nodes_appends _ _ _ (pure_checks pd tb validator.init)).
  destruct (aggregate_nodes (graph tb) (pd_devices pd) (nodes (graph tb))
                            validator.init) as [w|e]; cbn [bind]; [|reflexivity].
  now rewrite (appends_pure_checks pd tb v), merge_assoc.
Qed.

Lemma fold_add_warning {A} (mk : A -> Finding) (l : list A)
    (v : ConfigValidator) :
  fold_left (fun v x => add_warning (mk x) v) l v
  = {| issues := issues v; warnings := warnings v ++ map mk l |}.
Proof.
  revert v. induction l as [|x r IH]; intros v; cbn [fold_left map].
  - destruct v. cbn. now rewrite app_nil_r.
  - rewrite IH. cbn [add_warning issues warnings]. now rewrite <- app_assoc.
Qed.

(** X7.  [_check_network_loops] reports at most five cycles however many
    the enumeration finds, as warnings of type [network_loop]; it adds no
    issue. *)
Theorem check_network_loops_bounded :
  forall (g : Graph) (v : ConfigValidator),
    issues (_check_network_loops simple_cycles g v) = issues v
    /\ exists new,
        warnings (_check_network_loops simple_cycles g v)
        = (warnings v ++ new)%list
        /\ List.length new = Nat.min 5 (List.length (simple_cycles g))
        /\ Forall (fun f => f_type f = "network_loop"
                            /\ severity f = "medium") new.
Proof.
  intros g v. unfold _check_network_loops.
  rewrite (fold_add_warning
             (fun cycle =>
                {| f_type := "network_loop"; severity := "medium";
                   description := "Potential network loop detected: "
                                  ++ String.concat " -> " cycle;
                   affected_devices := None;
                   recommendation :=
                     "Implement STP or remove redundant connections" |})).
  cbn [issues warnings]. split; [reflexivity|].
  eexists. split; [reflexivity|]. split.
  - rewrite length_map. change (slice_to 5 (simple_cycles g))
      with (firstn 5 (simple_cycles g)). apply length_firstn.
  - apply Forall_forall. intros f Hf. apply in_map_iff in Hf.
    destruct Hf as (c & <- & _). split; reflexivity.
Qed.

(** X8.  [_suggest_protocol_optimization] adds at most one warning (its two
    suggestions exclude each other) and no issue; for six to ten devices it
    adds nothing. *)
Theorem suggest_protocol_optimization_exclusive :
  forall (devices : dict string Device) (v : ConfigValidator),
    issues (_suggest_protocol_optimization devices v) = issues v
    /\ (warnings (_suggest_protocol_optimization devices v) = warnings v
        \/ exists f,
            warnings (_suggest_protocol_optimization devices v)
            = (warnings v ++ [f])%list
            /\ f_type f = "protocol_optimization" /\ severity f = "low")
    /\ ((5 < List.length devices <= 10)%nat ->
        _suggest_protocol_optimization devices v = v).
Proof.
  intros devices v. unfold _suggest_protocol_optimization.
  destruct (Nat.ltb_spec 10 (List.length devices)) as [H10|H10];
    destruct (Nat.leb_spec (List.length devices) 5) as [H5|H5];
    try lia; cbn [andb];
    destruct (List.length (filter (runs "bgp") (values devices)) =? 0)%nat;
    destruct (0 <? List.length (filter (runs "bgp") (values devices)))%nat;
    cbn [andb add_warning issues warnings];
    (split; [reflexivity|]); (split; [|intros; (lia || reflexivity)]);
    try (left; reflexivity); right; eexists; repeat split.
Qed.

End Findings.

(** ** validator.py on a built topology *)

Section ValidatedTopology.

Import nx topology_builder validator.
Variable simple_cycles : Graph -> list (list string).

Lemma contains_In {V} (k : string) (v : V) (d : dict string V) :
  In (k, v) d -> contains k d = true.
Proof.
  unfold contains. intros Hin.
  destruct (get k d) eqn:E; [reflexivity|].
  apply get_None_keys in E. exfalso. apply E.
  change k with (fst (k, v)). now apply in_map.
Qed.

Lemma contains_get {V} (k : string) (d : dict string V) :
  contains k d = true -> exists v, get k d = Some v.
Proof. unfold contains. destruct (get k d) as [v|]; [now exists v|discriminate]. Qed.

(** Every node of the graph is a parsed device. *)
Definition nodes_within (devices : dict string Device) (g : Graph) : Prop :=
  forall x, contains x g = true -> contains x devices = true.

Lemma nodes_within_connect_all (devices : dict string Device)
    (l : list Interface) (g : Graph) :
  (forall i, In i l -> contains (device i) devices = true) ->
  nodes_within devices g -> nodes_within devices (connect_all l g).
Proof.
  revert g. induction l as [|int1 rest IH]; intros g Hl Hg; simpl; [exact Hg|].
  apply IH; [intros; apply Hl; now right|].
  assert (Hrow : forall r g0,
             incl r rest -> nodes_within devices g0 ->
             nodes_within devices
               (fold_left (fun g int2 => connect_pair int1 int2 g) r g0)).
  { induction r as [|int2 r IHr]; intros g0 Hincl Hg0; simpl; [exact Hg0|].
    apply IHr; [intros x Hx; apply Hincl; now right|].
    unfold connect_pair. destruct (connects int1 int2); [|exact Hg0].
    intros x. rewrite contains_add_edge, !orb_true_iff, !String.eqb_eq.
    intros [[Hx| ->]| ->].
    - now apply Hg0.
    - apply Hl. now left.
    - apply Hl. right. apply Hincl. now left. }
  apply Hrow; [apply incl_refl|exact Hg].
Qed.

Lemma nodes_within_build_topology (pd : ParsedData) :
  (forall i, In i (values (pd_interfaces pd)) ->
             contains (device i) (pd_devices pd) = true) ->
  nodes_within (pd_devices pd) (graph (build_topology pd topology_builder.init)).
Proof.
  intros Hl. unfold build_topology, _determine_hierarchy, _add_connections.
  cbn [graph]. apply nodes_within_connect_all; [exact Hl|].
  intros x. rewrite contains_add_nodes. cbn. auto.
Qed.

Lemma aggregate_nodes_returns (g : Graph) (devices : dict string Device)
    (l : list string) (v : ConfigValidator) :
  (forall n, In n l -> contains n g = true) ->
  nodes_within devices g ->
  (forall x m, has_edge g x m = true -> contains m g = true) ->
  exists v', aggregate_nodes g devices l v = Returned v'.
Proof.
  intros Hl Hin Hedge. revert v.
  induction l as [|node r IH]; intros v; simpl; [now exists v|].
  assert (Hnode : exists v1, aggregate_node g devices node v = Returned v1).
  { unfold aggregate_node, nx.neighbors.
    destruct (contains_get _ _ (Hl node (or_introl eq_refl))) as [nd End].
    rewrite End. cbn [bind].
    destruct (keys (adj nd)) as [|nb [|nb' ns]] eqn:Ek;
      try (now exists v).
    unfold type_of.
    destruct (contains_get _ _ (Hin node (Hl node (or_introl eq_refl))))
      as [dn ->].
    cbn [bind].
    assert (Hnb : contains nb g = true).
    { apply (Hedge node nb). unfold has_edge, get_edge. rewrite End.
      destruct (get nb (adj nd)) eqn:Eg; [reflexivity|].
      apply get_None_keys in Eg. exfalso. apply Eg. rewrite Ek. now left. }
    destruct (contains_get _ _ (Hin nb Hnb)) as [db ->]. cbn [bind].
    destruct (String.eqb (type dn) (type db) && String.eqb (type db) "switch")%bool;
      eexists; reflexivity. }
  destruct Hnode as [v1 ->]. cbn [bind].
  apply IH. intros n Hn. apply Hl. now right.
Qed.

(** X9.  When every interface belongs to a parsed device, validating the
    topology built from the same data never raises: a result is returned. *)
Theorem validate_configuration_returns_result :
  forall (pd : ParsedData) (v : ConfigValidator),
    (forall i, In i (values (pd_interfaces pd)) ->
               contains (device i) (pd_devices pd) = true) ->
    exists r v',
      validate_configuration simple_cycles pd
        (build_topology pd topology_builder.init) v
      = Returned (r, v').
Proof.
  intros pd v Hl. rewrite validate_configuration_steps.
  set (tb := build_topology pd topology_builder.init).
  destruct (aggregate_nodes_returns (graph tb) (pd_devices pd)
              (nodes (graph tb)) (pure_checks simple_cycles pd tb v))
    as [w Hw].
  - intros n Hn. unfold contains.
    destruct (get n (graph tb)) eqn:E; [reflexivity|].
    apply get_None_keys in E. contradiction.
  - now apply nodes_within_build_topology.
  - intros x m Hx. now apply (build_topology_nodes pd x).
  - rewrite Hw. cbn [bind]. eauto.
Qed.

End ValidatedTopology.

(** On [lan] both interfaces belong to parsed devices. *)
Lemma validate_configuration_returns_result_witness :
  exists r v',
    validator.validate_configuration examples.lan_cycles examples.lan
      (topology_builder.build_topology examples.lan topology_builder.init)
      validator.init
    = Returned (r, v').
Proof.
  apply (validate_configuration_returns_result examples.lan_cycles examples.lan
           validator.init).
  intros i [<-|[<-|[]]]; reflexivity.
Defined.

Section MtuOnBuiltTopology.

Import nx topology_builder validator.

Lemma check_mtu_quiet (l : list (string * string * EdgeData))
    (v : ConfigValidator) :
  (forall n1 n2 d, In (n1, n2, d) l -> e_mtu1 d = e_mtu2 d) ->
  fold_left (fun v '(n1, n2, d) =>
               let mtu1 := e_mtu1 d in
               let mtu2 := e_mtu2 d in
               if negb (mtu1 =? mtu2) then
                 add_warning
                   {| f_type := "mtu_mismatch";
                      severity := "medium";
                      description := "MTU mismatch between " ++ n1 ++ " ("
                                     ++ str_int mtu1 ++ ") and " ++ n2 ++ " ("
                                     ++ str_int mtu2 ++ ")";
                      affected_devices := Some [n1; n2];
                      recommendation := "Set consistent MTU value (recommend "
                                        ++ str_int (Z.max mtu1 mtu2) ++ ")" |} v
               else v) l v = v.
Proof.
  induction l as [|[[n1 n2] d] r IH]; intros Hl; cbn [fold_left]; [reflexivity|].
  cbv zeta. rewrite (Hl n1 n2 d (or_introl eq_refl)), Z.eqb_refl. cbn [negb].
  apply IH. intros a b e Hin. apply (Hl a b e). now right.
Qed.

(** X10.  When all interfaces carry one MTU, the MTU check finds nothing on
    the topology built from them: every edge stores the MTUs of two
    interfaces of the list. *)
Theorem check_mtu_mismatches_uniform :
  forall (pd : ParsedData) (v : ConfigValidator) (m : Z),
    (forall i, In i (values (pd_interfaces pd)) -> mtu i = m) ->
    _check_mtu_mismatches
      (graph (build_topology pd topology_builder.init)) v = v.
Proof.
  intros pd v m Hm. unfold _check_mtu_mismatches. apply check_mtu_quiet.
  intros n1 n2 d Hin.
  apply (edges_from_data (fun d => e_mtu1 d = e_mtu2 d)
           (graph (build_topology pd topology_builder.init)) [])
    with (n1 := n1) (n2 := n2); [|exact Hin].
  apply edge_data_all_build_topology.
  intros int1 int2 H1 H2. cbn [link_data e_mtu1 e_mtu2].
  now rewrite (Hm int1 H1), (Hm int2 H2).
Qed.

End MtuOnBuiltTopology.

(** On [lan] both interfaces have MTU 1500. *)
Lemma check_mtu_mismatches_uniform_witness :
  validator._check_mtu_mismatches
    (topology_builder.graph
       (topology_builder.build_topology examples.lan topology_builder.init))
    validator.init
  = validator.init.
Proof.
  apply (check_mtu_mismatches_uniform examples.lan validator.init 1500).
  intros i [<-|[<-|[]]]; reflexivity.
Defined.

(** ** load_balancer.py: thresholds, recommendations, accumulation *)

Section LoadAnalysis.

Import nx topology_builder load_balancer.
Variable shortest_simple_paths :
  Graph -> string -> string -> outcome (list (list string)).

Lemma estimate_link_demand_range (node1 node2 : string) (tc : TrafficConfig) :
  10000 <= _estimate_link_demand node1 node2 tc <= 60000.
Proof.
  rewrite estimate_link_demand_formula.
  destruct (has_substring "R" node1 || has_substring "R" node2)%bool;
    destruct (has_substring "core" (lower node1)
              || has_substring "core" (lower node2))%bool; lia.
Qed.

(** The float test [demand / bandwidth > 0.8] on integers. *)
Lemma exceeds_threshold_ratio (demand bandwidth : Z) :
  0 < bandwidth ->
  exceeds_threshold (inject_Z demand / inject_Z bandwidth)
  = (8 * bandwidth <? 10 * demand).
Proof.
  intros Hb. destruct bandwidth as [|p|p]; try lia.
  unfold exceeds_threshold, Qle_bool, Qdiv, Qmult, Qinv, inject_Z.
  cbn [Qnum Qden].
  destruct (Z.leb_spec (demand * 1 * 10) (8 * Z.pos (1 * p)));
    destruct (Z.ltb_spec (8 * Z.pos p) (10 * demand)); cbn [negb];
    try reflexivity; lia.
Qed.

(** X11.  Bounds of the overload test that hold for every pair of names: an
    edge of bandwidth 75000 or more, or of bandwidth zero or less, is never
    overloaded (its status is [normal] and nothing is recorded), and an
    edge whose bandwidth is positive and below 12500 always is. *)
Theorem analyze_edge_thresholds :
  forall (tc : TrafficConfig) (la : dict string LinkInfo) (ov : list Overloaded)
         (n1 n2 : string) (d : EdgeData),
    let r := analyze_edge tc (la, ov) (n1, n2, d) in
    (e_bandwidth d <= 0 \/ 75000 <= e_bandwidth d ->
     snd r = ov
     /\ exists info, get (n1 ++ "-" ++ n2) (fst r) = Some info
                     /\ l_status info = "normal")
    /\ (0 < e_bandwidth d < 12500 ->
        (exists o, snd r = (ov ++ [o])%list /\ o_link o = n1 ++ "-" ++ n2
                   /\ o_bandwidth o = e_bandwidth d)
        /\ exists info, get (n1 ++ "-" ++ n2) (fst r) = Some info
                        /\ l_status info = "overloaded").
Proof.
  intros tc la ov n1 n2 d r. subst r. unfold analyze_edge.
  pose proof (estimate_link_demand_range n1 n2 tc) as Hd.
  split.
  - intros Hb. destruct (Z.ltb_spec 0 (e_bandwidth d)) as [Hpos|Hneg].
    + rewrite exceeds_threshold_ratio by exact Hpos.
      destruct (Z.ltb_spec (8 * e_bandwidth d)
                           (10 * _estimate_link_demand n1 n2 tc)); [lia|].
      cbn [fst snd]. split; [reflexivity|].
      eexists. rewrite get_set_same. split; reflexivity.
    + change (exceeds_threshold 0) with false. cbn [fst snd].
      split; [reflexivity|].
      eexists. rewrite get_set_same. split; reflexivity.
  - intros Hb. destruct (Z.ltb_spec 0 (e_bandwidth d)) as [Hpos|Hneg]; [|lia].
    rewrite exceeds_threshold_ratio by exact Hpos.
    destruct (Z.ltb_spec (8 * e_bandwidth d)
                         (10 * _estimate_link_demand n1 n2 tc)); [|lia].
    cbn [fst snd]. split.
    + eexists. repeat split.
    + eexists. rewrite get_set_same. split; reflexivity.
Qed.




(** An entry as [analyze_traffic_load] records it: the link id is built
    around a hyphen, so [nodes[1]] exists, and the demand is one that
    [_estimate_link_demand] returns, for which [int(demand * 1.5)] is the
    exact truncated value. *)
Definition recorded (o : Overloaded) : Prop :=
  occurs "-" (o_link o) = true /\ 10000 <= o_demand o <= 60000.

Lemma analyze_edge_recorded (tc : TrafficConfig)
    (e : string * string * EdgeData) (la : dict string LinkInfo)
    (ov : list Overloaded) :
  Forall recorded ov -> Forall recorded (snd (analyze_edge tc (la, ov) e)).
Proof.
  intros Hov. destruct e as [[n1 n2] d]. unfold analyze_edge.
  set (u := if 0 <? e_bandwidth d then _ else _).
  destruct (exceeds_threshold u); cbn [snd]; [|exact Hov].
  apply Forall_app. split; [exact Hov|]. constructor; [|constructor].
  split; cbn [o_link o_demand].
  - change (n1 ++ "-" ++ n2) with (n1 ++ String "-" n2). apply occurs_append.
  - apply estimate_link_demand_range.
Qed.

(** Every list of overloaded links that the code builds holds recorded
    entries only. *)
Lemma analyze_traffic_load_recorded (topology : TopologyBuilder)
    (tc : option TrafficConfig) (lb : LoadBalancer) :
  Forall recorded (overloaded_links lb) ->
  Forall recorded
    (overloaded_links
       (snd (analyze_traffic_load shortest_simple_paths topology tc lb))).
Proof.
  intros Hlb. unfold analyze_traffic_load.
  set (c := match tc with None | Some [] => _ | Some c => c end).
  assert (Hfold : forall l la ov,
             Forall recorded ov ->
             Forall recorded (snd (fold_left (analyze_edge c) l (la, ov)))).
  { induction l as [|e r IH]; intros la ov Hov; [exact Hov|].
    cbn [fold_left]. pose proof (analyze_edge_recorded c e la ov Hov) as He.
    destruct (analyze_edge c (la, ov) e) as [la1 ov1]. now apply IH. }
  specialize (Hfold (edges (graph topology)) [] (overloaded_links lb) Hlb).
  destruct (fold_left (analyze_edge c) _ _) as [la ov]. exact Hfold.
Qed.

(** X13.  For overloaded links as [analyze_traffic_load] records them, the
    recommendations hold one entry per overloaded link, in order, each a
    load-balancing or a capacity-upgrade entry for that link (whose id
    splits into at least two parts), and one closing QoS entry exactly when
    some link is overloaded; there is no recommendation exactly when no link
    is overloaded. *)
Theorem recommendations_per_overloaded_link :
  forall (topology : TopologyBuilder) (lb : LoadBalancer),
    Forall recorded (overloaded_links lb) ->
    let recs :=
      _generate_load_balancing_recommendations shortest_simple_paths topology lb in
    List.length recs
    = (List.length (overloaded_links lb)
       + match overloaded_links lb with [] => 0 | _ => 1 end)%nat
    /\ (recs = [] <-> overloaded_links lb = [])
    /\ (overloaded_links lb <> [] -> last recs (qos []) = qos qos_classes)
    /\ (forall i o,
           nth_error (overloaded_links lb) i = Some o ->
           (2 <= List.length (split "-" (o_link o)))%nat
           /\ exists r,
               nth_error recs i = Some r
               /\ ((exists paths,
                       r = load_balancing (o_link o) (o_utilization o) paths)
                   \/ r = capacity_upgrade (o_link o) (o_utilization o)
                                           (o_bandwidth o)
                                           (Z.quot (3 * o_demand o) 2))).
Proof.
  intros topology lb Hrec recs. subst recs.
  unfold _generate_load_balancing_recommendations.
  split; [|split; [|split]].
  - rewrite length_app, length_map. now destruct (overloaded_links lb).
  - destruct (overloaded_links lb); simpl; split; congruence.
  - intros Hne. destruct (overloaded_links lb) as [|o r]; [contradiction|].
    now rewrite last_last.
  - intros i o Hi. split.
    + rewrite Forall_forall in Hrec.
      destruct (Hrec o (nth_error_In _ _ Hi)) as [Hhyphen _].
      destruct (split_with _ _ Hhyphen) as (a & b & r & ->).
      cbn [List.length]. lia.
    + exists (recommend shortest_simple_paths topology o). split.
      * rewrite nth_error_app1
          by (rewrite length_map; apply nth_error_Some; congruence).
        now rewrite nth_error_map, Hi.
      * unfold recommend.
        destruct (1 <? List.length _)%nat; [left; eauto|right; reflexivity].
Qed.

(** X14.  For a link between two device names without a hyphen and a demand
    that [_estimate_link_demand] returns, the link id splits back into the
    two names, so the alternative paths asked for an overloaded link are
    those between its own two ends. *)
Theorem recommend_queries_link_ends :
  forall (topology : TopologyBuilder) (o : Overloaded) (n1 n2 : string),
    o_link o = n1 ++ "-" ++ n2 ->
    occurs "-" n1 = false -> occurs "-" n2 = false ->
    10000 <= o_demand o <= 60000 ->
    split "-" (o_link o) = [n1; n2]
    /\ recommend shortest_simple_paths topology o
       = let alt_paths :=
           get_alternative_paths shortest_simple_paths topology n1 n2 3 in
         if (1 <? List.length alt_paths)%nat
         then load_balancing (o_link o) (o_utilization o) (tl alt_paths)
         else capacity_upgrade (o_link o) (o_utilization o) (o_bandwidth o)
                               (Z.quot (3 * o_demand o) 2).
Proof.
  intros topology o n1 n2 Hlink H1 H2 Hdemand.
  assert (Hsplit : split "-" (o_link o) = [n1; n2]).
  { rewrite Hlink. change (n1 ++ "-" ++ n2) with (n1 ++ String "-" n2).
    now rewrite split_app, (split_without _ _ H1), (split_without _ _ H2). }
  split; [exact Hsplit|]. unfold recommend. now rewrite Hsplit.
Qed.

Lemma analyze_edges_quiet (tc : TrafficConfig)
    (l : list (string * string * EdgeData)) (la : dict string LinkInfo) :
  (forall n1 n2 d, In (n1, n2, d) l -> 75000 <= e_bandwidth d) ->
  snd (fold_left (analyze_edge tc) l (la, [])) = [].
Proof.
  revert la. induction l as [|[[n1 n2] d] r IH]; intros la Hl; [reflexivity|].
  cbn [fold_left].
  destruct (analyze_edge_thresholds tc la [] n1 n2 d) as [Hhigh _].
  destruct Hhigh as [Hsnd _];
    [right; apply (Hl n1 n2 d); now left|].
  destruct (analyze_edge tc (la, []) (n1, n2, d)) as [la' ov'].
  cbn [snd] in Hsnd. subst ov'.
  apply IH. intros a b e Hin. apply (Hl a b e). now right.
Qed.

(** X15.  On the topology built from interfaces whose bandwidth is unset
    (or at least 75000), a fresh estimator finds no overloaded link and
    gives no recommendation. *)
Theorem analyze_traffic_load_default_bandwidth :
  forall (pd : ParsedData) (tc : option TrafficConfig),
    (forall i, In i (values (pd_interfaces pd)) ->
               75000 <= or_int (bandwidth i) 100000) ->
    let r := fst (analyze_traffic_load shortest_simple_paths
                    (build_topology pd topology_builder.init) tc
                    load_balancer.init) in
    r_overloaded_links r = [] /\ recommendations r = [].
Proof.
  intros pd tc Hbw r. subst r. unfold analyze_traffic_load.
  set (c := match tc with None | Some [] => _ | Some c => c end).
  cbn [overloaded_links load_balancer.init].
  assert (Hq : snd (fold_left (analyze_edge c)
                      (edges (graph (build_topology pd topology_builder.init)))
                      ([], [])) = []).
  { apply analyze_edges_quiet. intros n1 n2 d Hin.
    apply (edges_from_data (fun d => 75000 <= e_bandwidth d)
             (graph (build_topology pd topology_builder.init)) [])
      with (n1 := n1) (n2 := n2); [|exact Hin].
    apply edge_data_all_build_topology.
    intros int1 int2 H1 H2. cbn [link_data e_bandwidth].
    pose proof (Hbw int1 H1). pose proof (Hbw int2 H2). lia. }
  destruct (fold_left (analyze_edge c) _ ([], [])) as [la ov].
  cbn [snd] in Hq. subst ov. split; reflexivity.
Qed.

End LoadAnalysis.

(** On the triangle no interface sets a bandwidth. *)
Lemma analyze_traffic_load_default_bandwidth_witness :
  load_balancer.r_overloaded_links
    (fst (load_balancer.analyze_traffic_load examples.triangle_paths
            examples.triangle_topology None load_balancer.init)) = []
  /\ load_balancer.recommendations
       (fst (load_balancer.analyze_traffic_load examples.triangle_paths
               examples.triangle_topology None load_balancer.init)) = [].
Proof.
  apply (analyze_traffic_load_default_bandwidth examples.triangle_paths
           examples.triangle None).
  intros i [<-|[<-|[<-|[]]]]; simpl; lia.
Defined.

(** The link between [R1] and [SW1] splits back into the two names. *)
Lemma recommend_queries_link_ends_witness :
  split "-" "R1-SW1" = ["R1"; "SW1"]
  /\ load_balancer.recommend examples.triangle_paths examples.triangle_topology
       {| load_balancer.o_link := "R1-SW1"; load_balancer.o_utilization := 30;
          load_balancer.o_bandwidth := 1000; load_balancer.o_demand := 30000 |}
     = load_balancer.capacity_upgrade "R1-SW1" 30 1000 45000.
Proof.
  apply (recommend_queries_link_ends examples.triangle_paths
           examples.triangle_topology
           {| load_balancer.o_link := "R1-SW1"; load_balancer.o_utilization := 30;
              load_balancer.o_bandwidth := 1000;
              load_balancer.o_demand := 30000 |} "R1" "SW1");
    try reflexivity.
  cbn [load_balancer.o_demand]. lia.
Defined.

(** One overloaded link between [R1] and [SW1]: an upgrade and the QoS
    entry. *)
Definition busy : load_balancer.LoadBalancer :=
  {| load_balancer.traffic_demands := [];
     load_balancer.overloaded_links :=
       [ {| load_balancer.o_link := "R1-SW1"; load_balancer.o_utilization := 30;
            load_balancer.o_bandwidth := 1000;
            load_balancer.o_demand := 30000 |} ] |}.

Lemma recommendations_per_overloaded_link_witness :
  Forall recorded (load_balancer.overloaded_links busy)
  /\ List.length
       (load_balancer._generate_load_balancing_recommendations
          examples.triangle_paths examples.triangle_topology busy) = 2%nat.
Proof.
  assert (H : Forall recorded (load_balancer.overloaded_links busy)).
  { constructor; [|constructor]. split; [reflexivity|].
    cbn [load_balancer.o_demand]. lia. }
  split; [exact H|].
  exact (proj1 (recommendations_per_overloaded_link examples.triangle_paths
                  examples.triangle_topology busy H)).
Defined.

(** ** simulator.py: the neighbors that [load_topology] seeds *)

Section SeededNeighbors.

Import simulator.
Variable now : Q.

(** [b] is in the neighbor table of the actor [a]. *)
Definition seeded (devs : dict string NetworkDevice) (a b : string) : Prop :=
  exists d, get a devs = Some d /\ contains b (neighbors d) = true.

(** Both are actors, and they are two. *)
Definition two_actors (devs : dict string NetworkDevice) (a b : string) : Prop :=
  contains a devs = true /\ contains b devs = true /\ a <> b.

Lemma contains_set {V} (k x : string) (v : V) (d : dict string V) :
  contains x (set k v d) = (String.eqb x k || contains x d)%bool.
Proof.
  unfold contains. rewrite get_set. cbn [keqb Key_string].
  now destruct (String.eqb x k).
Qed.

Lemma contains_seed_pair (d1 d2 x : string) (devs : dict string NetworkDevice) :
  contains x (seed_pair now d1 d2 devs) = contains x devs.
Proof.
  unfold seed_pair.
  destruct (negb (String.eqb d1 d2) && contains d1 devs && contains d2 devs)%bool
    eqn:E; [|reflexivity].
  destruct (get d1 devs) as [d|] eqn:E1; [|reflexivity].
  rewrite contains_set. destruct (String.eqb x d1) eqn:Ex; [|reflexivity].
  apply String.eqb_eq in Ex. subst. unfold contains. now rewrite E1.
Qed.

Lemma seeded_seed_pair (d1 d2 a b : string) (devs : dict string NetworkDevice) :
  seeded (seed_pair now d1 d2 devs) a b
  <-> seeded devs a b \/ ((a = d1 /\ b = d2) /\ two_actors devs a b).
Proof.
  unfold seed_pair, seeded, two_actors.
  destruct (negb (String.eqb d1 d2) && contains d1 devs && contains d2 devs)%bool
    eqn:E.
  - apply andb_true_iff in E. destruct E as [E E2].
    apply andb_true_iff in E. destruct E as [Ene E1].
    apply negb_true_iff in Ene. apply String.eqb_neq in Ene.
    destruct (get d1 devs) as [d|] eqn:Eg;
      [|unfold contains in E1; rewrite Eg in E1; discriminate].
    split.
    + intros (x & Hx & Hb). rewrite get_set in Hx. cbn [keqb Key_string] in Hx.
      destruct (String.eqb a d1) eqn:Ea.
      * apply String.eqb_eq in Ea. subst a. injection Hx as <-.
        cbn [set_neighbor neighbors] in Hb. rewrite contains_set in Hb.
        apply orb_true_iff in Hb. destruct Hb as [Hb|Hb].
        -- apply String.eqb_eq in Hb. subst b. right. auto.
        -- left. eauto.
      * left. eauto.
    + intros [(x & Hx & Hb)|[[-> ->] _]].
      * rewrite get_set. cbn [keqb Key_string].
        destruct (String.eqb a d1) eqn:Ea; [|eauto].
        apply String.eqb_eq in Ea. subst a. rewrite Eg in Hx. injection Hx as <-.
        eexists. split; [reflexivity|].
        cbn [set_neighbor neighbors]. rewrite contains_set, Hb.
        apply orb_true_r.
      * rewrite get_set_same. eexists. split; [reflexivity|].
        cbn [set_neighbor neighbors]. rewrite contains_set, String.eqb_refl.
        reflexivity.
  - split; [auto|]. intros [H|[[-> ->] (H1 & H2 & Hne)]]; [exact H|].
    exfalso. rewrite H1, H2 in E. apply String.eqb_neq in Hne.
    rewrite Hne in E. discriminate.
Qed.

(** A loop whose steps add the pairs that [R] names, among actors. *)
Lemma seeded_fold {A} (f : dict string NetworkDevice -> A -> dict string NetworkDevice)
    (R : A -> string -> string -> Prop) (l : list A) :
  (forall x devs y, contains y (f devs x) = contains y devs) ->
  (forall x devs a b,
      seeded (f devs x) a b <-> seeded devs a b \/ (R x a b /\ two_actors devs a b)) ->
  forall devs,
    (forall y, contains y (fold_left f l devs) = contains y devs)
    /\ forall a b,
        seeded (fold_left f l devs) a b
        <-> seeded devs a b
            \/ ((exists x, In x l /\ R x a b) /\ two_actors devs a b).
Proof.
  intros Hc Hs. induction l as [|x r IH]; intros devs; simpl.
  - split; [reflexivity|]. intros a b. split; [auto|].
    intros [H|[(x & [] & _) _]]. exact H.
  - destruct (IH (f devs x)) as [IHc IHs]. split.
    + intros y. now rewrite IHc, Hc.
    + intros a b. rewrite IHs, Hs. unfold two_actors. rewrite !Hc.
      split.
      * intros [[H|[HR HC]]|[(y & Hy & HR) HC]]; auto.
        -- right. split; [exists x; auto|exact HC].
        -- right. split; [exists y; auto|exact HC].
      * intros [H|[(y & [<-|Hy] & HR) HC]]; auto.
        right. split; [exists y; auto|exact HC].
Qed.

Lemma seeded_seed_network (ds : list string) (devs : dict string NetworkDevice) :
  (forall y, contains y (seed_network now ds devs) = contains y devs)
  /\ forall a b,
      seeded (seed_network now ds devs) a b
      <-> seeded devs a b \/ ((In a ds /\ In b ds) /\ two_actors devs a b).
Proof.
  unfold seed_network.
  pose proof (fun d1 =>
    seeded_fold (fun devs d2 => seed_pair now d1 d2 devs)
                (fun d2 a b => a = d1 /\ b = d2) ds
                (fun d2 devs y => contains_seed_pair d1 d2 y devs)
                (fun d2 devs a b => seeded_seed_pair d1 d2 a b devs)) as Hrow.
  destruct (seeded_fold
              (fun devs d1 => fold_left (fun devs d2 => seed_pair now d1 d2 devs)
                                        ds devs)
              (fun d1 a b => a = d1 /\ In b ds) ds) with (devs := devs)
    as [Hc Hs].
  - intros d1 devs0 y. apply (Hrow d1 devs0).
  - intros d1 devs0 a b. destruct (Hrow d1 devs0) as [_ Hr]. rewrite Hr.
    split; (intros [H|[HR HC]]; [now left|right; split; [|exact HC]]).
    + destruct HR as (d2 & Hd2 & -> & ->). auto.
    + destruct HR as [-> Hb]. exists b. auto.
  - split; [exact Hc|]. intros a b. rewrite Hs.
    split; (intros [H|[HR HC]]; [now left|right; split; [|exact HC]]).
    + destruct HR as (d1 & Hd1 & -> & Hb). auto.
    + destruct HR as [Ha Hb]. exists a. auto.
Qed.

Lemma seeded_seed_groups (groups : list (list string))
    (devs : dict string NetworkDevice) :
  (forall y,
      contains y (fold_left (fun devs network_devices =>
                               seed_network now network_devices devs)
                            groups devs) = contains y devs)
  /\ forall a b,
      seeded (fold_left (fun devs network_devices =>
                           seed_network now network_devices devs) groups devs)
             a b
      <-> seeded devs a b
          \/ ((exists ds, In ds groups /\ In a ds /\ In b ds)
              /\ two_actors devs a b).
Proof.
  apply (seeded_fold (fun devs ds => seed_network now ds devs)
                     (fun ds a b => In a ds /\ In b ds) groups).
  - intros ds devs0 y. apply (seeded_seed_network ds devs0).
  - intros ds devs0 a b. apply (seeded_seed_network ds devs0).
Qed.

Lemma owners_by_spec (key_of : Interface -> string) (k x : string)
    (l : list Interface) :
  In x (owners_by key_of k l)
  <-> exists i, In i l /\ has_address i = true /\ key_of i = k /\ device i = x.
Proof.
  unfold owners_by, has_address. rewrite in_map_iff. split.
  - intros (i & Hd & Hi). apply filter_In in Hi. destruct Hi as [Hi Hc].
    apply andb_true_iff in Hc. destruct Hc as [Ha Hk].
    apply String.eqb_eq in Hk. eauto.
  - intros (i & Hi & Ha & Hk & Hd). exists i. split; [exact Hd|].
    apply filter_In. split; [exact Hi|].
    now rewrite Ha, Hk, String.eqb_refl.
Qed.

Lemma group_networks_spec (interfaces : dict string Interface) (ds : list string) :
  In ds (values (group_networks interfaces))
  <-> exists k, ds = owners_by network_key k (values interfaces) /\ ds <> [].
Proof.
  unfold group_networks.
  change (fun networks i =>
            if truthy (ip_address i)
            then validator.append_to (network_key i) (device i) networks
            else networks)
    with (group_step network_key).
  set (m := fold_left (group_step network_key) (values interfaces) []).
  assert (Hkeys : NoDup (keys m)) by (apply NoDup_keys_grouped; constructor).
  assert (Hget : forall k,
             get k m = match owners_by network_key k (values interfaces) with
                       | [] => None
                       | o => Some o
                       end).
  { intros k. subst m. now rewrite get_grouped. }
  unfold values at 1. rewrite in_map_iff. split.
  - intros ([k ds'] & <- & Hin). cbn [snd]. exists k.
    apply (In_get _ _ _ Hkeys) in Hin. rewrite Hget in Hin.
    destruct (owners_by network_key k (values interfaces)); [discriminate|].
    injection Hin as <-. split; [reflexivity|discriminate].
  - intros (k & -> & Hne). exists (k, owners_by network_key k (values interfaces)).
    split; [reflexivity|]. apply get_In. rewrite Hget.
    now destruct (owners_by network_key k (values interfaces)).
Qed.

Lemma contains_new_devices (configs : dict string Device)
    (devs : dict string NetworkDevice) (x : string) :
  contains x (fold_left (fun devs '(device_name, device_config) =>
                           set device_name
                               (new_device device_name (type device_config)
                                           device_config) devs)
                        configs devs)
  = (contains x devs || contains x configs)%bool.
Proof.
  revert devs. induction configs as [|[n c] r IH]; intros devs; simpl.
  - unfold contains at 3. simpl. now rewrite orb_false_r.
  - rewrite IH, contains_set, contains_cons.
    now destruct (String.eqb x n), (contains x devs).
Qed.

(** The first loop of [load_topology]: one actor per parsed device. *)
Definition create_actors (configs : dict string Device)
    (devs : dict string NetworkDevice) : dict string NetworkDevice :=
  fold_left (fun devs '(device_name, device_config) =>
               set device_name
                   (new_device device_name (type device_config) device_config)
                   devs)
            configs devs.

Lemma load_topology_steps (pd : ParsedData) (sim : NetworkSimulator) :
  devices (load_topology now pd sim)
  = fold_left (fun devs network_devices => seed_network now network_devices devs)
              (values (group_networks (pd_interfaces pd)))
              (create_actors (pd_devices pd) (devices sim)).
Proof. reflexivity. Qed.

(** X16.  What [load_topology] seeds on a fresh simulator: [b] is in the
    neighbor table of [a] exactly when [a] and [b] are two parsed devices
    that own interfaces with an address whose address text and mask text
    are the same.  The seeding is symmetric, never names the actor itself
    and never names a device that has no actor. *)
Theorem load_topology_seeds :
  forall (pd : ParsedData) (a b : string),
    let sim := load_topology now pd simulator.init in
    (seeded (devices sim) a b
     <-> a <> b
         /\ contains a (pd_devices pd) = true
         /\ contains b (pd_devices pd) = true
         /\ exists i j,
             In i (values (pd_interfaces pd)) /\ In j (values (pd_interfaces pd))
             /\ has_address i = true /\ has_address j = true
             /\ device i = a /\ device j = b
             /\ network_key i = network_key j)
    /\ (seeded (devices sim) a b <-> seeded (devices sim) b a)
    /\ ~ seeded (devices sim) a a
    /\ (seeded (devices sim) a b -> contains b (devices sim) = true).
Proof.
  intros pd a b sim.
  assert (Hmain : forall a b,
    seeded (devices sim) a b
    <-> a <> b
        /\ contains a (pd_devices pd) = true
        /\ contains b (pd_devices pd) = true
        /\ exists i j,
            In i (values (pd_interfaces pd)) /\ In j (values (pd_interfaces pd))
            /\ has_address i = true /\ has_address j = true
            /\ device i = a /\ device j = b
            /\ network_key i = network_key j).
  { clear a b. intros a b. subst sim. rewrite load_topology_steps.
    cbn [devices simulator.init].
    destruct (seeded_seed_groups
                (values (group_networks (pd_interfaces pd)))
                (create_actors (pd_devices pd) [])) as [_ Hs].
    rewrite Hs. unfold two_actors, create_actors.
    rewrite !contains_new_devices. cbn [orb].
    change (contains a []) with false. change (contains b []) with false.
    cbn [orb]. split.
    - intros [(d & Hd & Hb)|[(ds & Hds & Ha & Hb) (Hca & Hcb & Hne)]].
      + exfalso.
        assert (Hempty : forall (n : string) (x : NetworkDevice),
                   get n [] = Some x -> neighbors x = [])
          by (intros ? ? [=]).
        rewrite (new_devices_no_neighbors _ _ Hempty a d Hd) in Hb.
        discriminate.
      + repeat split; auto.
        apply group_networks_spec in Hds. destruct Hds as (k & -> & _).
        apply owners_by_spec in Ha, Hb.
        destruct Ha as (i & Hi & Hai & Hki & Hdi).
        destruct Hb as (j & Hj & Haj & Hkj & Hdj).
        exists i, j. repeat split; auto. congruence.
    - intros (Hne & Hca & Hcb & i & j & Hi & Hj & Hai & Haj & Hdi & Hdj & Hk).
      right. split; [|auto].
      exists (owners_by network_key (network_key i) (values (pd_interfaces pd))).
      assert (Ha : In a (owners_by network_key (network_key i)
                           (values (pd_interfaces pd)))).
      { apply owners_by_spec. exists i. auto. }
      split; [|split; [exact Ha|]].
      + apply group_networks_spec. exists (network_key i). split; [reflexivity|].
        intros Hnil. rewrite Hnil in Ha. contradiction.
      + apply owners_by_spec. exists j. auto. }
  split; [apply Hmain|]. split; [|split].
  - rewrite !Hmain. split;
      intros (Hne & Hca & Hcb & i & j & Hi & Hj & Hai & Haj & Hdi & Hdj & Hk);
      (split; [congruence|]); repeat (split; [assumption|]);
      exists j, i; repeat split; auto.
  - rewrite Hmain. intros [Hne _]. now apply Hne.
  - rewrite Hmain. intros (_ & _ & Hcb & _). subst sim.
    rewrite load_topology_steps. cbn [devices simulator.init].
    destruct (seeded_seed_groups
                (values (group_networks (pd_interfaces pd)))
                (create_actors (pd_devices pd) [])) as [Hc _].
    rewrite Hc. unfold create_actors. rewrite contains_new_devices, Hcb.
    apply orb_true_r.
Qed.

End SeededNeighbors.

(** ** simulator.py: the other methods of [NetworkDevice] *)

Module network_device.

Import simulator.

Definition with_config (c : Device) (d : NetworkDevice) : NetworkDevice :=
  {| nd_name := nd_name d; device_type := device_type d; nd_config := c;
     running := running d; paused := paused d;
     message_queue := message_queue d; neighbors := neighbors d;
     stats := stats d; arp_table := arp_table d |}.

Definition with_running (b : bool) (d : NetworkDevice) : NetworkDevice :=
  {| nd_name := nd_name d; device_type := device_type d;
     nd_config := nd_config d; running := b; paused := paused d;
     message_queue := message_queue d; neighbors := neighbors d;
     stats := stats d; arp_table := arp_table d |}.


(** The message dicts are built with more keys (address, process id,
    timestamp); [broadcast_message] reads the type only. *)
Definition message_of (type source : string) : Message :=
  {| m_type := type; m_source := source |}.

(** The test [interface.get('ip_address') and interface.get('status') == 'up'] *)
Definition arp_ready (i : InterfaceInfo) : bool :=
  (truthy (if_ip_address i) && String.eqb (if_status i) "up")%bool.

(** [send_arp_requests] *)
Definition send_arp_requests (d : NetworkDevice) : NetworkDevice :=
  fold_left (fun d '(interface_name, interface) =>
               if arp_ready interface
               then broadcast_message (message_of "arp_request" (nd_name d)) d
               else d)
            (interfaces (nd_config d)) d.

(** [start_ospf] *)
Definition start_ospf (config : RoutingProtocol) (d : NetworkDevice)
    : NetworkDevice :=
  broadcast_message (message_of "ospf_hello" (nd_name d)) d.

(** [start_bgp] *)
Definition start_bgp (config : RoutingProtocol) (d : NetworkDevice)
    : NetworkDevice :=
  broadcast_message (message_of "bgp_open" (nd_name d)) d.

(** [start_routing_protocols] *)
Definition start_routing_protocols (d : NetworkDevice) : NetworkDevice :=
  fold_left (fun d p =>
               if String.eqb (protocol p) "ospf" then start_ospf p d
               else if String.eqb (protocol p) "bgp" then start_bgp p d
               else d)
            (routing_protocols (nd_config d)) d.

(** [discover_neighbors] *)
Definition discover_neighbors (d : NetworkDevice) : NetworkDevice :=
  broadcast_message (message_of "neighbor_discovery" (nd_name d)) d.

(** [day1_initialization] *)
Definition day1_initialization (d : NetworkDevice) : NetworkDevice :=
  discover_neighbors (start_routing_protocols (send_arp_requests d)).

Definition shut (i : InterfaceInfo) : InterfaceInfo :=
  {| if_name := if_name i; if_ip_address := if_ip_address i;
     if_subnet_mask := if_subnet_mask i; if_bandwidth := if_bandwidth i;
     if_mtu := if_mtu i; if_vlan := if_vlan i; if_status := "down" |}.

(** [self.config['interfaces'][interface]['status'] = 'down'] *)
Definition set_down (interface : string) (c : Device) : Device :=
  match get interface (interfaces c) with
  | Some i =>
      {| name := name c; type := type c;
         interfaces := set interface (shut i) (interfaces c);
         routing_protocols := routing_protocols c; vlans := vlans c;
         hostname := hostname c |}
  | None => c
  end.

(** [inject_fault(fault_type, **kwargs)]; [interface] is
    [kwargs.get('interface')]. *)
Definition inject_fault (fault_type : string) (interface : option string)
    (d : NetworkDevice) : NetworkDevice :=
  if String.eqb fault_type "interface_down" then
    match interface with
    | Some i =>
        if contains i (interfaces (nd_config d))
        then with_config (set_down i (nd_config d)) d
        else d
    | None => d
    end
  else if String.eqb fault_type "device_failure" then with_running false d
  else d.



(** [stop] *)
Definition stop (d : NetworkDevice) : NetworkDevice := with_running false d.

End network_device.

(** ** simulator.py: the other methods of [NetworkSimulator] *)

Module network_simulator.

Import simulator.




(** [inject_fault(device_name, fault_type, **kwargs)]: an unknown device is
    logged and nothing changes. *)
Definition inject_fault (device_name fault_type : string)
    (interface : option string) (sim : NetworkSimulator) : NetworkSimulator :=
  match get device_name (devices sim) with
  | Some d =>
      {| devices := set device_name
                        (network_device.inject_fault fault_type interface d)
                        (devices sim);
         sim_running := sim_running sim; sim_paused := sim_paused sim |}
  | None => sim
  end.

End network_simulator.

(** ** simulator.py: what Day-1 initialization sends *)

Section DayOne.

Import simulator network_device.

Lemma add_sent_0 (d : NetworkDevice) : add_sent 0 d = d.
Proof.
  destruct d as [n t c r p q nb [s rc e u] a]. unfold add_sent. cbn.
  now rewrite Z.add_0_r.
Qed.

Lemma add_sent_add (a b : Z) (d : NetworkDevice) :
  add_sent a (add_sent b d) = add_sent (b + a) d.
Proof. unfold add_sent. cbn. now rewrite Z.add_assoc. Qed.

Lemma send_all_add_sent (m : Message) (l : list string) (d : NetworkDevice) :
  fold_left (fun d n => send_message_to_neighbor n m d) l d
  = add_sent (Z.of_nat (List.length l)) d.
Proof.
  revert d. induction l as [|n r IH]; intros d.
  - simpl. now rewrite add_sent_0.
  - cbn [fold_left List.length]. rewrite IH. unfold send_message_to_neighbor.
    rewrite add_sent_add. f_equal. lia.
Qed.

(** A broadcast changes the sent counter only, by twice the neighbor count. *)
Lemma broadcast_message_add_sent (m : Message) (d : NetworkDevice) :
  broadcast_message m d
  = add_sent (2 * Z.of_nat (List.length (neighbors d))) d.
Proof.
  unfold broadcast_message. rewrite send_all_add_sent. cbn [add_sent neighbors].
  rewrite add_sent_add. unfold keys. rewrite length_map. f_equal. lia.
Qed.

Lemma fold_broadcasts {A} (step : NetworkDevice -> A -> NetworkDevice)
    (test : A -> bool) (mk : NetworkDevice -> A -> Message) (l : list A)
    (d : NetworkDevice) :
  (forall d x, step d x = if test x then broadcast_message (mk d x) d else d) ->
  fold_left step l d
  = add_sent (2 * Z.of_nat (List.length (neighbors d))
              * Z.of_nat (List.length (filter test l))) d.
Proof.
  intros Hstep. revert d. induction l as [|x r IH]; intros d.
  - simpl. now rewrite Z.mul_0_r, add_sent_0.
  - cbn [fold_left filter]. rewrite IH, Hstep.
    destruct (test x).
    + rewrite broadcast_message_add_sent. cbn [add_sent neighbors].
      rewrite add_sent_add. f_equal. cbn [List.length]. lia.
    + reflexivity.
Qed.

(** The protocols for which [start_routing_protocols] sends a hello. *)
Definition announced (p : RoutingProtocol) : bool :=
  (String.eqb (protocol p) "ospf" || String.eqb (protocol p) "bgp")%bool.

(** X17.  Day-1 initialization changes nothing of an actor but its sent
    counter, which grows by twice the neighbor count for every interface
    that is up with an address, for every OSPF or BGP entry and for the
    discovery announcement; an actor without neighbors is left as it is. *)
Theorem day1_initialization_counts :
  forall d : NetworkDevice,
    let n := Z.of_nat (List.length (neighbors d)) in
    let arps := Z.of_nat (List.length (filter arp_ready
                                              (values (interfaces (nd_config d))))) in
    let hellos := Z.of_nat (List.length (filter announced
                                                (routing_protocols (nd_config d)))) in
    day1_initialization d = add_sent (2 * n * (arps + hellos + 1)) d
    /\ (neighbors d = [] -> day1_initialization d = d).
Proof.
  intros d n arps hellos.
  assert (Hmain : day1_initialization d = add_sent (2 * n * (arps + hellos + 1)) d).
  { unfold day1_initialization, discover_neighbors, start_routing_protocols,
      send_arp_requests.
    rewrite (fold_broadcasts _ (fun x => arp_ready (snd x))
               (fun d _ => message_of "arp_request" (nd_name d)))
      by (intros d0 [i info]; reflexivity).
    cbn [add_sent nd_config neighbors].
    rewrite (fold_broadcasts _ announced
               (fun d p => if String.eqb (protocol p) "ospf"
                           then message_of "ospf_hello" (nd_name d)
                           else message_of "bgp_open" (nd_name d))).
    2:{ intros d0 p. unfold announced, start_ospf, start_bgp.
        destruct (String.eqb (protocol p) "ospf"); [reflexivity|].
        now destruct (String.eqb (protocol p) "bgp"). }
    cbn [add_sent neighbors]. rewrite broadcast_message_add_sent.
    cbn [add_sent neighbors]. rewrite !add_sent_add. f_equal.
    subst n arps hellos. unfold values.
    rewrite <- (length_map snd (filter _ (interfaces (nd_config d)))).
    replace (map snd (filter (fun x => arp_ready (snd x))
                             (interfaces (nd_config d))))
      with (filter arp_ready (map snd (interfaces (nd_config d)))).
    - lia.
    - generalize (interfaces (nd_config d)). intros l.
      induction l as [|[i info] r IH]; [reflexivity|].
      cbn [map filter snd]. destruct (arp_ready info); cbn [map snd];
        now rewrite IH. }
  split; [exact Hmain|].
  intros Hn. rewrite Hmain. subst n. rewrite Hn. cbn [List.length].
  apply add_sent_0.
Qed.

End DayOne.

(** ** simulator.py: the actors that [load_topology] creates *)

Section CreatedActors.

Import simulator.
Variable now : Q.

(** Every actor of the registry satisfies [P] under its key. *)
Definition actors_all (P : string -> NetworkDevice -> Prop)
    (devs : dict string NetworkDevice) : Prop :=
  forall n d, get n devs = Some d -> P n d.

Lemma actors_all_seed_pair (P : string -> NetworkDevice -> Prop)
    (d1 d2 : string) (devs : dict string NetworkDevice) :
  (forall n d b e, P n d -> P n (set_neighbor b e d)) ->
  actors_all P devs -> actors_all P (seed_pair now d1 d2 devs).
Proof.
  intros HP Hdevs. unfold seed_pair.
  destruct (negb (String.eqb d1 d2) && contains d1 devs && contains d2 devs)%bool;
    [|exact Hdevs].
  destruct (get d1 devs) as [d|] eqn:E1; [|exact Hdevs].
  intros n x. rewrite get_set. cbn [keqb Key_string].
  destruct (String.eqb n d1) eqn:En; [|apply Hdevs].
  apply String.eqb_eq in En. subst n. intros [= <-]. apply HP. now apply Hdevs.
Qed.

Lemma actors_all_fold {A} (P : string -> NetworkDevice -> Prop)
    (f : dict string NetworkDevice -> A -> dict string NetworkDevice)
    (l : list A) (devs : dict string NetworkDevice) :
  (forall x devs, actors_all P devs -> actors_all P (f devs x)) ->
  actors_all P devs -> actors_all P (fold_left f l devs).
Proof.
  intros Hf. revert devs. induction l as [|x r IH]; intros devs Hd; simpl; auto.
Qed.

Lemma actors_all_seeding (P : string -> NetworkDevice -> Prop)
    (groups : list (list string)) (devs : dict string NetworkDevice) :
  (forall n d b e, P n d -> P n (set_neighbor b e d)) ->
  actors_all P devs ->
  actors_all P (fold_left (fun devs network_devices =>
                             seed_network now network_devices devs)
                          groups devs).
Proof.
  intros HP. apply actors_all_fold. intros ds devs0. unfold seed_network.
  apply actors_all_fold. intros d1 devs1.
  apply actors_all_fold. intros d2 devs2.
  now apply actors_all_seed_pair.
Qed.

Lemma actors_all_create (P : string -> NetworkDevice -> Prop)
    (configs : dict string Device) (devs : dict string NetworkDevice) :
  (forall n c, In (n, c) configs -> P n (new_device n (type c) c)) ->
  actors_all P devs -> actors_all P (create_actors configs devs).
Proof.
  unfold create_actors. revert devs.
  induction configs as [|[n c] r IH]; intros devs Hnew Hdevs; simpl; [exact Hdevs|].
  apply IH; [intros; apply Hnew; now right|].
  intros k x. rewrite get_set. cbn [keqb Key_string].
  destruct (String.eqb k n) eqn:Ek; [|apply Hdevs].
  apply String.eqb_eq in Ek. subst k. intros [= <-]. apply Hnew. now left.
Qed.

(** An actor as [load_topology] leaves it: made from a parsed record of its
    name, idle, with zero counters and empty queue and ARP table. *)
Definition as_created (pd : ParsedData) (n : string) (d : NetworkDevice) : Prop :=
  nd_name d = n
  /\ In (n, nd_config d) (pd_devices pd)
  /\ device_type d = type (nd_config d)
  /\ running d = false /\ paused d = false
  /\ message_queue d = [] /\ arp_table d = []
  /\ stats d = {| packets_sent := 0; packets_received := 0; errors := 0;
                  uptime := 0 |}.

(** X18.  [load_topology] on a fresh simulator creates an actor for exactly
    the parsed device names, each built from a parsed record of that name
    with its type, not running, not paused, with zero counters, an empty
    queue and an empty ARP table; the simulator itself stays stopped. *)
Theorem load_topology_actors :
  forall (pd : ParsedData) (n : string),
    let sim := load_topology now pd simulator.init in
    contains n (devices sim) = contains n (pd_devices pd)
    /\ (forall d, get n (devices sim) = Some d -> as_created pd n d)
    /\ sim_running sim = false /\ sim_paused sim = false.
Proof.
  intros pd n sim. subst sim. split; [|split; [|split; reflexivity]].
  - rewrite load_topology_steps. cbn [devices simulator.init].
    destruct (seeded_seed_groups now
                (values (group_networks (pd_interfaces pd)))
                (create_actors (pd_devices pd) [])) as [Hc _].
    rewrite Hc. unfold create_actors. now rewrite contains_new_devices.
  - intros d Hd. rewrite load_topology_steps in Hd.
    cbn [devices simulator.init] in Hd. revert n d Hd.
    change (actors_all (as_created pd)
              (fold_left (fun devs network_devices =>
                            seed_network now network_devices devs)
                         (values (group_networks (pd_interfaces pd)))
                         (create_actors (pd_devices pd) []))).
    apply actors_all_seeding.
    + intros k d b e H. exact H.
    + apply actors_all_create.
      * intros k c Hin. unfold as_created. cbn. repeat split. exact Hin.
      * intros k d [=].
Qed.

End CreatedActors.

(** ** simulator.py: fault injection and lifecycle *)

Section Faults.

Import simulator network_device.

Lemma set_set_same {V} (k : string) (v w : V) (d : dict string V) :
  set k w (set k v d) = set k w d.
Proof.
  induction d as [|[k' v'] r IH]; simpl.
  - now rewrite String.eqb_refl.
  - destruct (String.eqb k k') eqn:E; simpl; rewrite E; [reflexivity|].
    now rewrite IH.
Qed.

Lemma filter_values_set {V} (f : V -> bool) (k : string) (v w : V)
    (d : dict string V) :
  get k d = Some v ->
  (List.length (filter f (values (set k w d))) + (if f v then 1 else 0)
   = List.length (filter f (values d)) + (if f w then 1 else 0))%nat.
Proof.
  unfold values.
  induction d as [|[k' v'] r IH]; simpl; [discriminate|].
  destruct (String.eqb k k') eqn:E; simpl.
  - intros [= ->]. destruct (f v), (f w); simpl; lia.
  - intros Hg. specialize (IH Hg). destruct (f v'); simpl; lia.
Qed.

Lemma set_down_twice (i : string) (c : Device) :
  set_down i (set_down i c) = set_down i c.
Proof.
  unfold set_down. destruct (get i (interfaces c)) as [info|] eqn:E.
  - cbn [interfaces]. rewrite get_set_same. unfold shut at 1. cbn.
    now rewrite set_set_same.
  - now rewrite E.
Qed.

Lemma inject_fault_shuts (d : NetworkDevice) (i : string) :
  contains i (interfaces (nd_config d)) = true ->
  inject_fault "interface_down" (Some i) d
  = with_config (set_down i (nd_config d)) d.
Proof. intros H. unfold inject_fault. cbn. now rewrite H. Qed.

(** X19.  Fault [interface_down] on an interface the actor has: that
    interface's status becomes [down] and nothing else of the actor changes
    (the other interfaces, the neighbors, the counters, the running flag);
    injecting it again changes nothing more, and the interface no longer
    counts among those that ARP requests are sent for. *)
Theorem inject_fault_interface_down :
  forall (d : NetworkDevice) (i : string) (info : InterfaceInfo),
    get i (interfaces (nd_config d)) = Some info ->
    let d' := inject_fault "interface_down" (Some i) d in
    get i (interfaces (nd_config d')) = Some (shut info)
    /\ (forall j, j <> i ->
                  get j (interfaces (nd_config d'))
                  = get j (interfaces (nd_config d)))
    /\ keys (interfaces (nd_config d')) = keys (interfaces (nd_config d))
    /\ neighbors d' = neighbors d /\ stats d' = stats d
    /\ running d' = running d /\ paused d' = paused d
    /\ inject_fault "interface_down" (Some i) d' = d'
    /\ (List.length (filter arp_ready (values (interfaces (nd_config d'))))
        = List.length (filter arp_ready (values (interfaces (nd_config d))))
          - (if arp_ready info then 1 else 0))%nat.
Proof.
  intros d i info Hi d'.
  assert (Hc : contains i (interfaces (nd_config d)) = true)
    by (unfold contains; now rewrite Hi).
  assert (Hd' : d' = with_config (set_down i (nd_config d)) d).
  { subst d'. now apply inject_fault_shuts. }
  assert (Hifs : interfaces (nd_config d')
                 = set i (shut info) (interfaces (nd_config d))).
  { rewrite Hd'. unfold set_down. rewrite Hi. reflexivity. }
  split; [rewrite Hifs; apply get_set_same|].
  split; [intros j Hj; rewrite Hifs; now apply get_set_other|].
  split; [rewrite Hifs, keys_set; now rewrite Hc|].
  split; [now rewrite Hd'|]. split; [now rewrite Hd'|].
  split; [now rewrite Hd'|]. split; [now rewrite Hd'|].
  split.
  - assert (Hc' : contains i (interfaces (nd_config d')) = true)
      by (rewrite Hifs, contains_set, String.eqb_refl; reflexivity).
    rewrite (inject_fault_shuts d' i Hc'). rewrite Hd'.
    unfold with_config. cbn. now rewrite set_down_twice.
  - rewrite Hifs.
    pose proof (filter_values_set arp_ready i info (shut info) _ Hi) as Hcount.
    assert (Hshut : arp_ready (shut info) = false).
    { unfold arp_ready, shut. cbn. apply andb_false_r. }
    rewrite Hshut in Hcount. destruct (arp_ready info); lia.
Qed.

End Faults.

Section FaultExample.

Import simulator network_device.

Definition uplink : InterfaceInfo :=
  {| if_name := "Gi0/0"; if_ip_address := Some "10.0.0.1";
     if_subnet_mask := Some "255.255.255.0"; if_bandwidth := Some 1000;
     if_mtu := 1500; if_vlan := None; if_status := "up" |}.

Definition edge_router : NetworkDevice :=
  new_device "R1" "router"
    {| name := "R1"; type := "router"; interfaces := [("Gi0/0", uplink)];
       routing_protocols := []; vlans := []; hostname := "R1" |}.

Lemma inject_fault_interface_down_witness :
  get "Gi0/0" (interfaces (nd_config edge_router)) = Some uplink
  /\ get "Gi0/0" (interfaces (nd_config
                    (inject_fault "interface_down" (Some "Gi0/0") edge_router)))
     = Some (shut uplink).
Proof.
  split; [reflexivity|].
  exact (proj1 (inject_fault_interface_down edge_router "Gi0/0" uplink eq_refl)).
Defined.

End FaultExample.

Section Coordinator.

Import simulator.




(** X20.  The simulator's [inject_fault] is local: for an unknown device
    name the simulator is unchanged; otherwise the named actor receives the
    fault, every other actor is as before, the set and order of the actors
    are kept, and the simulator's own running and paused flags are kept. *)
Theorem simulator_inject_fault_local :
  forall (sim : NetworkSimulator) (device_name fault_type : string)
         (interface : option string),
    let sim' := network_simulator.inject_fault device_name fault_type
                  interface sim in
    (contains device_name (devices sim) = false -> sim' = sim)
    /\ get device_name (devices sim')
       = option_map (network_device.inject_fault fault_type interface)
                    (get device_name (devices sim))
    /\ (forall other, other <> device_name ->
                      get other (devices sim') = get other (devices sim))
    /\ keys (devices sim') = keys (devices sim)
    /\ sim_running sim' = sim_running sim
    /\ sim_paused sim' = sim_paused sim.
Proof.
  intros sim device_name fault_type interface sim'. subst sim'.
  unfold network_simulator.inject_fault, contains.
  destruct (get device_name (devices sim)) as [d|] eqn:E.
  - cbn [devices sim_running sim_paused option_map].
    split; [discriminate|].
    split; [apply get_set_same|].
    split; [intros other Ho; now apply get_set_other|].
    split; [|split; reflexivity].
    rewrite keys_set. unfold contains. now rewrite E.
  - cbn [option_map]. rewrite E. repeat split; reflexivity.
Qed.


End Coordinator.

(** ** validator.py: which VLANs [_check_vlan_consistency] reports *)

Section VlanNames.

Import validator.

(** The [(vlan_id, name)] pairs in the order the first loop visits them. *)
Definition declarations (devices : dict string Device) : list (Z * string) :=
  flat_map (fun device => map (fun '(vlan_id, vlan_info) =>
                                 (vlan_id, vlan_name vlan_info))
                              (vlans device))
           (values devices).

(** The dict [vlan_configs] after the first loop. *)
Definition vlan_configs (devices : dict string Device) : dict Z (list string) :=
  fold_left (fun m device =>
               fold_left (fun m '(vlan_id, vlan_info) =>
                            add_to_set vlan_id (vlan_name vlan_info) m)
                         (vlans device) m)
            (values devices) [].

Definition vlan_issue (vlan_id : Z) (names : list string) : Finding :=
  {| f_type := "vlan_inconsistency"; severity := "medium";
     description := "VLAN " ++ str_int vlan_id
                    ++ " has inconsistent names: " ++ repr_list names;
     affected_devices := None;
     recommendation := "Use consistent name for VLAN " ++ str_int vlan_id |}.

(** The entries of [vlan_configs] that the second loop reports. *)
Definition inconsistent (devices : dict string Device)
    : list (Z * list string) :=
  filter (fun '(_, names) => (1 <? List.length names)%nat)
         (vlan_configs devices).

Lemma check_vlan_consistency_steps (devices : dict string Device)
    (v : ConfigValidator) :
  _check_vlan_consistency devices v
  = fold_left (fun v '(vlan_id, names) =>
                 if (1 <? List.length names)%nat
                 then add_issue (vlan_issue vlan_id names) v else v)
              (vlan_configs devices) v.
Proof. reflexivity. Qed.

Definition add_pair (m : dict Z (list string)) (p : Z * string)
    : dict Z (list string) :=
  add_to_set (fst p) (snd p) m.

Lemma vlan_configs_flat (devices : dict string Device) :
  vlan_configs devices = fold_left add_pair (declarations devices) [].
Proof.
  unfold vlan_configs, declarations.
  generalize (@nil (Z * list string)) as m.
  induction (values devices) as [|device r IH]; intros m; [reflexivity|].
  cbn [fold_left flat_map]. rewrite fold_left_app, <- IH. f_equal.
  generalize m. induction (vlans device) as [|[vlan_id vlan_info] q IHq];
    intros m0; [reflexivity|].
  cbn [fold_left map]. apply IHq.
Qed.

Lemma mem_In (x : string) (l : list string) : mem x l = true <-> In x l.
Proof.
  unfold mem. rewrite existsb_exists. split.
  - intros [y [Hy E]]. apply String.eqb_eq in E. now subst.
  - intros Hx. exists x. split; [exact Hx|apply String.eqb_refl].
Qed.

(** What the name sets hold after the pairs [decls] were added. *)
Definition collected (m : dict Z (list string)) (decls : list (Z * string))
    : Prop :=
  NoDup (keys m)
  /\ forall id,
       match get id m with
       | None => forall n, ~ In (id, n) decls
       | Some l => NoDup l /\ forall n, In n l <-> In (id, n) decls
       end.

Lemma collected_add_pair (m : dict Z (list string)) (decls : list (Z * string))
    (p : Z * string) :
  collected m decls -> collected (add_pair m p) (decls ++ [p]).
Proof.
  destruct p as [k x]. intros [Hkeys Hm]. unfold add_pair, add_to_set.
  cbn [fst snd]. pose proof (Hm k) as Hk.
  destruct (get k m) as [l|] eqn:Ek.
  - destruct Hk as [Hnd Hl]. destruct (mem x l) eqn:Ex.
    + split; [exact Hkeys|]. intros id. specialize (Hm id).
      destruct (get id m) as [l'|] eqn:Eid.
      * destruct Hm as [Hnd' Hl']. split; [exact Hnd'|]. intros n.
        rewrite in_app_iff, Hl'. split; [tauto|]. intros [H|[[= <- <-]|[]]];
          [exact H|]. rewrite Ek in Eid. injection Eid as <-.
        apply Hl. now apply mem_In.
      * intros n. rewrite in_app_iff. intros [H|[[= <- <-]|[]]];
          [now apply (Hm n)|]. rewrite Ek in Eid. discriminate.
    + split; [now apply NoDup_keys_set|]. intros id. rewrite get_set.
      cbn [keqb Key_Z]. destruct (Z.eqb id k) eqn:E.
      * apply Z.eqb_eq in E. subst id. split.
        -- apply NoDup_app; [exact Hnd|repeat constructor; intros []|].
           intros a Ha [<-|[]]. apply mem_In in Ha. rewrite Ha in Ex.
           discriminate.
        -- intros n. rewrite !in_app_iff, Hl. cbn [In].
           split; [intros [H|[<-|[]]]; auto|].
           intros [H|[[= <-]|[]]]; auto.
      * apply Z.eqb_neq in E. specialize (Hm id).
        destruct (get id m) as [l'|].
        -- destruct Hm as [Hnd' Hl']. split; [exact Hnd'|]. intros n.
           rewrite in_app_iff, Hl'. split; [tauto|].
           intros [H|[[= -> _]|[]]]; [exact H|contradiction].
        -- intros n. rewrite in_app_iff. intros [H|[[= -> _]|[]]];
             [now apply (Hm n)|contradiction].
  - split; [now apply NoDup_keys_set|]. intros id. rewrite get_set.
    cbn [keqb Key_Z]. destruct (Z.eqb id k) eqn:E.
    + apply Z.eqb_eq in E. subst id. split.
      * repeat constructor. intros [].
      * intros n. rewrite in_app_iff. cbn [In]. split.
        -- intros [<-|[]]. right. now left.
        -- intros [H|[[= <-]|[]]]; [now apply Hk in H|now left].
    + apply Z.eqb_neq in E. specialize (Hm id).
      destruct (get id m) as [l'|].
      * destruct Hm as [Hnd' Hl']. split; [exact Hnd'|]. intros n.
        rewrite in_app_iff, Hl'. split; [tauto|].
        intros [H|[[= -> _]|[]]]; [exact H|contradiction].
      * intros n. rewrite in_app_iff. intros [H|[[= -> _]|[]]];
          [now apply (Hm n)|contradiction].
Qed.

Lemma collected_fold (l : list (Z * string)) (m : dict Z (list string))
    (decls : list (Z * string)) :
  collected m decls -> collected (fold_left add_pair l m) (decls ++ l).
Proof.
  revert m decls. induction l as [|p r IH]; intros m decls Hm.
  - now rewrite app_nil_r.
  - cbn [fold_left]. replace (decls ++ p :: r)%list with ((decls ++ [p]) ++ r)%list
      by (now rewrite <- app_assoc).
    apply IH. now apply collected_add_pair.
Qed.

Lemma collected_vlan_configs (devices : dict string Device) :
  collected (vlan_configs devices) (declarations devices).
Proof.
  rewrite vlan_configs_flat.
  apply (collected_fold (declarations devices) [] []).
  split; [constructor|]. intros id n [].
Qed.

Lemma In_declarations (devices : dict string Device) (id : Z) (n : string) :
  In (id, n) (declarations devices)
  <-> exists device info, In device (values devices)
                          /\ In (id, info) (vlans device)
                          /\ vlan_name info = n.
Proof.
  unfold declarations. rewrite in_flat_map. split.
  - intros [device [Hd Hin]]. apply in_map_iff in Hin.
    destruct Hin as [[i info] [[= -> <-] Hin]]. now exists device, info.
  - intros [device [info [Hd [Hin <-]]]]. exists device. split; [exact Hd|].
    apply in_map_iff. now exists (id, info).
Qed.

Lemma fold_vlan_issues (m : dict Z (list string)) (v : ConfigValidator) :
  fold_left (fun v '(vlan_id, names) =>
               if (1 <? List.length names)%nat
               then add_issue (vlan_issue vlan_id names) v else v) m v
  = {| issues := (issues v
                  ++ map (fun '(vlan_id, names) => vlan_issue vlan_id names)
                         (filter (fun '(_, names) => (1 <? List.length names)%nat)
                                 m))%list;
       warnings := warnings v |}.
Proof.
  revert v. induction m as [|[k l] r IH]; intros v.
  - simpl. rewrite app_nil_r. now destruct v.
  - cbn [fold_left filter]. rewrite IH.
    destruct (1 <? List.length l)%nat; [|reflexivity].
    unfold add_issue. cbn [issues warnings map]. now rewrite <- app_assoc.
Qed.

Lemma vlan_issues_fields (l : list (Z * list string)) :
  Forall2 (fun vlan_id f =>
             f_type f = "vlan_inconsistency" /\ severity f = "medium"
             /\ recommendation f
                = "Use consistent name for VLAN " ++ str_int vlan_id)
          (map fst l)
          (map (fun '(vlan_id, names) => vlan_issue vlan_id names) l).
Proof.
  induction l as [|[k names] r IH]; [constructor|].
  cbn [map fst]. constructor; [|exact IH]. repeat split.
Qed.

(** X22.  [_check_vlan_consistency] leaves the warnings alone and appends
    one issue per VLAN id that two declarations give different names, each
    id at most once, and no issue for any other id; each issue has type
    [vlan_inconsistency], severity [medium] and the recommendation that
    names its id. *)
Theorem check_vlan_consistency_reports :
  forall (devices : dict string Device) (v : ConfigValidator),
    let v' := _check_vlan_consistency devices v in
    let reported := map fst (inconsistent devices) in
    warnings v' = warnings v
    /\ (exists new,
          issues v' = (issues v ++ new)%list
          /\ Forall2 (fun vlan_id f =>
                        f_type f = "vlan_inconsistency" /\ severity f = "medium"
                        /\ recommendation f
                           = "Use consistent name for VLAN " ++ str_int vlan_id)
                     reported new)
    /\ NoDup reported
    /\ forall id,
         In id reported
         <-> exists d1 d2 i1 i2,
               In d1 (values devices) /\ In d2 (values devices)
               /\ In (id, i1) (vlans d1) /\ In (id, i2) (vlans d2)
               /\ vlan_name i1 <> vlan_name i2.
Proof.
  intros devices v v' reported. subst v' reported.
  rewrite check_vlan_consistency_steps.
  destruct (collected_vlan_configs devices) as [Hkeys Hm].
  rewrite fold_vlan_issues.
  cbn [issues warnings]. fold (inconsistent devices).
  split; [reflexivity|].
  split; [eexists; split; [reflexivity|apply vlan_issues_fields]|].
  split.
  - unfold inconsistent. revert Hkeys. unfold keys.
    generalize (vlan_configs devices) as m.
    induction m as [|[k l] r IH]; intros Hnd; [constructor|].
    cbn [filter map fst] in *. inversion Hnd as [|? ? Hnotin Hr]; subst.
    destruct (1 <? List.length l)%nat; [|now apply IH].
    cbn [map fst]. constructor; [|now apply IH].
    intros Hin. apply Hnotin. apply in_map_iff in Hin.
    destruct Hin as [[k' l'] [E Hin]]. apply filter_In in Hin.
    apply in_map_iff. exists (k', l'). tauto.
  - intros id. unfold inconsistent. rewrite in_map_iff. split.
    + intros [[k l] [E Hin]]. cbn [fst] in E. subst k.
      apply filter_In in Hin. destruct Hin as [Hin Hlen].
      apply Nat.ltb_lt in Hlen.
      apply (In_get _ _ _ Hkeys) in Hin. specialize (Hm id).
      rewrite Hin in Hm. destruct Hm as [Hnd Hl].
      destruct l as [|n1 [|n2 q]]; cbn [List.length] in Hlen; try lia.
      assert (H1 : In (id, n1) (declarations devices))
        by (apply Hl; now left).
      assert (H2 : In (id, n2) (declarations devices))
        by (apply Hl; right; now left).
      apply In_declarations in H1. apply In_declarations in H2.
      destruct H1 as [d1 [i1 [Hd1 [Hi1 E1]]]].
      destruct H2 as [d2 [i2 [Hd2 [Hi2 E2]]]].
      exists d1, d2, i1, i2.
      split; [exact Hd1|]. split; [exact Hd2|].
      split; [exact Hi1|]. split; [exact Hi2|].
      rewrite E1, E2. intros ->. inversion Hnd as [|? ? Hnotin _]; subst.
      apply Hnotin. now left.
    + intros [d1 [d2 [i1 [i2 [Hd1 [Hd2 [Hi1 [Hi2 Hne]]]]]]]].
      assert (H1 : In (id, vlan_name i1) (declarations devices))
        by (apply In_declarations; now exists d1, i1).
      assert (H2 : In (id, vlan_name i2) (declarations devices))
        by (apply In_declarations; now exists d2, i2).
      specialize (Hm id). destruct (get id (vlan_configs devices)) as [l|] eqn:E;
        [|now apply Hm in H1].
      destruct Hm as [Hnd Hl]. apply Hl in H1. apply Hl in H2.
      exists (id, l). split; [reflexivity|]. apply filter_In.
      split; [now apply get_In|]. apply Nat.ltb_lt.
      destruct l as [|a [|b q]]; cbn [List.length]; try lia.
      * destruct H1.
      * destruct H1 as [H1|[]]. destruct H2 as [H2|[]]. congruence.
Qed.

End VlanNames.
